(** * Recording lifecycle coordinator: a shallow embedding

    The development follows the JavaScript sources of the meeting
    recorder extension, one module per source file:

    - [StorageManager]: [services/storage-manager.js];
    - [ApiService]: [services/api-service.js];
    - [RecordingManager]: [services/recording-manager.js], the coordinator
      (shipped in the same bundle as [ui/popup.js]);
    - [BackgroundService]: [background/service-worker.js], which serves
      the requests of the observers with a [RecordingManager];
    - [PopupController]: [ui/popup.js];
    - [BackgroundJs]: [background.js], the older single-file controller
      with its own [RecordingManager] and [syncPendingRecordings].

    JavaScript objects are finite maps from property names to values,
    [async] functions are programs of a small free monad whose [Await]
    nodes are the suspension points of the source, and
    [chrome.storage.local] is an explicit store threaded through the
    persistence functions. *)

From stdpp Require Import gmap strings list fin_maps pretty.

Local Open Scope Z_scope.

(* ===================================================================== *)
(** ** JavaScript values and objects *)
(* ===================================================================== *)

Module Js.

(** The primitive values the recorder stores in records and options.
    Timestamps ([Date] objects and their ISO renderings) are carried as
    [JNum] milliseconds since the epoch; binary payloads (a [Blob] or a
    base64 data URL) are carried as [JStr]. *)
Inductive JsVal : Type :=
| JUndefined
| JNull
| JBool (b : bool)
| JNum (n : Z)
| JStr (s : string).

#[global] Instance JsVal_eq_dec : EqDecision JsVal.
Proof. solve_decision. Defined.

(** ToBoolean. *)
Definition truthy (v : JsVal) : bool :=
  match v with
  | JUndefined | JNull => false
  | JBool b => b
  | JNum n => negb (n =? 0)
  | JStr s => negb (String.eqb s "")
  end.

(** [a || b] *)
Definition js_or (a b : JsVal) : JsVal := if truthy a then a else b.

(** Property read [o.k]: a missing property reads as [undefined]. *)
Definition prop (o : gmap string JsVal) (k : string) : JsVal :=
  default JUndefined (o !! k).

(** [Object.assign(target, source)] and, read right to left, the spread
    [{...target, ...source}]: the properties of [source] win. *)
Definition assign (target source : gmap string JsVal) : gmap string JsVal :=
  source ∪ target.

(** Strings. [s.includes(t)]; [s.replace(t, r)] for a string [t] and a
    replacement without [$]: the first occurrence; [s || fallback]. *)
Fixpoint drop_chars (n : nat) (s : string) : string :=
  match n, s with
  | S n, String _ s => drop_chars n s
  | _, _ => s
  end.

Fixpoint includes (t s : string) : bool :=
  String.prefix t s ||
  match s with
  | EmptyString => false
  | String _ s' => includes t s'
  end.

Fixpoint replace (t r s : string) : string :=
  if String.prefix t s then r +:+ drop_chars (String.length t) s
  else match s with
       | EmptyString => EmptyString
       | String c s' => String c (replace t r s')
       end.

Definition str_or (s fallback : string) : string :=
  if String.eqb s "" then fallback else s.

End Js.
Export Js.

Abbreviation Obj := (gmap string JsVal).

(** A tab as [chrome.tabs.query] describes it: [title] and [url] are
    there only when the extension may read them. *)
Record Tab : Type := mkTab {
  tab_title : option string;
  tab_url : option string
}.

(* ===================================================================== *)
(** ** Asynchronous programs *)
(* ===================================================================== *)

(** How a promise settles: fulfilled with a value or rejected with an
    error, of which only the [message] is ever read by the sources. *)
Inductive Settled (X : Type) : Type :=
| Fulfilled (x : X)
| Rejected (message : string).
Arguments Fulfilled {X} x.
Arguments Rejected {X} message.

(** A command for the Capture Surface (the offscreen document). *)
Record CaptureOptions : Type := mkCaptureOptions {
  includeScreen : JsVal;
  includeAudio : JsVal;
  includeSystemAudio : JsVal;
  videoQuality : JsVal;
  audioQuality : JsVal
}.

Record OffscreenMsg : Type := mkOffscreenMsg {
  om_action : string;
  om_options : option CaptureOptions
}.

(** The reply of the offscreen document to an awaited command. *)
Record Reply : Type := mkReply {
  reply_success : bool;
  reply_error : option string
}.

(** A message for a tab (content script or widget). *)
Record TabMsg : Type := mkTabMsg {
  tm_action : string;
  tm_isRecording : option bool;
  tm_startTime : option Z
}.

(** Awaited platform calls, indexed by the type of their result. *)
Inductive Req : Type -> Type :=
| GetContexts : Req nat
    (* chrome.runtime.getContexts({contextTypes:['OFFSCREEN_DOCUMENT']}),
       of which only [.length] is read *)
| CreateDocument (url : string) : Req unit
    (* chrome.offscreen.createDocument *)
| Timeout (ms : Z) : Req unit
    (* new Promise(resolve => setTimeout(resolve, ms)) *)
| SendMessage (m : OffscreenMsg) : Req (option Reply)
    (* await chrome.runtime.sendMessage({target:'offscreen', ...}) *)
| TabsQuery : Req (list Z)
    (* chrome.tabs.query({}), of which only the tab ids are read *)
| TabsSendMessage (tab : Z) (m : TabMsg) : Req unit.
    (* chrome.tabs.sendMessage(tab.id, ...) *)

(** Calls whose result is not awaited. *)
Inductive Event : Type :=
| SetBadgeText (text : string)
| SetBadgeBackgroundColor (color : string)
| PostOffscreen (m : OffscreenMsg)      (* sendToOffscreen of background.js *)
| Notification (title : string)         (* chrome.notifications.create *)
| ShowMessage (text : string) (type : string).   (* PopupController.showMessage *)

(** What an observer of the platform sees, in order. *)
Inductive Effect : Type :=
| Fired (ev : Event)
| Called {X : Type} (q : Req X).

Section Async.

Context {St : Type}.

(** A program over the fields [St] of [this]. JavaScript runs it without
    interruption up to the next [Await]. *)
Inductive Async (R : Type) : Type :=
| Ret (r : R)
| Throw (message : string)
| Get (k : St -> Async R)
| Put (s : St) (k : Async R)
| Clock (k : Z -> Async R)              (* new Date() / Date.now() *)
| Emit (ev : Event) (k : Async R)
| Await {X : Type} (q : Req X) (k : Settled X -> Async R).

Arguments Ret {R} r.
Arguments Throw {R} message.
Arguments Get {R} k.
Arguments Put {R} s k.
Arguments Clock {R} k.
Arguments Emit {R} ev k.
Arguments Await {R X} q k.

Fixpoint bind {A B : Type} (a : Async A) (f : A -> Async B) : Async B :=
  match a with
  | Ret r => f r
  | Throw e => Throw e
  | Get k => Get (fun s => bind (k s) f)
  | Put s k => Put s (bind k f)
  | Clock k => Clock (fun t => bind (k t) f)
  | Emit ev k => Emit ev (bind k f)
  | Await q k => Await q (fun x => bind (k x) f)
  end.

(** [try { a } catch (error) { h error.message }] *)
Fixpoint try_catch {R : Type} (a : Async R) (h : string -> Async R) : Async R :=
  match a with
  | Ret r => Ret r
  | Throw e => h e
  | Get k => Get (fun s => try_catch (k s) h)
  | Put s k => Put s (try_catch k h)
  | Clock k => Clock (fun t => try_catch (k t) h)
  | Emit ev k => Emit ev (try_catch k h)
  | Await q k => Await q (fun x => try_catch (k x) h)
  end.

(** [await q]: a rejected promise throws at the await. *)
Definition await {X : Type} (q : Req X) : Async X :=
  Await q (fun o => match o with
                    | Fulfilled x => Ret x
                    | Rejected e => Throw e
                    end).

Definition get : Async St := Get (fun s => Ret s).
Definition put (s : St) : Async unit := Put s (Ret tt).
Definition modify (f : St -> St) : Async unit := Get (fun s => Put (f s) (Ret tt)).
Definition clock : Async Z := Clock (fun t => Ret t).
Definition emit (ev : Event) : Async unit := Emit ev (Ret tt).

(** *** Uninterrupted execution

    [run now env a s log] executes [a] to its end when no other call is
    scheduled at its suspension points: every awaited call [q] settles
    as [env _ q], and the clock reads [now]. *)
Fixpoint run {R : Type} (now : Z) (env : forall X, Req X -> Settled X)
    (a : Async R) (s : St) (log : list Effect) : St * list Effect * Settled R :=
  match a with
  | Ret r => (s, log, Fulfilled r)
  | Throw e => (s, log, Rejected e)
  | Get k => run now env (k s) s log
  | Put s' k => run now env k s' log
  | Clock k => run now env (k now) s log
  | Emit ev k => run now env k s (log ++ [Fired ev])
  | Await q k => run now env (k (env _ q)) s (log ++ [Called q])
  end.

(** *** Execution up to the next suspension point *)
Inductive Status (R : Type) : Type :=
| Finished (r : Settled R)
| Suspended {X : Type} (q : Req X) (k : Settled X -> Async R).
Arguments Finished {R} r.
Arguments Suspended {R X} q k.

Fixpoint segment {R : Type} (now : Z) (a : Async R) (s : St) (log : list Effect)
    : St * list Effect * Status R :=
  match a with
  | Ret r => (s, log, Finished (Fulfilled r))
  | Throw e => (s, log, Finished (Rejected e))
  | Get k => segment now (k s) s log
  | Put s' k => segment now k s' log
  | Clock k => segment now (k now) s log
  | Emit ev k => segment now k s (log ++ [Fired ev])
  | Await q k => (s, log ++ [Called q], Suspended q k)
  end.

(** *** Cooperative scheduling

    A configuration holds the shared fields of [this], the effects
    observed so far and the calls in flight. A step either starts a new
    call, which runs to its first suspension point, or settles the
    awaited promise of a suspended call and runs it to its next one. *)
Record Config (R : Type) : Type := mkConfig {
  cfg_state : St;
  cfg_log : list Effect;
  cfg_tasks : list (Status R)
}.
Arguments mkConfig {R} _ _ _.
Arguments cfg_state {R} _.
Arguments cfg_log {R} _.
Arguments cfg_tasks {R} _.

Inductive sched_step {R : Type} : Config R -> Config R -> Prop :=
| sched_call (now : Z) (a : Async R) (c : Config R) s' log' st :
    segment now a (cfg_state c) (cfg_log c) = (s', log', st) ->
    sched_step c (mkConfig s' log' (cfg_tasks c ++ [st]))
| sched_settle (now : Z) (i : nat) {X : Type} (q : Req X) k (o : Settled X)
      (c : Config R) s' log' st :
    cfg_tasks c !! i = Some (Suspended q k) ->
    segment now (k o) (cfg_state c) (cfg_log c) = (s', log', st) ->
    sched_step c (mkConfig s' log' (<[i := st]> (cfg_tasks c))).

Inductive sched_steps {R : Type} : Config R -> Config R -> Prop :=
| sched_refl c : sched_steps c c
| sched_trans c1 c2 c3 : sched_step c1 c2 -> sched_steps c2 c3 -> sched_steps c1 c3.

End Async.

Arguments Async St R : clear implicits.
Arguments Status St R : clear implicits.
Arguments Config St R : clear implicits.
Arguments Ret {St R} r.
Arguments Throw {St R} message.
Arguments Get {St R} k.
Arguments Put {St R} s k.
Arguments Clock {St R} k.
Arguments Emit {St R} ev k.
Arguments Await {St R X} q k.
Arguments Finished {St R} r.
Arguments Suspended {St R X} q k.
Arguments mkConfig {St R} _ _ _.
Arguments cfg_state {St R} _.
Arguments cfg_log {St R} _.
Arguments cfg_tasks {St R} _.

#[global] Instance Async_ret {St} : MRet (Async St) := fun _ r => Ret r.
#[global] Instance Async_bind {St} : MBind (Async St) := fun _ _ f a => bind a f.

(** The response object returned to the requesting observer:
    [{success, startTime?, message?, error?}]. *)
Record Response : Type := mkResponse {
  success : bool;
  resp_startTime : option Z;
  resp_message : option string;
  resp_error : option string
}.

Definition succeeded : Response := mkResponse true None None None.
Definition failed (error : string) : Response := mkResponse false None None (Some error).

(** [options.f || false] and [options.q || 'medium'], as both controllers
    build the options of the start-capture command. *)
Definition capture_options (options : Obj) : CaptureOptions :=
  {| includeScreen := js_or (prop options "includeScreen") (JBool false);
     includeAudio := js_or (prop options "includeAudio") (JBool false);
     includeSystemAudio := js_or (prop options "includeSystemAudio") (JBool false);
     videoQuality := js_or (prop options "videoQuality") (JStr "medium");
     audioQuality := js_or (prop options "audioQuality") (JStr "medium") |}.

(* ===================================================================== *)
(** ** Persistence and the remote API *)
(* ===================================================================== *)

(** [chrome.storage.local], restricted to the two collections. A key that
    was never written reads as [undefined], which every reader replaces by
    the empty array. The store is total: quota and I/O failures of the
    browser are not part of the model. *)
Record Storage : Type := mkStorage {
  recordings : option (list Obj);        (* key 'recordings': synced collection *)
  localRecordings : option (list Obj)    (* key 'localRecordings': local collection *)
}.

(** What the persistence layer and the network observe, in order. *)
Inductive IoEvent : Type :=
| StorageGet (key : string)
| StorageSet (key : string) (value : list Obj)
| Fetch (payload : JsVal)
| Upload (blob : string) (metadata : Obj)
| Notify (title : string).

Record World : Type := mkWorld {
  storage : Storage;
  io : list IoEvent
}.

Definition record_io (e : IoEvent) (w : World) : World :=
  mkWorld (storage w) (io w ++ [e]).

Definition set_recordings (value : list Obj) (w : World) : World :=
  mkWorld (mkStorage (Some value) (localRecordings (storage w)))
          (io w ++ [StorageSet "recordings" value]).

Definition set_localRecordings (value : list Obj) (w : World) : World :=
  mkWorld (mkStorage (recordings (storage w)) (Some value))
          (io w ++ [StorageSet "localRecordings" value]).

(** The network, as the sources use it.
    - [fetch_blob v] is [fetch(v).then(r => r.blob())]: [None] when it
      throws.
    - [upload blob metadata] is [uploadRecording(blob, metadata)] of either
      controller, which catches every failure (network, authentication,
      non-2xx status, [success:false] body): [None] stands for
      [{success:false, error}] and [Some r] for a success carrying the
      object [r] sent back by the server. *)
Record Network : Type := mkNetwork {
  fetch_blob : JsVal -> option string;
  upload : string -> Obj -> option Obj
}.

(** [r => r.needsSync] *)
Definition needsSync (r : Obj) : bool := truthy (prop r "needsSync").

(** The result of a reconciliation: [{success: true, synced}]. *)
Record SyncResult : Type := mkSyncResult {
  sync_success : bool;
  synced : nat
}.

(* ===================================================================== *)
(** ** services/storage-manager.js *)
(* ===================================================================== *)

Module StorageManager.

(** [addRecording(recording)] *)
Definition addRecording (recording : Obj) (w : World) : World :=
  let w := record_io (StorageGet "recordings") w in
  let recordings := default [] (recordings (storage w)) in
  (* Add new recording to the beginning; keep only the last 100 *)
  let trimmedRecordings := take 100 (recording :: recordings) in
  set_recordings trimmedRecordings w.

(** [addLocalRecording(recording)] *)
Definition addLocalRecording (recording : Obj) (w : World) : World :=
  let w := record_io (StorageGet "localRecordings") w in
  let localRecordings := default [] (localRecordings (storage w)) in
  (* Keep only the last 50 local recordings (they're larger) *)
  let trimmedRecordings := take 50 (recording :: localRecordings) in
  set_localRecordings trimmedRecordings w.

(** The local variables of the loop of [syncPendingRecordings]. *)
Record SyncLoop : Type := mkSyncLoop {
  updatedLocalRecordings : list Obj;
  syncedCount : nat;
  world : World
}.

(** [updatedLocalRecordings.findIndex(r => r.id === recording.id)];
    [None] stands for [-1], and [===] on the primitive values of [JsVal]
    is equality. *)
Definition findIndex (id : JsVal) (l : list Obj) : option nat :=
  fst <$> list_find (fun r : Obj => prop r "id" = id) l.

(** [{...uploadResult.recording, needsSync: false, isLocal: false}]
    followed by [delete ....blob]. *)
Definition mark_synced (recording : Obj) : Obj :=
  delete "blob" (<["isLocal" := JBool false]> (<["needsSync" := JBool false]> recording)).

(** One iteration of [for (const recording of pendingRecordings)],
    with its [try]/[catch]. *)
Definition sync_recording (net : Network) (st : SyncLoop) (recording : Obj) : SyncLoop :=
  (* Convert blob data back to blob for upload *)
  let w := record_io (Fetch (prop recording "blob")) (world st) in
  match fetch_blob net (prop recording "blob") with
  | None => (* caught: console.error *)
      mkSyncLoop (updatedLocalRecordings st) (syncedCount st) w
  | Some blob =>
      (* Remove blob from metadata *)
      let metadata := delete "blob" recording in
      let w := record_io (Upload blob metadata) w in
      match upload net blob metadata with
      | None => mkSyncLoop (updatedLocalRecordings st) (syncedCount st) w
      | Some uploaded =>
          (* Update the local recording to mark as synced *)
          let updated :=
            match findIndex (prop recording "id") (updatedLocalRecordings st) with
            | Some recordingIndex =>
                <[recordingIndex := mark_synced uploaded]> (updatedLocalRecordings st)
            | None => updatedLocalRecordings st
            end in
          (* Also add to cloud recordings *)
          let w := addRecording uploaded w in
          mkSyncLoop updated (S (syncedCount st)) w
      end
  end.

(** [syncPendingRecordings()] *)
Definition syncPendingRecordings (net : Network) (w : World) : World * SyncResult :=
  let w := record_io (StorageGet "localRecordings") w in
  let localRecordings := default [] (localRecordings (storage w)) in
  let pendingRecordings := List.filter needsSync localRecordings in
  if Nat.eqb (length pendingRecordings) 0 then
    (w, mkSyncResult true 0)
  else
    let st := foldl (sync_recording net) (mkSyncLoop localRecordings 0 w) pendingRecordings in
    (* Update local recordings *)
    let w := set_localRecordings (updatedLocalRecordings st) (world st) in
    (w, mkSyncResult true (syncedCount st)).

(** *** Deletion and queries *)

(** [deleteRecording(id)]: [r.id !== id] compares primitive values. *)
Definition deleteRecording (id : JsVal) (w : World) : World * bool :=
  (* Try to delete from cloud recordings first *)
  let w := record_io (StorageGet "recordings") w in
  let cloudRecordings := default [] (recordings (storage w)) in
  let updatedCloudRecordings :=
    List.filter (fun r : Obj => bool_decide (prop r "id" ≠ id)) cloudRecordings in
  if (length updatedCloudRecordings <? length cloudRecordings)%nat then
    (set_recordings updatedCloudRecordings w, true)
  else
    (* Try to delete from local recordings *)
    let w := record_io (StorageGet "localRecordings") w in
    let localRecordings := default [] (localRecordings (storage w)) in
    let updatedLocalRecordings :=
      List.filter (fun r : Obj => bool_decide (prop r "id" ≠ id)) localRecordings in
    if (length updatedLocalRecordings <? length localRecordings)%nat then
      (set_localRecordings updatedLocalRecordings w, true)
    else
      (w, false).

Section Queries.

(** [Array.prototype.sort] with the comparator
    [(a, b) => new Date(b.startTime || b.createdAt)
               - new Date(a.startTime || a.createdAt)].
    The order it gives depends on the dates and, where a record has none,
    on the engine; the queries are parametric in it. *)
Variable by_date : list Obj -> list Obj.

(** [getRecordings()]; the one read of both keys is recorded key by
    key. *)
Definition getRecordings (w : World) : World * list Obj :=
  let w := record_io (StorageGet "recordings") w in
  let w := record_io (StorageGet "localRecordings") w in
  let cloudRecordings := default [] (recordings (storage w)) in
  let localRecordings := default [] (localRecordings (storage w)) in
  (* Combine and sort by date (most recent first) *)
  (w, by_date (cloudRecordings ++ localRecordings)).

(** [getRecording(id)]: [None] is [undefined]. *)
Definition getRecording (id : JsVal) (w : World) : World * option Obj :=
  let '(w, recordings) := getRecordings w in
  (w, List.find (fun r : Obj => bool_decide (prop r "id" = id)) recordings).

End Queries.

(** *** Settings and API configuration *)

(** A stored value that is an object when it is there: [undefined],
    [null] or the object. *)
Inductive Stored : Type :=
| Absent
| Null
| Object (o : Obj).

(** The keys 'settings' and 'apiConfig' of [chrome.storage.local]. *)
Record Prefs : Type := mkPrefs {
  settings : option Obj;
  apiConfig : Stored
}.

(** [getSettings()]: [None] is [undefined]. *)
Definition getSettings (p : Prefs) : option Obj := settings p.

(** [updateSettings(newSettings)] *)
Definition updateSettings (newSettings : Obj) (p : Prefs) : Prefs * Obj :=
  let currentSettings := default ∅ (getSettings p) in
  let updatedSettings := assign currentSettings newSettings in
  (mkPrefs (Some updatedSettings) (apiConfig p), updatedSettings).

(** [getApiConfig()] *)
Definition getApiConfig (p : Prefs) : Stored := apiConfig p.

(** [updateApiConfig(config)] *)
Definition updateApiConfig (config : Stored) (p : Prefs) : Prefs :=
  mkPrefs (settings p) config.

Definition defaultSettings : Obj :=
  <["videoQuality" := JStr "medium"]>
    (<["audioQuality" := JStr "medium"]>
       (<["autoUpload" := JBool true]>
          (<["notifications" := JBool true]>
             (<["theme" := JStr "system"]> ∅)))).

(** [initialize()]: an array is truthy also when it is empty, so
    [!recordings] holds for a key that was never written only. *)
Definition initialize (p : Prefs) (w : World) : Prefs * World :=
  let existingSettings := getSettings p in
  let p := match existingSettings with
           | None => mkPrefs (Some defaultSettings) (apiConfig p)
           | Some _ => p
           end in
  (* Initialize empty recordings arrays if not present *)
  let w := record_io (StorageGet "recordings") w in
  let w := record_io (StorageGet "localRecordings") w in
  let recordings := recordings (storage w) in
  let localRecordings := localRecordings (storage w) in
  let w := match recordings with None => set_recordings [] w | Some _ => w end in
  let w := match localRecordings with None => set_localRecordings [] w | Some _ => w end in
  (p, w).

End StorageManager.

(* ===================================================================== *)
(** ** services/api-service.js *)
(* ===================================================================== *)

(** [String(v)], as a template literal and [new Error(v)] apply it;
    numbers are integers and print in decimal. *)
Definition to_string (v : JsVal) : string :=
  match v with
  | JUndefined => "undefined"
  | JNull => "null"
  | JBool true => "true"
  | JBool false => "false"
  | JNum n => pretty n
  | JStr s => s
  end.

Module ApiService.

(** What is handed to [fetch]. *)
Inductive Body : Type :=
| NoBody
| JsonBody (o : Obj)                               (* JSON.stringify(o) *)
| FormBody (recording : string) (metadata : Obj).  (* FormData: the payload and the metadata *)

Record Request : Type := mkRequest {
  endpoint : string;          (* the URL after [baseURL] *)
  method : option string;     (* [None]: not given *)
  headers : Obj;
  body : Body
}.

(** The parsed answer of the server: its members of primitive type, and
    the members [recording] and [recordings] where it has them. *)
Record Json : Type := mkJson {
  json_fields : Obj;
  json_recording : option Obj;
  json_recordings : option (list Obj)
}.

(** [fetch] followed by the check of [response.ok] and by
    [response.json()]: [Rejected e] when one of them throws, [e] being the
    message of the error. *)
Definition Server : Type := Request -> Settled Json.

(** An instance of the class with the part of the store it reads and
    writes, and the requests it has made. *)
Record Client : Type := mkClient {
  defaultHeaders : Obj;
  prefs : StorageManager.Prefs;
  sent : list Request
}.

(** [constructor()] *)
Definition constructor (p : StorageManager.Prefs) : Client :=
  mkClient (<["Content-Type" := JStr "application/json"]> ∅) p [].

(** What [getAuthHeaders] returns: a new object, or [this.defaultHeaders]
    itself. *)
Inductive HeadersRef : Type :=
| Own (o : Obj)
| Default.

(** [getAuthHeaders()] *)
Definition getAuthHeaders (c : Client) : HeadersRef :=
  match StorageManager.getApiConfig (prefs c) with
  | StorageManager.Object apiConfig =>
      if truthy (prop apiConfig "apiKey") then
        Own (<["Authorization" := JStr ("Bearer " +:+ to_string (prop apiConfig "apiKey"))]>
               (defaultHeaders c))
      else Default
  | _ => Default
  end.

Definition deref (c : Client) (h : HeadersRef) : Obj :=
  match h with
  | Own o => o
  | Default => defaultHeaders c
  end.

Definition send (request : Request) (c : Client) : Client :=
  mkClient (defaultHeaders c) (prefs c) (sent c ++ [request]).

(** [makeRequest(endpoint, options)], for the options its callers pass:
    a method and a body, no headers. *)
Definition makeRequest (server : Server) (endpoint : string) (method : option string)
    (body : Body) (c : Client) : Client * Settled Json :=
  let headers := deref c (getAuthHeaders c) in
  (* {...headers, ...options.headers} *)
  let request := mkRequest endpoint method (assign headers ∅) body in
  (send request c, server request).

(** [uploadRecording(blob, metadata)]: [Some r] is
    [{success: true, recording: r}] and [None] is [{success: false, error}].
    The file name of the payload, made from the clock, is left out. *)
Definition uploadRecording (server : Server) (blob : string) (metadata : Obj) (c : Client)
    : Client * option Obj :=
  let headers := getAuthHeaders c in
  (* delete headers['Content-Type'] *)
  let c := match headers with
           | Own _ => c
           | Default => mkClient (delete "Content-Type" (defaultHeaders c)) (prefs c) (sent c)
           end in
  let headers := match headers with
                 | Own o => Own (delete "Content-Type" o)
                 | Default => Default
                 end in
  let request := mkRequest "/recordings/upload" (Some "POST") (deref c headers)
                   (FormBody blob metadata) in
  let c := send request c in
  match server request with
  | Fulfilled result =>
      if truthy (prop (json_fields result) "success") then
        (* [result.recording.id] is read for the console *)
        (c, json_recording result)
      else (c, None)
  | Rejected _ => (c, None)
  end.

(** [getRecordings()] with its default arguments. *)
Definition getRecordings (server : Server) (c : Client) : Client * Settled (list Obj) :=
  let '(c, answer) := makeRequest server "/recordings?limit=50&offset=0" None NoBody c in
  match answer with
  | Fulfilled data => (c, Fulfilled (default [] (json_recordings data)))
  | Rejected error => (c, Rejected error)
  end.

(** [deleteRecording(id)] *)
Definition deleteRecording (server : Server) (id : JsVal) (c : Client) : Client * Response :=
  let '(c, answer) :=
    makeRequest server ("/recordings/" +:+ to_string id) (Some "DELETE") NoBody c in
  match answer with
  | Fulfilled _ => (c, succeeded)
  | Rejected error => (c, failed error)
  end.

(** The result of [authenticateUser]: [{success: true, user}] or
    [{success: false, error}]. *)
Inductive AuthResult : Type :=
| Authenticated (user : JsVal)
| Refused (error : string).

(** [authenticateUser(credentials)] *)
Definition authenticateUser (server : Server) (credentials : Obj) (c : Client)
    : Client * AuthResult :=
  let '(c, answer) := makeRequest server "/auth/login" (Some "POST") (JsonBody credentials) c in
  match answer with
  | Fulfilled data =>
      let data := json_fields data in
      if truthy (prop data "success") && truthy (prop data "accessToken") then
        (* Store API configuration *)
        let config :=
          <["apiKey" := prop data "accessToken"]>
            (<["user" := prop data "user"]>
               (<["expiresAt" := prop data "expiresAt"]> ∅)) in
        (mkClient (defaultHeaders c)
                  (StorageManager.updateApiConfig (StorageManager.Object config) (prefs c))
                  (sent c),
         Authenticated (prop data "user"))
      else
        (c, Refused (to_string (js_or (prop data "message") (JStr "Authentication failed"))))
  | Rejected error => (c, Refused error)
  end.

(** [logoutUser()] *)
Definition logoutUser (server : Server) (c : Client) : Client * Response :=
  let '(c, answer) := makeRequest server "/auth/logout" (Some "POST") NoBody c in
  match answer with
  | Fulfilled _ =>
      (* Clear local API configuration *)
      (mkClient (defaultHeaders c)
                (StorageManager.updateApiConfig StorageManager.Null (prefs c))
                (sent c),
       succeeded)
  | Rejected error => (c, failed error)
  end.

End ApiService.

(* ===================================================================== *)
(** ** services/recording-manager.js *)
(* ===================================================================== *)

Module RecordingManager.

(** The fields of [this] that are ever read. [recordingData],
    [mediaRecorder], [stream] and [offscreenDocument] are only ever
    assigned their initial values. *)
Record Manager : Type := mkManager {
  isRecording : bool;
  isPaused : bool;
  startTime : option Z;
  pausedTime : Z
}.

(** [constructor] *)
Definition initial : Manager := mkManager false false None 0.

(** [cleanup()] *)
Definition cleanup_state : Manager := mkManager false false None 0.

Definition cleanup : Async Manager unit := put cleanup_state.

(** [ensureOffscreenDocument()] *)
Definition ensureOffscreenDocument : Async Manager unit :=
  try_catch
    (existingContexts ← await GetContexts;
     if Nat.eqb existingContexts 0 then
       await (CreateDocument "ui/offscreen.html");;
       await (Timeout 1000)
     else Ret tt)
    (fun _ => Throw "Failed to initialize recording system").

(** [result?.error || 'Failed to start recording'] *)
Definition error_or (result : option Reply) (fallback : string) : string :=
  match result with
  | Some r =>
      match reply_error r with
      | Some e => if String.eqb e "" then fallback else e
      | None => fallback
      end
  | None => fallback
  end.

Definition command (action : string) : OffscreenMsg :=
  {| om_action := action; om_options := None |}.

(** [startRecording(options = {})] *)
Definition startRecording (options : Obj) : Async Manager Response :=
  try_catch
    (s ← get;
     if isRecording s then Throw "Recording already in progress" else
     (* Ensure offscreen document is available *)
     ensureOffscreenDocument;;
     (* Reset state *)
     now ← clock;
     modify (fun s => mkManager (isRecording s) (isPaused s) (Some now) 0);;
     (* Send recording start message to offscreen document *)
     result ← await (SendMessage
                       {| om_action := "START_CAPTURE";
                          om_options := Some (capture_options options) |});
     if match result with Some r => reply_success r | None => false end then
       modify (fun s => mkManager true false (startTime s) (pausedTime s));;
       s ← get;
       match startTime s with
       | Some t => Ret (mkResponse true (Some t) None None)
       | None => Throw "Cannot read properties of null (reading 'toISOString')"
       end
     else Throw (error_or result "Failed to start recording"))
    (fun error => cleanup;; Ret (failed error)).

(** [stopRecording()] *)
Definition stopRecording : Async Manager Response :=
  try_catch
    (s ← get;
     if negb (isRecording s) then Throw "No recording in progress" else
     await (SendMessage (command "STOP_CAPTURE"));;
     modify (fun s => mkManager false false (startTime s) (pausedTime s));;
     Ret succeeded)
    (fun error => cleanup;; Ret (failed error)).

(** [pauseRecording()] *)
Definition pauseRecording : Async Manager Response :=
  try_catch
    (s ← get;
     if negb (isRecording s) || isPaused s then Throw "No active recording to pause" else
     await (SendMessage (command "PAUSE_CAPTURE"));;
     modify (fun s => mkManager (isRecording s) true (startTime s) (pausedTime s));;
     Ret succeeded)
    (fun error => Ret (failed error)).

(** [resumeRecording()] *)
Definition resumeRecording : Async Manager Response :=
  try_catch
    (s ← get;
     if negb (isRecording s) || negb (isPaused s) then Throw "No paused recording to resume" else
     await (SendMessage (command "RESUME_CAPTURE"));;
     modify (fun s => mkManager (isRecording s) false (startTime s) (pausedTime s));;
     Ret succeeded)
    (fun error => Ret (failed error)).

(** [getDuration()], read when the clock shows [now]. *)
Definition getDuration (now : Z) (s : Manager) : Z :=
  match startTime s with
  | None => 0
  | Some t =>
      let now := if isRecording s then now else t in
      (now - t) / 1000 - pausedTime s
  end.

(** [getStatus()] *)
Record StatusReport : Type := mkStatusReport {
  st_success : bool;
  st_isRecording : bool;
  st_isPaused : bool;
  st_startTime : option Z;
  st_duration : Z
}.

Definition getStatus (now : Z) (s : Manager) : StatusReport :=
  {| st_success := true;
     st_isRecording := isRecording s;
     st_isPaused := isPaused s;
     st_startTime := startTime s;
     st_duration := getDuration now s |}.

(** The terminal artifact handed over by the Capture Surface:
    [{blob, mimeType, size}]. *)
Record Artifact : Type := mkArtifact {
  art_blob : string;
  art_mimeType : JsVal;
  art_size : JsVal
}.

Section Completion.

(** [String.prototype.trim]: what counts as white space depends on the
    encoding of the title, so the function is a parameter. *)
Variable trim : string -> string.

(** [title.replace(/ - [^-]*$/, '')]: the match starts at the first
    ' - ' that no hyphen follows. *)
Fixpoint drop_last_part (title : string) : string :=
  match title with
  | EmptyString => EmptyString
  | String c rest =>
      if String.prefix " - " title && negb (includes "-" (drop_chars 3 title))
      then EmptyString
      else String c (drop_last_part rest)
  end.

(** [extractMeetingTitle(tab)]: [None] when it throws, which it does for a
    tab whose [url] or [title] is [undefined]. *)
Definition extractMeetingTitle (tab : option Tab) : option string :=
  match tab with
  | None => Some "Meeting Recording"
  | Some tab =>
      match tab_url tab, tab_title tab with
      | Some url, Some title =>
          (* Extract meaningful title from meeting platforms *)
          if includes "meet.google.com" url then
            Some (str_or (replace " - Google Meet" "" title) "Google Meet")
          else if includes "zoom.us" url then
            Some (str_or (replace "Zoom Meeting" "Zoom Meeting" title) "Zoom Meeting")
          else if includes "teams.microsoft.com" url then
            Some (str_or (replace " | Microsoft Teams" "" title) "Microsoft Teams Meeting")
          else if includes "webex.com" url then
            Some (str_or (replace " - Cisco Webex" "" title) "Webex Meeting")
          else
            (* Generic title cleanup *)
            let cleanTitle :=
              trim (drop_last_part
                      (if String.prefix "Meeting -, " title
                       then drop_chars 11 title else title)) in
            Some (str_or cleanTitle "Meeting Recording")
      | _, _ => None
      end
  end.

(** [handleRecordingData(data)].

    [now] is the clock when the function is entered and [saved_at] the
    clock when the fallback record is built ([Date.now()]); [tabs] is how
    [chrome.tabs.query({active: true, currentWindow: true})] settles. A
    rejected query, a title that cannot be extracted and a session
    without [startTime] all end in the outer [catch]. *)
Definition handleRecordingData (net : Network) (now saved_at : Z)
    (tabs : Settled (list Tab)) (data : Artifact) (s : Manager) (w : World)
    : Manager * World :=
  let endTime := now in
  let duration := getDuration now s in
  (* Get current tab information *)
  match tabs with
  | Rejected _ => (s, record_io (Notify "Recording Error") w)
  | Fulfilled tabs =>
      let currentTab := head tabs in
      match extractMeetingTitle currentTab, startTime s with
      | Some title, Some started =>
          let metadata : Obj :=
            <["title" := JStr title]>
              (<["url" := JStr (str_or (default "" (currentTab ≫= tab_url)) "")]>
                 (<["duration" := JNum duration]>
                    (<["startTime" := JNum started]>
                       (<["endTime" := JNum endTime]>
                          (<["fileSize" := art_size data]>
                             (<["mimeType" := art_mimeType data]> ∅)))))) in
          (* Try to upload to cloud first, fallback to local storage *)
          let w := record_io (Upload (art_blob data) metadata) w in
          let w :=
            match upload net (art_blob data) metadata with
            | Some recording =>
                (* Store metadata in local storage *)
                let w := StorageManager.addRecording recording w in
                record_io (Notify "Recording Saved") w
            | None =>
                (* Save locally with sync pending *)
                let localRecording : Obj :=
                  <["blob" := JStr (art_blob data)]>
                    (<["needsSync" := JBool true]>
                       (<["isLocal" := JBool true]>
                          (assign {["id" := JStr ("local-" +:+ pretty saved_at)]} metadata))) in
                let w := StorageManager.addLocalRecording localRecording w in
                record_io (Notify "Recording Saved Locally") w
            end in
          (cleanup_state, w)
      | _, _ =>
          (* extractMeetingTitle or this.startTime.toISOString() throws;
             outer catch *)
          (s, record_io (Notify "Recording Error") w)
      end
  end.

End Completion.

End RecordingManager.

(* ===================================================================== *)
(** ** background/service-worker.js *)
(* ===================================================================== *)

Module BackgroundService.

Import RecordingManager.

Definition tab_message (action : string) (startTime : option Z) : TabMsg :=
  {| tm_action := action; tm_isRecording := None; tm_startTime := startTime |}.

(** The [for (const tab of tabs)] loop of [notifyAllTabs]. *)
Fixpoint notify_tabs (tabs : list Z) (m : TabMsg) : Async Manager unit :=
  match tabs with
  | [] => Ret tt
  | tab :: tabs =>
      try_catch (await (TabsSendMessage tab m)) (fun _ => Ret tt);;
      notify_tabs tabs m
  end.

(** [notifyAllTabs(action, data = {})] *)
Definition notifyAllTabs (action : string) (startTime : option Z) : Async Manager unit :=
  try_catch
    (tabs ← await TabsQuery;
     notify_tabs tabs (tab_message action startTime))
    (fun _ => Ret tt).

(** [startRecording(options = {})] *)
Definition startRecording (options : Obj) : Async Manager Response :=
  try_catch
    (result ← RecordingManager.startRecording options;
     (if success result then
        emit (SetBadgeText "REC");;
        emit (SetBadgeBackgroundColor "#EF4444");;
        now ← clock;
        notifyAllTabs "RECORDING_STARTED" (Some now);;
        emit (Notification "Recording Started")
      else Ret tt);;
     Ret result)
    (fun error => Ret (failed error)).

(** [stopRecording()] *)
Definition stopRecording : Async Manager Response :=
  try_catch
    (result ← RecordingManager.stopRecording;
     (if success result then
        emit (SetBadgeText "");;
        notifyAllTabs "RECORDING_STOPPED" None;;
        emit (Notification "Recording Stopped")
      else Ret tt);;
     Ret result)
    (fun error => Ret (failed error)).

(** [pauseRecording()] *)
Definition pauseRecording : Async Manager Response :=
  try_catch
    (result ← RecordingManager.pauseRecording;
     (if success result then
        emit (SetBadgeText "||");;
        notifyAllTabs "RECORDING_PAUSED" None
      else Ret tt);;
     Ret result)
    (fun error => Ret (failed error)).

(** [resumeRecording()] *)
Definition resumeRecording : Async Manager Response :=
  try_catch
    (result ← RecordingManager.resumeRecording;
     (if success result then
        emit (SetBadgeText "REC");;
        notifyAllTabs "RECORDING_RESUMED" None
      else Ret tt);;
     Ret result)
    (fun error => Ret (failed error)).

(** [getRecordingStatus()] *)
Definition getRecordingStatus (now : Z) (s : Manager) : StatusReport :=
  RecordingManager.getStatus now s.


(** *** The stored recordings *)

(** What the handlers of the stored recordings work on: the collections
    of the store, and the [ApiService] of the service worker, which
    carries the keys 'settings' and 'apiConfig' of the same store. *)
Record Backend : Type := mkBackend {
  store : World;
  api : ApiService.Client
}.

(** [handleInstall(details)], given [details.reason]: the store after it
    and the badge calls it makes. *)
Definition handleInstall (reason : JsVal) (p : StorageManager.Prefs) (w : World)
    : StorageManager.Prefs * World * list Event :=
  if bool_decide (reason = JStr "install") then
    (* Initialize default settings *)
    let '(p, w) := StorageManager.initialize p w in
    (p, w, [SetBadgeText ""; SetBadgeBackgroundColor "#4F46E5"])
  else (p, w, []).

(** [getRecordings()]: [Some l] is [{success: true, recordings: l}] and
    [None] is [{success: false, error}]. *)
Definition getRecordings (by_date : list Obj -> list Obj) (server : ApiService.Server)
    (b : Backend) : Backend * option (list Obj) :=
  let '(w, localRecordings) := StorageManager.getRecordings by_date (store b) in
  match StorageManager.getSettings (ApiService.prefs (api b)) with
  | None =>
      (* [settings.apiKey] throws a TypeError, which is caught *)
      (mkBackend w (api b), None)
  | Some settings =>
      (* Fetch from API if authenticated *)
      if truthy (prop settings "apiKey") then
        let '(c, cloudRecordings) := ApiService.getRecordings server (api b) in
        match cloudRecordings with
        | Fulfilled cloudRecordings =>
            (mkBackend w c,
             Some (cloudRecordings
                     ++ List.filter (fun r : Obj => truthy (prop r "isLocal")) localRecordings))
        | Rejected _ => (mkBackend w c, Some localRecordings)
        end
      else (mkBackend w (api b), Some localRecordings)
  end.

(** [deleteRecording(recordingId)] *)
Definition deleteRecording (by_date : list Obj -> list Obj) (server : ApiService.Server)
    (recordingId : JsVal) (b : Backend) : Backend * Response :=
  (* Delete from local storage *)
  let '(w, _) := StorageManager.deleteRecording recordingId (store b) in
  (* Delete from API if not local *)
  let '(w, recording) := StorageManager.getRecording by_date recordingId w in
  match recording with
  | Some recording =>
      if negb (truthy (prop recording "isLocal")) then
        let '(c, _) := ApiService.deleteRecording server recordingId (api b) in
        (mkBackend w c, succeeded)
      else (mkBackend w (api b), succeeded)
  | None => (mkBackend w (api b), succeeded)
  end.

End BackgroundService.

(* ===================================================================== *)
(** ** ui/popup.js *)
(* ===================================================================== *)

Module PopupController.

Import RecordingManager.

(** [startRecording()], given the three checkboxes of the popup. The
    message [{action:'START_RECORDING', data: options}] is answered by
    [BackgroundService.handleMessage], that is by
    [BackgroundService.startRecording options]. Updating the popup's own
    copy of the status and its timer is presentation and left out. *)
Definition startRecording (include_screen include_audio include_system_audio : bool)
    : Async Manager unit :=
  try_catch
    (emit (ShowMessage "Starting recording..." "info");;
     let options : Obj :=
       <["includeScreen" := JBool include_screen]>
         (<["includeAudio" := JBool include_audio]>
            (<["includeSystemAudio" := JBool include_system_audio]> ∅)) in
     if negb include_screen && negb include_audio then
       emit (ShowMessage "Please select at least one recording option" "error")
     else
       response ← BackgroundService.startRecording options;
       if success response then
         emit (ShowMessage "Recording started! Use the on-screen widget for controls." "success")
       else
         Throw (match resp_error response with
                | Some e => if String.eqb e "" then "Failed to start recording" else e
                | None => "Failed to start recording"
                end))
    (fun error => emit (ShowMessage error "error")).

End PopupController.

(* ===================================================================== *)
(** ** background.js *)
(* ===================================================================== *)

Module BackgroundJs.

(** The fields of its [RecordingManager] that are ever read. *)
Record Manager : Type := mkManager {
  isRecording : bool;
  startTime : option Z;
  offscreenReady : bool
}.

Definition initial : Manager := mkManager false None false.

Definition status_message (isRecording : bool) : TabMsg :=
  {| tm_action := "updateRecordingStatus";
     tm_isRecording := Some isRecording;
     tm_startTime := None |}.

(** The [for (const tab of tabs)] loop of [notifyTabsRecordingStatus]. *)
Fixpoint notify_tabs (tabs : list Z) (m : TabMsg) : Async Manager unit :=
  match tabs with
  | [] => Ret tt
  | tab :: tabs =>
      try_catch (await (TabsSendMessage tab m)) (fun _ => Ret tt);;
      notify_tabs tabs m
  end.

(** [notifyTabsRecordingStatus(isRecording)] *)
Definition notifyTabsRecordingStatus (isRecording : bool) : Async Manager unit :=
  try_catch
    (tabs ← await TabsQuery;
     notify_tabs tabs (status_message isRecording))
    (fun _ => Ret tt).

(** [sendToOffscreen(message)]: the promise is not awaited and its
    rejection is only logged. *)
Definition sendToOffscreen (message : OffscreenMsg) : Async Manager unit :=
  emit (PostOffscreen message).

(** [ensureOffscreenDocument()] *)
Definition ensureOffscreenDocument : Async Manager unit :=
  existingContexts ← await GetContexts;
  (if Nat.eqb existingContexts 0 then
     try_catch
       (await (CreateDocument "offscreen.html");;
        await (Timeout 2000))
       (fun error => Throw error)
   else Ret tt);;
  modify (fun s => mkManager (isRecording s) (startTime s) true).

(** [startRecording(options = {})] *)
Definition startRecording (options : Obj) : Async Manager Response :=
  try_catch
    (s ← get;
     if isRecording s then Throw "Recording already in progress" else
     (* Ensure offscreen document exists and is ready *)
     ensureOffscreenDocument;;
     now ← clock;
     modify (fun s => mkManager true (Some now) (offscreenReady s));;
     (* Update extension badge *)
     emit (SetBadgeText "REC");;
     emit (SetBadgeBackgroundColor "#ff0000");;
     (* Notify all tabs about recording status FIRST *)
     notifyTabsRecordingStatus true;;
     (* Start recording through offscreen document *)
     sendToOffscreen {| om_action := "startCapture";
                        om_options := Some (capture_options options) |};;
     Ret (mkResponse true None (Some "Recording started") None))
    (fun error =>
       modify (fun s => mkManager false (startTime s) (offscreenReady s));;
       emit (SetBadgeText "");;
       (* Make sure to hide indicators on error *)
       notifyTabsRecordingStatus false;;
       Ret (failed error)).

(** [stopRecording()] *)
Definition stopRecording : Async Manager Response :=
  try_catch
    (s ← get;
     if negb (isRecording s) then Throw "No recording in progress" else
     sendToOffscreen {| om_action := "stopCapture"; om_options := None |};;
     modify (fun s => mkManager false (startTime s) (offscreenReady s));;
     (* Clear badge *)
     emit (SetBadgeText "");;
     notifyTabsRecordingStatus false;;
     Ret (mkResponse true None (Some "Recording stopped") None))
    (fun error => Ret (failed error)).

(** [storeRecordingMetadata(recording)] *)
Definition storeRecordingMetadata (recording : Obj) (w : World) : World :=
  let w := record_io (StorageGet "recordings") w in
  let recordings := default [] (recordings (storage w)) in
  let trimmedRecordings := take 100 (recording :: recordings) in
  set_recordings trimmedRecordings w.

(** [storeRecordingLocally(blob, metadata)]. [blobToBase64] keeps the
    payload, which the model carries as a string already. *)
Definition storeRecordingLocally (saved_at : Z) (blob : string) (metadata : Obj)
    (w : World) : World :=
  let base64Data := blob in
  let localRecording : Obj :=
    <["needsSync" := JBool true]>
      (<["data" := JStr base64Data]>
         (<["isLocal" := JBool true]>
            (<["id" := JStr ("local-" +:+ pretty saved_at)]> metadata))) in
  let w := record_io (StorageGet "localRecordings") w in
  let localRecordings := default [] (localRecordings (storage w)) in
  let trimmedRecordings := take 10 (localRecording :: localRecordings) in
  set_localRecordings trimmedRecordings w.

(** The artifact of the [recordingComplete] message:
    [{blob, mimeType, size}], with [blob] a data URL. *)
Record Artifact : Type := mkArtifact {
  art_blob : JsVal;
  art_mimeType : JsVal;
  art_size : JsVal
}.

(** [handleRecordingComplete(recordingData)].

    [Math.round(ms / 1000)] rounds half up. [tabs] is how
    [chrome.tabs.query({active: true, currentWindow: true})] settles; a
    failed [fetch], a rejected query and a session without [startTime]
    all end in the outer [catch]. *)
Definition handleRecordingComplete (net : Network) (now saved_at : Z)
    (tabs : Settled (list Tab)) (recordingData : Artifact) (s : Manager) (w : World)
    : World :=
  let endTime := now in
  let duration := (endTime - default 0 (startTime s) + 500) / 1000 in
  (* Convert base64 to blob *)
  let w := record_io (Fetch (art_blob recordingData)) w in
  match fetch_blob net (art_blob recordingData), tabs, startTime s with
  | Some recordingBlob, Fulfilled tabs, Some started =>
      (* Get current tab info for context *)
      let currentTab := head tabs in
      let metadata : Obj :=
        <["title" := JStr (str_or (default "" (currentTab ≫= tab_title)) "Untitled Meeting")]>
          (<["url" := JStr (str_or (default "" (currentTab ≫= tab_url)) "")]>
             (<["duration" := JNum duration]>
                (<["startTime" := JNum started]>
                   (<["endTime" := JNum endTime]>
                      (<["fileSize" := art_size recordingData]>
                         (<["mimeType" := art_mimeType recordingData]> ∅)))))) in
      (* Upload to backend *)
      let w := record_io (Upload recordingBlob metadata) w in
      match upload net recordingBlob metadata with
      | Some data =>
          (* Store in local storage for offline access *)
          let w := storeRecordingMetadata data w in
          record_io (Notify "Recording Saved") w
      | None =>
          (* Store locally if upload fails *)
          let w := storeRecordingLocally saved_at recordingBlob metadata w in
          record_io (Notify "Recording Saved Locally") w
      end
  | _, _, _ =>
      (* fetch, the query or this.startTime.toISOString() throws; outer
         catch *)
      record_io (Notify "Recording Error") w
  end.

(** The metadata object rebuilt field by field by [syncPendingRecordings]. *)
Definition sync_metadata (recording : Obj) : Obj :=
  <["title" := prop recording "title"]>
    (<["url" := prop recording "url"]>
       (<["duration" := prop recording "duration"]>
          (<["startTime" := prop recording "startTime"]>
             (<["endTime" := prop recording "endTime"]>
                (<["fileSize" := prop recording "fileSize"]>
                   (<["mimeType" := prop recording "mimeType"]> ∅)))))).

(** The assignments of the success branch, on the object itself:
    [needsSync = false; isLocal = false; data = null;
     Object.assign(recording, uploadResult.data)]. *)
Definition mark_synced (recording data : Obj) : Obj :=
  assign (<["data" := JNull]>
            (<["isLocal" := JBool false]>
               (<["needsSync" := JBool false]> recording)))
         data.

(** [localRecordings.filter(r => r.needsSync)] returns the very objects
    of [localRecordings], not copies: [pendingRecordings] is the list of
    the positions in [localRecordings] of the objects it holds. *)
Definition pending_refs (localRecordings : list Obj) : list nat :=
  List.filter (fun i => needsSync (default ∅ (localRecordings !! i)))
              (seq 0 (length localRecordings)).

(** The local variables of the loop of [syncPendingRecordings]:
    [localRecordings] with the objects as they now are, and the count. *)
Record SyncLoop : Type := mkSyncLoop {
  localObjects : list Obj;
  syncedCount : nat;
  world : World
}.

(** One iteration of [for (const recording of pendingRecordings)], with
    its [try]/[catch]; [ref] is the position of [recording]. *)
Definition sync_recording (net : Network) (st : SyncLoop) (ref : nat) : SyncLoop :=
  let recording := default ∅ (localObjects st !! ref) in
  let w := record_io (Fetch (prop recording "data")) (world st) in
  match fetch_blob net (prop recording "data") with
  | None => mkSyncLoop (localObjects st) (syncedCount st) w
  | Some blob =>
      let w := record_io (Upload blob (sync_metadata recording)) w in
      match upload net blob (sync_metadata recording) with
      | None => mkSyncLoop (localObjects st) (syncedCount st) w
      | Some data =>
          mkSyncLoop (<[ref := mark_synced recording data]> (localObjects st))
                     (S (syncedCount st)) w
      end
  end.

(** [syncPendingRecordings()] *)
Definition syncPendingRecordings (net : Network) (w : World) : World * SyncResult :=
  let w := record_io (StorageGet "localRecordings") w in
  let localRecordings := default [] (localRecordings (storage w)) in
  let pendingRecordings := pending_refs localRecordings in
  if Nat.eqb (length pendingRecordings) 0 then
    (w, mkSyncResult true 0)
  else
    let st := foldl (sync_recording net) (mkSyncLoop localRecordings 0 w) pendingRecordings in
    let w := set_localRecordings (localObjects st) (world st) in
    (w, mkSyncResult true (syncedCount st)).


(** The handler of [chrome.runtime.onInstalled]: one write of the three
    keys, recorded key by key for the collections. *)
Definition onInstalled (p : StorageManager.Prefs) (w : World) : StorageManager.Prefs * World :=
  let settings :=
    <["audioQuality" := JStr "high"]>
      (<["videoQuality" := JStr "medium"]>
         (<["autoUpload" := JBool true]> ∅)) in
  (StorageManager.mkPrefs (Some settings) (StorageManager.apiConfig p),
   set_localRecordings [] (set_recordings [] w)).

(** *** The message listener *)

(** The members of a message that the listener reads; [msg_data] is
    [None] when [request.data] is [undefined]. *)
Record Message : Type := mkMessage {
  msg_target : JsVal;
  msg_action : JsVal;
  msg_options : Obj;
  msg_error : JsVal;
  msg_data : option Artifact
}.

(** The promises a call of the listener creates. *)
Inductive Started : Type :=
| StartRecording (options : Obj)        (* recordingManager.startRecording(request.options) *)
| StopRecording                         (* recordingManager.stopRecording() *)
| SyncPendingRecordings                 (* syncPendingRecordings() *)
| NotifyTabs (isRecording : bool)       (* recordingManager.notifyTabsRecordingStatus(..) *)
| HandleRecordingComplete.              (* recordingManager.handleRecordingComplete(request.data) *)

(** How a call of the listener answers: through [sendResponse] before it
    returns; by returning [true], which keeps the channel open for the
    promise it created; or not at all. *)
Inductive Answer : Type :=
| Responds (response : Response)
| RespondsStatus (isRecording : bool) (startTime : option Z)
| RespondsLater
| NoResponse.

(** What one call of the listener has done when it returns: the
    coordinator, the calls and events of the coordinator that the
    platform has seen (badge, notifications, tabs and the offscreen
    document), the promises created and the answer. The calls that go to
    [chrome.storage] and to the network before the listener returns are
    not part of [observed]: the removal of the key 'authToken' on logout,
    which no function of the sources reads, the read of 'localRecordings'
    that opens [syncPendingRecordings] and the [fetch] that opens
    [handleRecordingComplete]. *)
Record Handled : Type := mkHandled {
  manager : Manager;
  observed : list Effect;
  started : list Started;
  answer : Answer
}.

(** A method of the coordinator called and not awaited: it has run to
    its first [await] when the caller goes on. *)
Definition call {R : Type} (now : Z) (method : Async Manager R) (h : Manager * list Effect)
    : Manager * list Effect :=
  (segment now method h.1 h.2).1.

(** The listener of [chrome.runtime.onMessage]; [switch] compares with
    [===]. [syncPendingRecordings] touches neither the coordinator nor
    the badge and the tabs before its first [await], and so does
    [handleRecordingComplete] unless [request.data] is [undefined]: then
    reading [recordingData.blob] throws and its [catch] announces
    'Recording Error' before the listener goes on. *)
Definition onMessage (now : Z) (request : Message) (s : Manager) : Handled :=
  let action := msg_action request in
  (* Handle messages from offscreen document (these have no target) *)
  if negb (truthy (msg_target request)) then
    if bool_decide (action = JStr "captureStarted") then
      mkHandled s [] [] (Responds succeeded)
    else if bool_decide (action = JStr "captureError") then
      let h := (mkManager false (startTime s) (offscreenReady s),
                [Fired (SetBadgeText "")]) in
      (* Notify tabs to hide recording indicators *)
      let h := call now (notifyTabsRecordingStatus false) h in
      mkHandled h.1 (h.2 ++ [Fired (Notification "Recording Error")])
        [NotifyTabs false] (Responds succeeded)
    else if bool_decide (action = JStr "recordingComplete") then
      mkHandled s
        (match msg_data request with
         | Some _ => []
         | None => [Fired (Notification "Recording Error")]
         end)
        [HandleRecordingComplete] (Responds succeeded)
    else if bool_decide (action = JStr "recordingError") then
      mkHandled s [Fired (Notification "Recording Error")] [] (Responds succeeded)
    else
      mkHandled s [] [] NoResponse
  (* Handle messages from popup *)
  else if bool_decide (msg_target request = JStr "background")
          || (negb (truthy (msg_target request)) && truthy action) then
    if bool_decide (action = JStr "startRecording") then
      let h := call now (startRecording (msg_options request)) (s, []) in
      mkHandled h.1 h.2 [StartRecording (msg_options request)] RespondsLater
    else if bool_decide (action = JStr "stopRecording") then
      let h := call now stopRecording (s, []) in
      mkHandled h.1 h.2 [StopRecording] RespondsLater
    else if bool_decide (action = JStr "getRecordingStatus") then
      mkHandled s [] [] (RespondsStatus (isRecording s) (startTime s))
    else if bool_decide (action = JStr "syncRecordings") then
      mkHandled s [] [SyncPendingRecordings] RespondsLater
    else if bool_decide (action = JStr "logout") then
      let h := call now (notifyTabsRecordingStatus false) (s, [Fired (SetBadgeText "")]) in
      mkHandled h.1 h.2 [NotifyTabs false] (Responds succeeded)
    else
      mkHandled s [] [] (Responds (failed "Unknown action"))
  else
    mkHandled s [] [] NoResponse.

End BackgroundJs.

(* ===================================================================== *)
(** ** Observations and sessions *)
(* ===================================================================== *)

(** The commands that reach the Capture Surface, awaited or not. *)
Definition capture_command (e : Effect) : option OffscreenMsg :=
  match e with
  | Called q =>
      match q with
      | SendMessage m => Some m
      | _ => None
      end
  | Fired (PostOffscreen m) => Some m
  | Fired _ => None
  end.

Definition capture_commands (log : list Effect) : list OffscreenMsg :=
  omap capture_command log.

(** The offscreen document exists already, or can be created. *)
Definition offscreen_available (env : forall X, Req X -> Settled X)
    (url : string) (delay : Z) : Prop :=
  (exists n, env nat GetContexts = Fulfilled (S n)) \/
  (env nat GetContexts = Fulfilled 0%nat /\
   env unit (CreateDocument url) = Fulfilled tt /\
   env unit (Timeout delay) = Fulfilled tt).

(** A platform on which every call succeeds: the offscreen document
    exists, it acknowledges every command, and two tabs listen. *)
Definition reliable : forall X, Req X -> Settled X :=
  fun X q =>
    match q in Req X return Settled X with
    | GetContexts => Fulfilled 1%nat
    | CreateDocument _ => Fulfilled tt
    | Timeout _ => Fulfilled tt
    | SendMessage _ => Fulfilled (Some (mkReply true None))
    | TabsQuery => Fulfilled [1; 2]
    | TabsSendMessage _ _ => Fulfilled tt
    end.

(** A request of an observer. *)
Inductive Request : Type :=
| Start (options : Obj)
| Pause
| Resume
| Stop.

(** A request as the coordinator serves it: the clock at that time and
    the answers of the platform to the calls awaited meanwhile. *)
Record Served : Type := mkServed {
  served_at : Z;
  served_env : forall X, Req X -> Settled X;
  served_request : Request
}.

Definition serve (s : RecordingManager.Manager) (r : Served) : RecordingManager.Manager :=
  let program :=
    match served_request r with
    | Start options => RecordingManager.startRecording options
    | Pause => RecordingManager.pauseRecording
    | Resume => RecordingManager.resumeRecording
    | Stop => RecordingManager.stopRecording
    end in
  (run (served_at r) (served_env r) program s []).1.1.

(** The coordinator after serving the requests of [trace] one after the
    other, from a fresh [RecordingManager]. *)
Definition session (trace : list Served) : RecordingManager.Manager :=
  foldl serve RecordingManager.initial trace.

(** A request served at [now] on the reliable platform. *)
Definition at_time (now : Z) (r : Request) : Served := mkServed now reliable r.

(** The outcome of the upload of a pending record of
    [services/storage-manager.js]: the object sent back by the server, or
    [None] when fetching the payload throws or the upload fails. *)
Definition sync_outcome (net : Network) (recording : Obj) : option Obj :=
  match fetch_blob net (prop recording "blob") with
  | Some blob => upload net blob (delete "blob" recording)
  | None => None
  end.

(** The same for [background.js]. *)
Definition bg_sync_outcome (net : Network) (recording : Obj) : option Obj :=
  match fetch_blob net (prop recording "data") with
  | Some blob => upload net blob (BackgroundJs.sync_metadata recording)
  | None => None
  end.

(** The ids of a collection. *)
Definition ids (l : list Obj) : list JsVal := (fun r => prop r "id") <$> l.

(** A record does not both say [needsSync: false] and carry a payload
    under [key]. *)
Definition payload_dropped (key : string) (r : Obj) : Prop :=
  r !! "needsSync" = Some (JBool false) -> truthy (prop r key) = false.

(** The local and the synced collection, as read by the sources. *)
Definition local_collection (w : World) : list Obj :=
  default [] (localRecordings (storage w)).

Definition synced_collection (w : World) : list Obj :=
  default [] (recordings (storage w)).

(** What the slot of a record of the local collection should hold after
    a reconciliation, read off the description of the algorithm: the
    record itself unless it was pending and its upload succeeded, in
    which case the record of the server, marked as synced
    ([services/storage-manager.js]) or the record itself, marked as synced
    and merged with the answer of the server ([background.js]). *)
Definition reconciled (net : Network) (r : Obj) : Obj :=
  if needsSync r then
    match sync_outcome net r with
    | Some uploaded => StorageManager.mark_synced uploaded
    | None => r
    end
  else r.

Definition bg_reconciled (net : Network) (r : Obj) : Obj :=
  if needsSync r then
    match bg_sync_outcome net r with
    | Some data => BackgroundJs.mark_synced r data
    | None => r
    end
  else r.

(** [addRecording] on the synced collection alone. *)
Definition push_synced (acc : list Obj) (recording : Obj) : list Obj :=
  take 100 (recording :: acc).

(** A small local collection: two pending records with their payloads;
    a network on which the payload "AAA" uploads, to be stored by the
    server under the id "srv-1", and every other upload fails. *)
Definition pending_record (id payload : string) : Obj :=
  <["id" := JStr id]>
    (<["title" := JStr "Standup"]>
       (<["isLocal" := JBool true]>
          (<["needsSync" := JBool true]>
             (<["blob" := JStr payload]> (<["data" := JStr payload]> ∅))))).

Definition server_record : Obj :=
  <["id" := JStr "srv-1"]> (<["title" := JStr "Standup"]> ∅).

Definition flaky : Network :=
  {| fetch_blob := fun v => match v with JStr s => Some s | _ => None end;
     upload := fun blob _ => if String.eqb blob "AAA" then Some server_record else None |}.

Definition two_pending : World :=
  mkWorld (mkStorage None
             (Some [pending_record "local-1" "AAA"; pending_record "local-2" "BBB"]))
          [].

(** A local collection in which two pending records have the same id,
    the payload of the first being one that does not upload; a server
    that sends [needsSync: true] back with its record, and one that sends
    a [data] member. *)
Definition same_id_twice : World :=
  mkWorld (mkStorage None
             (Some [pending_record "local-1" "BBB"; pending_record "local-1" "AAA"]))
          [].

Definition echoing : Network :=
  {| fetch_blob := fun v => match v with JStr s => Some s | _ => None end;
     upload := fun _ _ => Some (<["needsSync" := JBool true]> server_record) |}.

Definition keeping_data : Network :=
  {| fetch_blob := fun v => match v with JStr s => Some s | _ => None end;
     upload := fun _ _ => Some (<["data" := JStr "kept"]> server_record) |}.

(** A network on which every upload fails; a store that was never
    written; a store whose local collection holds one record that is
    synced already; a session that was started at 0 s and has been
    stopped, for either controller, and the artifact of its capture. *)
Definition offline : Network :=
  {| fetch_blob := fun v => match v with JStr s => Some s | _ => None end;
     upload := fun _ _ => None |}.

Definition fresh_store : World := mkWorld (mkStorage None None) [].

Definition one_synced : World :=
  mkWorld (mkStorage (Some [server_record])
                     (Some [<["needsSync" := JBool false]> server_record]))
          [].

Definition stopped : RecordingManager.Manager :=
  RecordingManager.mkManager false false (Some 0) 0.

(** The active tab of a meeting, as the query for it is answered, and the
    [trim] of titles that have no white space around them. *)
Definition standup_tab : Tab :=
  mkTab (Some "Standup - Google Meet") (Some "https://meet.google.com/abc-defg-hij").

Definition standup : Settled (list Tab) := Fulfilled [standup_tab].

Definition no_trim (title : string) : string := title.

Definition bg_stopped : BackgroundJs.Manager :=
  BackgroundJs.mkManager false (Some 0) true.

Definition artifact : RecordingManager.Artifact :=
  RecordingManager.mkArtifact "CCC" (JStr "video/webm") (JNum 7).

Definition bg_artifact : BackgroundJs.Artifact :=
  BackgroundJs.mkArtifact (JStr "CCC") (JStr "video/webm") (JNum 7).

(* ===================================================================== *)
(** ** Further observations *)
(* ===================================================================== *)

(** The offscreen document does not exist and cannot be queried or
    created. *)
Definition offscreen_unavailable (env : forall X, Req X -> Settled X)
    (url : string) (e : string) : Prop :=
  env nat GetContexts = Rejected e \/
  (env nat GetContexts = Fulfilled 0%nat /\ env unit (CreateDocument url) = Rejected e).

(** The deliveries of one broadcast, in the order of the tabs. *)
Definition deliveries (tabs : list Z) (m : TabMsg) : list Effect :=
  (fun tab => Called (TabsSendMessage tab m)) <$> tabs.

(** What a broadcast adds to the log: the query for the tabs and, when
    it is answered, one delivery per tab. *)
Definition broadcast (env : forall X, Req X -> Settled X) (m : TabMsg) : list Effect :=
  Called TabsQuery ::
  match env (list Z) TabsQuery with
  | Fulfilled tabs => deliveries tabs m
  | Rejected _ => []
  end.


(** The uploads among the events of the persistence layer. *)
Definition uploads (l : list IoEvent) : list (string * Obj) :=
  omap (fun e => match e with Upload blob metadata => Some (blob, metadata) | _ => None end) l.

(** Platforms that fail: one on which no offscreen document exists and
    none can be created; one on which the Capture Surface refuses every
    command it is sent; one on which no command reaches it. *)
Definition offscreen_denied : forall X, Req X -> Settled X :=
  fun X q =>
    match q in Req X return Settled X with
    | GetContexts => Fulfilled 0%nat
    | CreateDocument _ => Rejected "Only a single offscreen document may be created."
    | Timeout _ => Fulfilled tt
    | SendMessage _ => Fulfilled (Some (mkReply true None))
    | TabsQuery => Fulfilled [1; 2]
    | TabsSendMessage _ _ => Fulfilled tt
    end.

Definition capture_refuses : forall X, Req X -> Settled X :=
  fun X q =>
    match q in Req X return Settled X with
    | GetContexts => Fulfilled 1%nat
    | CreateDocument _ => Fulfilled tt
    | Timeout _ => Fulfilled tt
    | SendMessage _ => Fulfilled (Some (mkReply false (Some "Permission denied")))
    | TabsQuery => Fulfilled [1; 2]
    | TabsSendMessage _ _ => Fulfilled tt
    end.

Definition capture_unreachable : forall X, Req X -> Settled X :=
  fun X q =>
    match q in Req X return Settled X with
    | GetContexts => Fulfilled 1%nat
    | CreateDocument _ => Fulfilled tt
    | Timeout _ => Fulfilled tt
    | SendMessage _ => Rejected "Receiving end does not exist."
    | TabsQuery => Fulfilled [1; 2]
    | TabsSendMessage _ _ => Rejected "Receiving end does not exist."
    end.

(** The coordinator while recording, and while paused. *)
Definition recording_since (started : Z) : RecordingManager.Manager :=
  RecordingManager.mkManager true false (Some started) 0.

Definition paused_since (started : Z) : RecordingManager.Manager :=
  RecordingManager.mkManager true true (Some started) 0.

(** The keys written, among the events of the persistence layer. *)
Definition writes (l : list IoEvent) : list string :=
  omap (fun e => match e with StorageSet key _ => Some key | _ => None end) l.

(** The payloads fetched, among the events of the persistence layer. *)
Definition fetches (l : list IoEvent) : list JsVal :=
  omap (fun e => match e with Fetch payload => Some payload | _ => None end) l.

(** The upload attempted for a pending record, when its payload can be
    fetched: the payload and the metadata sent with it. *)
Definition upload_attempt (net : Network) (recording : Obj) : option (string * Obj) :=
  (fun blob => (blob, delete "blob" recording)) <$> fetch_blob net (prop recording "blob").

Definition bg_upload_attempt (net : Network) (recording : Obj) : option (string * Obj) :=
  (fun blob => (blob, BackgroundJs.sync_metadata recording))
    <$> fetch_blob net (prop recording "data").

(** A sort by date for records whose [startTime] or [createdAt] is a
    time in milliseconds: most recent first, records of the same date in
    their order. *)
Definition date_ms (r : Obj) : Z :=
  match js_or (prop r "startTime") (prop r "createdAt") with
  | JNum n => n
  | _ => 0
  end.

Fixpoint insert_by_date (r : Obj) (l : list Obj) : list Obj :=
  match l with
  | [] => [r]
  | x :: l' => if date_ms x <=? date_ms r then r :: l else x :: insert_by_date r l'
  end.

Definition newest_first (l : list Obj) : list Obj := foldr insert_by_date [] l.

(** The actions of the events of the offscreen document, and those of the
    requests of the popup, as the listener of [background.js] names
    them. *)
Definition offscreen_events : list JsVal :=
  [JStr "captureStarted"; JStr "captureError"; JStr "recordingComplete"; JStr "recordingError"].

Definition popup_requests : list JsVal :=
  [JStr "startRecording"; JStr "stopRecording"; JStr "getRecordingStatus";
   JStr "syncRecordings"; JStr "logout"].

(** The calls of [ensureOffscreenDocument] when the offscreen document is
    available: the query for the contexts and, when there is none yet,
    the creation of the document and the wait. *)
Definition ensure_calls (env : forall X, Req X -> Settled X) (url : string) (delay : Z)
    : list Effect :=
  Called GetContexts ::
  match env nat GetContexts with
  | Fulfilled 0%nat => [Called (CreateDocument url); Called (Timeout delay)]
  | _ => []
  end.

(** Uninterrupted execution with a clock that moves: the readings of the
    clock are [ticks n], [ticks (n + 1)], ... in the order in which they
    are made, and the number of readings made is returned as well. *)
Fixpoint run_clock {St R : Type} (ticks : nat -> Z) (n : nat)
    (env : forall X, Req X -> Settled X) (a : Async St R) (s : St) (log : list Effect)
    : St * list Effect * Settled R * nat :=
  match a with
  | Ret r => (s, log, Fulfilled r, n)
  | Throw e => (s, log, Rejected e, n)
  | Get k => run_clock ticks n env (k s) s log
  | Put s' k => run_clock ticks n env k s' log
  | Clock k => run_clock ticks (S n) env (k (ticks n)) s log
  | Emit ev k => run_clock ticks n env k s (log ++ [Fired ev])
  | Await q k => run_clock ticks n env (k (env _ q)) s (log ++ [Called q])
  end.

(* ===================================================================== *)
(** * Properties *)
(* ===================================================================== *)

(** ** Running asynchronous programs *)

Ltac unfold_bind := unfold mbind, Async_bind in *.

Section RunLemmas.

Context {St : Type}.
Variable now : Z.
Variable env : forall X, Req X -> Settled X.

Lemma run_bind {A B} (a : Async St A) (f : A -> Async St B) s log :
  run now env (bind a f) s log =
  match run now env a s log with
  | (s', log', Fulfilled x) => run now env (f x) s' log'
  | (s', log', Rejected e) => (s', log', Rejected e)
  end.
Proof.
  revert s log; induction a; intros; simpl; auto.
Qed.

Lemma run_try_catch {A} (a : Async St A) (h : string -> Async St A) s log :
  run now env (try_catch a h) s log =
  match run now env a s log with
  | (s', log', Fulfilled x) => (s', log', Fulfilled x)
  | (s', log', Rejected e) => run now env (h e) s' log'
  end.
Proof.
  revert s log; induction a; intros; simpl; auto.
Qed.

(** Uninterrupted execution is the schedule in which every suspended
    call is resumed at once. *)
Lemma run_segment {A} (a : Async St A) s log :
  run now env a s log =
  match segment now a s log with
  | (s', log', Finished r) => (s', log', r)
  | (s', log', Suspended q k) => run now env (k (env _ q)) s' log'
  end.
Proof.
  revert s log; induction a; intros; simpl; auto.
Qed.

End RunLemmas.

Lemma capture_commands_app l1 l2 :
  capture_commands (l1 ++ l2) = capture_commands l1 ++ capture_commands l2.
Proof. unfold capture_commands. apply omap_app. Qed.

(** A broadcast to the tabs never fails, never touches the coordinator
    and sends nothing to the Capture Surface. *)
Lemma services_notify_tabs_run now env tabs m s log :
  exists extra,
    run now env (BackgroundService.notify_tabs tabs m) s log = (s, log ++ extra, Fulfilled tt)
    /\ capture_commands extra = [].
Proof.
  revert log; induction tabs as [|tab tabs IH]; intros log; simpl.
  - exists []. by rewrite app_nil_r.
  - destruct (IH (log ++ [Called (TabsSendMessage tab m)])) as (extra & Hrun & Hcmd).
    exists (Called (TabsSendMessage tab m) :: extra).
    split; [|by simpl].
    destruct (env unit (TabsSendMessage tab m)) as [[]|e]; simpl;
      rewrite Hrun; by rewrite <- app_assoc.
Qed.

Lemma services_notifyAllTabs_run now env action t s log :
  exists extra,
    run now env (BackgroundService.notifyAllTabs action t) s log = (s, log ++ extra, Fulfilled tt)
    /\ capture_commands extra = [].
Proof.
  unfold BackgroundService.notifyAllTabs.
  simpl.
  destruct (env (list Z) TabsQuery) as [tabs|e] eqn:Hq; simpl.
  - destruct (services_notify_tabs_run now env tabs
                (BackgroundService.tab_message action t) s (log ++ [Called TabsQuery]))
      as (extra & Hrun & Hcmd).
    rewrite run_try_catch, Hrun. exists (Called TabsQuery :: extra).
    split; [by rewrite <- app_assoc | by simpl].
  - exists [Called TabsQuery]. by split.
Qed.

Lemma bg_notify_tabs_run now env tabs m s log :
  exists extra,
    run now env (BackgroundJs.notify_tabs tabs m) s log = (s, log ++ extra, Fulfilled tt)
    /\ capture_commands extra = [].
Proof.
  revert log; induction tabs as [|tab tabs IH]; intros log; simpl.
  - exists []. by rewrite app_nil_r.
  - destruct (IH (log ++ [Called (TabsSendMessage tab m)])) as (extra & Hrun & Hcmd).
    exists (Called (TabsSendMessage tab m) :: extra).
    split; [|by simpl].
    destruct (env unit (TabsSendMessage tab m)) as [[]|e]; simpl;
      rewrite Hrun; by rewrite <- app_assoc.
Qed.

Lemma bg_notifyTabsRecordingStatus_run now env b s log :
  exists extra,
    run now env (BackgroundJs.notifyTabsRecordingStatus b) s log = (s, log ++ extra, Fulfilled tt)
    /\ capture_commands extra = [].
Proof.
  unfold BackgroundJs.notifyTabsRecordingStatus.
  simpl.
  destruct (env (list Z) TabsQuery) as [tabs|e] eqn:Hq; simpl.
  - destruct (bg_notify_tabs_run now env tabs
                (BackgroundJs.status_message b) s (log ++ [Called TabsQuery]))
      as (extra & Hrun & Hcmd).
    rewrite run_try_catch, Hrun. exists (Called TabsQuery :: extra).
    split; [by rewrite <- app_assoc | by simpl].
  - exists [Called TabsQuery]. by split.
Qed.

(** Once the offscreen document is available, ensuring it succeeds
    without touching the coordinator. *)
Lemma services_ensure_run now env s log :
  offscreen_available env "ui/offscreen.html" 1000 ->
  exists extra,
    run now env RecordingManager.ensureOffscreenDocument s log = (s, log ++ extra, Fulfilled tt)
    /\ capture_commands extra = [].
Proof.
  intros [[n Hn]|(H0 & Hc & Ht)]; unfold RecordingManager.ensureOffscreenDocument;
    simpl.
  - rewrite Hn. simpl. by exists [Called GetContexts].
  - rewrite H0. simpl. rewrite Hc. simpl. rewrite Ht. simpl.
    exists [Called GetContexts; Called (CreateDocument "ui/offscreen.html");
            Called (Timeout 1000)].
    split; [by rewrite <- !app_assoc | done].
Qed.

Lemma bg_ensure_run now env s log :
  offscreen_available env "offscreen.html" 2000 ->
  exists extra,
    run now env BackgroundJs.ensureOffscreenDocument s log =
      (BackgroundJs.mkManager (BackgroundJs.isRecording s) (BackgroundJs.startTime s) true,
       log ++ extra, Fulfilled tt)
    /\ capture_commands extra = [].
Proof.
  intros [[n Hn]|(H0 & Hc & Ht)]; unfold BackgroundJs.ensureOffscreenDocument;
    simpl.
  - rewrite Hn. simpl. by exists [Called GetContexts].
  - rewrite H0. simpl. rewrite Hc. simpl. rewrite Ht. simpl.
    exists [Called GetContexts; Called (CreateDocument "offscreen.html");
            Called (Timeout 2000)].
    split; [by rewrite <- !app_assoc | done].
Qed.

(** Ensuring the offscreen document never touches the coordinator,
    whatever the platform answers. *)
Lemma services_ensure_state now env (s : RecordingManager.Manager) log :
  exists log' r,
    run now env RecordingManager.ensureOffscreenDocument s log = (s, log', r).
Proof.
  unfold RecordingManager.ensureOffscreenDocument. unfold_bind. simpl.
  destruct (env nat GetContexts) as [[|n]|e]; simpl; eauto.
  destruct (env unit (CreateDocument "ui/offscreen.html")) as [[]|e]; simpl; eauto.
  destruct (env unit (Timeout 1000)) as [[]|e]; simpl; eauto.
Qed.


(** ** Acceptance and suspension points *)

(** C8, as stated, fails. After a start request has passed the guard the
    coordinator still reports Idle while the request waits for the
    offscreen document, so a second start request served meanwhile passes
    the guard too: both requests are answered with success and the
    Capture Surface receives two start commands. *)
Lemma two_starts_both_observe_idle :
  (exists c k,
      sched_step (mkConfig RecordingManager.initial [] []) c /\
      cfg_tasks c = [Suspended (R := Response) GetContexts k] /\
      RecordingManager.st_isRecording (RecordingManager.getStatus 1000 (cfg_state c)) = false) /\
  (exists c,
      sched_steps (mkConfig RecordingManager.initial [] []) c /\
      cfg_tasks c = [Finished (Fulfilled (mkResponse true (Some 1003) None None));
                     Finished (Fulfilled (mkResponse true (Some 1003) None None))] /\
      om_action <$> capture_commands (cfg_log c) = ["START_CAPTURE"; "START_CAPTURE"]).
Proof.
  split.
  - do 2 eexists. split.
    + eapply (sched_call 1000 (RecordingManager.startRecording ∅)). reflexivity.
    + split; reflexivity.
  - eexists. split.
    + eapply sched_trans.
      { eapply (sched_call 1000 (RecordingManager.startRecording ∅)). reflexivity. }
      eapply sched_trans.
      { eapply (sched_call 1001 (RecordingManager.startRecording ∅)). reflexivity. }
      eapply sched_trans.
      { eapply (sched_settle 1002 0 _ _ (Fulfilled 1%nat)); reflexivity. }
      eapply sched_trans.
      { eapply (sched_settle 1003 1 _ _ (Fulfilled 1%nat)); reflexivity. }
      eapply sched_trans.
      { eapply (sched_settle 1004 0 _ _ (Fulfilled (Some (mkReply true None)))); reflexivity. }
      eapply sched_trans.
      { eapply (sched_settle 1005 1 _ _ (Fulfilled (Some (mkReply true None)))); reflexivity. }
      apply sched_refl.
    + split; reflexivity.
Qed.

(** C8, amended. The status is not, in general, written when the
    transition is accepted. A start request that passes the guard
    reaches its first suspension point, the query for the offscreen
    document, with the coordinator unchanged, in both controllers, and in
    [services/recording-manager.js] it still reports Idle while the start
    command is awaited. An accepted pause, resume or stop of
    [services/recording-manager.js] reaches its suspension point, the
    command awaited from the Capture Surface, with the coordinator
    unchanged, and writes its flags when that command has settled. An
    accepted stop of [background.js], which has no pause or resume, does
    clear [isRecording] at once: it reaches its first suspension point,
    the query for the tabs, with the flag cleared. *)
Theorem status_written_after_await (options : Obj) now
    (idle recording paused : RecordingManager.Manager)
    (b brecording : BackgroundJs.Manager) log :
  RecordingManager.isRecording idle = false ->
  BackgroundJs.isRecording b = false ->
  RecordingManager.isRecording recording = true ->
  RecordingManager.isPaused recording = false ->
  RecordingManager.isRecording paused = true ->
  RecordingManager.isPaused paused = true ->
  BackgroundJs.isRecording brecording = true ->
  (exists k,
      segment now (RecordingManager.startRecording options) idle log =
        (idle, log ++ [Called GetContexts], Suspended GetContexts k) /\
      forall later n s log',
        exists k',
          segment later (k (Fulfilled (S n))) s log' =
            (RecordingManager.mkManager (RecordingManager.isRecording s)
               (RecordingManager.isPaused s) (Some later) 0,
             log' ++ [Called (SendMessage
                                (mkOffscreenMsg "START_CAPTURE"
                                   (Some (capture_options options))))],
             Suspended (SendMessage
                          (mkOffscreenMsg "START_CAPTURE" (Some (capture_options options))))
                       k')) /\
  (exists k, segment now (BackgroundJs.startRecording options) b log =
               (b, log ++ [Called GetContexts], Suspended GetContexts k)) /\
  (exists k,
      segment now RecordingManager.pauseRecording recording log =
        (recording, log ++ [Called (SendMessage (RecordingManager.command "PAUSE_CAPTURE"))],
         Suspended (SendMessage (RecordingManager.command "PAUSE_CAPTURE")) k) /\
      forall later reply s log',
        segment later (k (Fulfilled reply)) s log' =
          (RecordingManager.mkManager (RecordingManager.isRecording s) true
             (RecordingManager.startTime s) (RecordingManager.pausedTime s),
           log', Finished (Fulfilled succeeded))) /\
  (exists k,
      segment now RecordingManager.resumeRecording paused log =
        (paused, log ++ [Called (SendMessage (RecordingManager.command "RESUME_CAPTURE"))],
         Suspended (SendMessage (RecordingManager.command "RESUME_CAPTURE")) k) /\
      forall later reply s log',
        segment later (k (Fulfilled reply)) s log' =
          (RecordingManager.mkManager (RecordingManager.isRecording s) false
             (RecordingManager.startTime s) (RecordingManager.pausedTime s),
           log', Finished (Fulfilled succeeded))) /\
  (exists k,
      segment now RecordingManager.stopRecording recording log =
        (recording, log ++ [Called (SendMessage (RecordingManager.command "STOP_CAPTURE"))],
         Suspended (SendMessage (RecordingManager.command "STOP_CAPTURE")) k) /\
      forall later reply s log',
        segment later (k (Fulfilled reply)) s log' =
          (RecordingManager.mkManager false false
             (RecordingManager.startTime s) (RecordingManager.pausedTime s),
           log', Finished (Fulfilled succeeded))) /\
  (exists k,
      segment now BackgroundJs.stopRecording brecording log =
        (BackgroundJs.mkManager false (BackgroundJs.startTime brecording)
           (BackgroundJs.offscreenReady brecording),
         log ++ [Fired (PostOffscreen (mkOffscreenMsg "stopCapture" None));
                 Fired (SetBadgeText "");
                 Called TabsQuery],
         Suspended TabsQuery k)).
Proof.
  intros Hidle Hb Hrec Hnp Hpaused Hp Hbrec.
  split; [|split; [|split; [|split; [|split]]]].
  - unfold RecordingManager.startRecording, RecordingManager.ensureOffscreenDocument.
    unfold mbind, Async_bind. simpl.
    rewrite Hidle. simpl. eexists. split; [reflexivity|].
    intros later n s log'. simpl. eexists. reflexivity.
  - unfold BackgroundJs.startRecording. unfold mbind, Async_bind. simpl.
    rewrite Hb. simpl. eauto.
  - unfold RecordingManager.pauseRecording. unfold mbind, Async_bind. simpl.
    rewrite Hrec, Hnp. simpl. eexists. split; [reflexivity|]. by intros.
  - unfold RecordingManager.resumeRecording. unfold mbind, Async_bind. simpl.
    rewrite Hpaused, Hp. simpl. eexists. split; [reflexivity|]. by intros.
  - unfold RecordingManager.stopRecording. unfold mbind, Async_bind. simpl.
    rewrite Hrec. simpl. eexists. split; [reflexivity|]. by intros.
  - unfold BackgroundJs.stopRecording, BackgroundJs.notifyTabsRecordingStatus,
      BackgroundJs.sendToOffscreen.
    unfold mbind, Async_bind. simpl.
    rewrite Hbrec. simpl. rewrite <- !app_assoc. simpl. eexists. reflexivity.
Qed.

Lemma status_written_after_await_witness :
  RecordingManager.isRecording RecordingManager.initial = false /\
  BackgroundJs.isRecording BackgroundJs.initial = false /\
  RecordingManager.isRecording (RecordingManager.mkManager true false (Some 0) 0) = true /\
  RecordingManager.isPaused (RecordingManager.mkManager true false (Some 0) 0) = false /\
  RecordingManager.isRecording (RecordingManager.mkManager true true (Some 0) 0) = true /\
  RecordingManager.isPaused (RecordingManager.mkManager true true (Some 0) 0) = true /\
  BackgroundJs.isRecording (BackgroundJs.mkManager true (Some 0) true) = true /\
  exists k, segment 1000 (BackgroundJs.startRecording ∅) BackgroundJs.initial [] =
              (BackgroundJs.initial, [] ++ [Called GetContexts], Suspended GetContexts k).
Proof.
  repeat (split; [reflexivity|]).
  apply (status_written_after_await ∅ 1000 RecordingManager.initial
           (RecordingManager.mkManager true false (Some 0) 0)
           (RecordingManager.mkManager true true (Some 0) 0)
           BackgroundJs.initial (BackgroundJs.mkManager true (Some 0) true) []); reflexivity.
Defined.

(** ** Starting a recording *)

#[local] Opaque RecordingManager.ensureOffscreenDocument
  BackgroundJs.ensureOffscreenDocument
  BackgroundJs.notifyTabsRecordingStatus
  BackgroundService.notifyAllTabs.

(** C9. From Idle, [startRecording] fills the missing options with their
    defaults before it sends the start command to the Capture Surface:
    the three source flags default to [false] and the two qualities to
    ['medium']. The command is sent whatever the options are, and the call
    succeeds as soon as the Capture Surface acknowledges it
    ([services/recording-manager.js]) or unconditionally ([background.js]). *)
Theorem startRecording_fills_defaults (options : Obj) now env
    (s : RecordingManager.Manager) (b : BackgroundJs.Manager) log :
  RecordingManager.isRecording s = false ->
  offscreen_available env "ui/offscreen.html" 1000 ->
  BackgroundJs.isRecording b = false ->
  offscreen_available env "offscreen.html" 2000 ->
  exists o,
    (options !! "includeScreen" = None -> includeScreen o = JBool false) /\
    (options !! "includeAudio" = None -> includeAudio o = JBool false) /\
    (options !! "includeSystemAudio" = None -> includeSystemAudio o = JBool false) /\
    (options !! "videoQuality" = None -> videoQuality o = JStr "medium") /\
    (options !! "audioQuality" = None -> audioQuality o = JStr "medium") /\
    (exists s' log' r,
        run now env (RecordingManager.startRecording options) s log = (s', log', r) /\
        capture_commands log' =
          capture_commands log ++ [mkOffscreenMsg "START_CAPTURE" (Some o)] /\
        (forall reply,
            env _ (SendMessage (mkOffscreenMsg "START_CAPTURE" (Some o)))
              = Fulfilled (Some reply) ->
            reply_success reply = true ->
            r = Fulfilled (mkResponse true (Some now) None None) /\
            RecordingManager.isRecording s' = true)) /\
    (exists log',
        run now env (BackgroundJs.startRecording options) b log =
          (BackgroundJs.mkManager true (Some now) true, log',
           Fulfilled (mkResponse true None (Some "Recording started") None)) /\
        capture_commands log' =
          capture_commands log ++ [mkOffscreenMsg "startCapture" (Some o)]).
Proof.
  intros Hidle Hsvc Hbidle Hbg.
  exists (capture_options options).
  repeat split.
  1-5: intros Hnone; unfold capture_options, prop; simpl; by rewrite Hnone.
  - unfold RecordingManager.startRecording. unfold_bind. simpl. rewrite Hidle.
    rewrite run_try_catch, run_bind.
    destruct (services_ensure_run now env s log Hsvc) as (extra & Hrun & Hcmd).
    rewrite Hrun. simpl.
    set (cmd := SendMessage _).
    destruct (env _ cmd) as [[reply|]|e] eqn:Hreply; simpl;
      [destruct (reply_success reply) eqn:Hok; simpl|..].
    all: do 3 eexists; (split; [reflexivity|]).
    all: subst cmd; split;
      [rewrite !capture_commands_app, Hcmd, app_nil_r; reflexivity|].
    all: intros reply' Heq Hok'; simplify_eq; try done; congruence.
  - unfold BackgroundJs.startRecording. unfold_bind. simpl. rewrite Hbidle.
    rewrite run_try_catch, run_bind.
    destruct (bg_ensure_run now env b log Hbg) as (extra & Hrun & Hcmd).
    rewrite Hrun. simpl.
    rewrite run_bind.
    match goal with |- context [run now env (BackgroundJs.notifyTabsRecordingStatus true) ?s ?l] =>
      destruct (bg_notifyTabsRecordingStatus_run now env true s l) as (extra2 & Hrun2 & Hcmd2)
    end.
    rewrite Hrun2. simpl.
    eexists; split; [reflexivity|].
    rewrite !capture_commands_app, Hcmd, Hcmd2, !app_nil_r. reflexivity.
Qed.

Lemma startRecording_fills_defaults_witness :
  RecordingManager.isRecording RecordingManager.initial = false /\
  offscreen_available reliable "ui/offscreen.html" 1000 /\
  BackgroundJs.isRecording BackgroundJs.initial = false /\
  offscreen_available reliable "offscreen.html" 2000 /\
  exists o,
    includeScreen o = JBool false /\ includeAudio o = JBool false /\
    includeSystemAudio o = JBool false /\
    videoQuality o = JStr "medium" /\ audioQuality o = JStr "medium" /\
    capture_commands
      (run 5000 reliable (RecordingManager.startRecording ∅) RecordingManager.initial []).1.2
      = [mkOffscreenMsg "START_CAPTURE" (Some o)] /\
    (run 5000 reliable (RecordingManager.startRecording ∅) RecordingManager.initial []).2
      = Fulfilled (mkResponse true (Some 5000) None None).
Proof.
  assert (H1 : RecordingManager.isRecording RecordingManager.initial = false) by reflexivity.
  assert (H2 : offscreen_available reliable "ui/offscreen.html" 1000)
    by (left; exists 0%nat; reflexivity).
  assert (H3 : BackgroundJs.isRecording BackgroundJs.initial = false) by reflexivity.
  assert (H4 : offscreen_available reliable "offscreen.html" 2000)
    by (left; exists 0%nat; reflexivity).
  repeat (split; [assumption|]).
  destruct (startRecording_fills_defaults ∅ 5000 reliable
              RecordingManager.initial BackgroundJs.initial [] H1 H2 H3 H4)
    as (o & Hs & Ha & Hsa & Hv & Hq & (s' & log' & r & Hrun & Hcmd & Hok) & _).
  exists o. rewrite Hrun. simpl.
  repeat split; auto.
  eapply Hok; reflexivity.
Defined.

(** C2 (defect of the code). A second [startRecording] while Recording or
    Paused is refused with 'Recording already in progress', but the
    refusal is thrown inside the [try] block whose [catch] rolls the
    session back: [services/recording-manager.js] runs [cleanup()], which
    clears [isRecording], [isPaused] and [startTime]; [background.js]
    clears [isRecording] and the badge and broadcasts that recording has
    stopped. No command is sent to the Capture Surface, which goes on
    recording. *)
Theorem second_start_resets_session (options : Obj) now env
    (s : RecordingManager.Manager) (b : BackgroundJs.Manager) log :
  RecordingManager.isRecording s = true ->
  BackgroundJs.isRecording b = true ->
  run now env (RecordingManager.startRecording options) s log =
    (RecordingManager.mkManager false false None 0, log,
     Fulfilled (failed "Recording already in progress"))
  /\ run now env (BackgroundService.startRecording options) s log =
    (RecordingManager.mkManager false false None 0, log,
     Fulfilled (failed "Recording already in progress"))
  /\ exists extra,
      run now env (BackgroundJs.startRecording options) b log =
        (BackgroundJs.mkManager false (BackgroundJs.startTime b) (BackgroundJs.offscreenReady b),
         log ++ Fired (SetBadgeText "") :: extra,
         Fulfilled (failed "Recording already in progress"))
      /\ capture_commands extra = [].
Proof.
  intros Hs Hb. split; [|split].
  - unfold RecordingManager.startRecording. unfold_bind. simpl. by rewrite Hs.
  - unfold BackgroundService.startRecording, RecordingManager.startRecording.
    unfold_bind. simpl. by rewrite Hs.
  - unfold BackgroundJs.startRecording. unfold_bind. simpl. rewrite Hb. simpl.
    rewrite run_bind.
    match goal with |- context [run now env (BackgroundJs.notifyTabsRecordingStatus false) ?s ?l] =>
      destruct (bg_notifyTabsRecordingStatus_run now env false s l) as (extra & Hrun & Hcmd)
    end.
    rewrite Hrun. simpl. exists extra. split; [|done].
    by rewrite <- app_assoc.
Qed.

Lemma second_start_resets_session_witness :
  RecordingManager.isRecording (RecordingManager.mkManager true true (Some 1000) 0) = true /\
  BackgroundJs.isRecording (BackgroundJs.mkManager true (Some 1000) true) = true /\
  run 9000 reliable (RecordingManager.startRecording ∅)
      (RecordingManager.mkManager true true (Some 1000) 0) [] =
    (RecordingManager.mkManager false false None 0, [],
     Fulfilled (failed "Recording already in progress")).
Proof.
  split; [reflexivity|]. split; [reflexivity|].
  apply (second_start_resets_session ∅ 9000 reliable
           (RecordingManager.mkManager true true (Some 1000) 0)
           (BackgroundJs.mkManager true (Some 1000) true) []); reflexivity.
Defined.

(** C6, as stated, fails on the coordinator: started from Idle with
    neither screen nor audio selected, it sends the start command to the
    Capture Surface and reports success. *)
Lemma coordinator_accepts_empty_selection :
  run 5000 reliable
      (RecordingManager.startRecording
         (<["includeScreen" := JBool false]> (<["includeAudio" := JBool false]> ∅)))
      RecordingManager.initial [] =
    (RecordingManager.mkManager true false (Some 5000) 0,
     [Called GetContexts;
      Called (SendMessage
                (mkOffscreenMsg "START_CAPTURE"
                   (Some (mkCaptureOptions (JBool false) (JBool false) (JBool false)
                                           (JStr "medium") (JStr "medium")))))],
     Fulfilled (mkResponse true (Some 5000) None None)).
Proof. reflexivity. Qed.

(** C6, amended. The selection is validated by the popup, not by the
    coordinator: with neither screen nor audio ticked,
    [PopupController.startRecording] shows 'Please select at least one
    recording option' and returns before it sends anything to the
    coordinator, so the session is unchanged and nothing reaches the
    Capture Surface. *)
Theorem popup_rejects_empty_selection (include_system_audio : bool) now env
    (s : RecordingManager.Manager) log :
  run now env (PopupController.startRecording false false include_system_audio) s log =
    (s,
     log ++ [Fired (ShowMessage "Starting recording..." "info");
             Fired (ShowMessage "Please select at least one recording option" "error")],
     Fulfilled tt)
  /\ capture_commands
       (run now env (PopupController.startRecording false false include_system_audio) s log).1.2
     = capture_commands log.
Proof.
  assert (Hrun :
    run now env (PopupController.startRecording false false include_system_audio) s log =
    (s,
     log ++ [Fired (ShowMessage "Starting recording..." "info");
             Fired (ShowMessage "Please select at least one recording option" "error")],
     Fulfilled tt)).
  { unfold PopupController.startRecording. unfold_bind. simpl.
    by rewrite <- app_assoc. }
  split; [exact Hrun|].
  rewrite Hrun. simpl. rewrite capture_commands_app. simpl. apply app_nil_r.
Qed.

(** ** Duration *)

(** No request ever writes anything but zero to [pausedTime]. *)
Lemma serve_pausedTime s r :
  RecordingManager.pausedTime s = 0 ->
  RecordingManager.pausedTime (serve s r) = 0.
Proof.
  intros Hp. destruct r as [now env [options| | |]]; unfold serve; simpl.
  - unfold RecordingManager.startRecording. unfold_bind. simpl.
    destruct (RecordingManager.isRecording s); simpl; [done|].
    rewrite run_try_catch, run_bind.
    destruct (services_ensure_state now env s []) as (log' & r & Hrun).
    rewrite Hrun. destruct r as [[]|e]; simpl; [|done].
    match goal with |- context [env _ ?q] => destruct (env _ q) as [[reply|]|e] end;
      simpl; try done.
    by destruct (reply_success reply).
  - unfold RecordingManager.pauseRecording. unfold_bind. simpl.
    destruct (negb (RecordingManager.isRecording s) || RecordingManager.isPaused s);
      simpl; [done|].
    match goal with |- context [env _ ?q] => destruct (env _ q) as [reply|e] end;
      by simpl.
  - unfold RecordingManager.resumeRecording. unfold_bind. simpl.
    destruct (negb (RecordingManager.isRecording s) || negb (RecordingManager.isPaused s));
      simpl; [done|].
    match goal with |- context [env _ ?q] => destruct (env _ q) as [reply|e] end;
      by simpl.
  - unfold RecordingManager.stopRecording. unfold_bind. simpl.
    destruct (negb (RecordingManager.isRecording s)); simpl; [done|].
    match goal with |- context [env _ ?q] => destruct (env _ q) as [reply|e] end;
      by simpl.
Qed.

Lemma session_pausedTime trace :
  RecordingManager.pausedTime (session trace) = 0.
Proof.
  unfold session.
  assert (H : RecordingManager.pausedTime RecordingManager.initial = 0) by reflexivity.
  revert H. generalize RecordingManager.initial.
  induction trace as [|r trace IH]; intros s Hs; simpl; [done|].
  apply IH. by apply serve_pausedTime.
Qed.

(** C1 (defect of the code). [getDuration] subtracts [pausedTime], but no
    request ever adds to it: whatever the requests served and whatever the
    platform answers, it is zero, and the duration is the time elapsed
    since [startTime] while [isRecording] is set, paused or not, and zero
    otherwise. In the session start at 0 s, pause at 10 s, resume at 20 s,
    stop at 30 s, the duration keeps advancing while paused (10 s at the
    pause, 20 s at the resume), is 30 s rather than 20 s just before the
    stop, and is 0 once [stopRecording] has cleared [isRecording], which
    is the value [handleRecordingData] then stores;
    [handleRecordingComplete] of [background.js] stores 30 s. *)
Theorem duration_ignores_pauses :
  (forall trace, RecordingManager.pausedTime (session trace) = 0) /\
  (forall trace now,
      RecordingManager.getDuration now (session trace) =
      match RecordingManager.startTime (session trace) with
      | Some started =>
          if RecordingManager.isRecording (session trace)
          then (now - started) / 1000 else 0
      | None => 0
      end) /\
  let paused := session [at_time 0 (Start ∅); at_time 10000 Pause] in
  let resumed := session [at_time 0 (Start ∅); at_time 10000 Pause; at_time 20000 Resume] in
  let finished :=
    session [at_time 0 (Start ∅); at_time 10000 Pause; at_time 20000 Resume;
             at_time 30000 Stop] in
  RecordingManager.isPaused paused = true /\
  RecordingManager.getDuration 10000 paused = 10 /\
  RecordingManager.getDuration 20000 paused = 20 /\
  RecordingManager.isPaused resumed = false /\
  RecordingManager.getDuration 30000 resumed = 30 /\
  RecordingManager.getDuration 30000 finished = 0 /\
  (fun r => prop r "duration") <$>
    local_collection
      (RecordingManager.handleRecordingData no_trim offline 30000 30000
         standup artifact finished fresh_store).2 = [JNum 0] /\
  (fun r => prop r "duration") <$>
    local_collection
      (BackgroundJs.handleRecordingComplete offline 30000 30000
         standup bg_artifact bg_stopped fresh_store) = [JNum 30].
Proof.
  split; [exact session_pausedTime|].
  split.
  - intros trace now. unfold RecordingManager.getDuration.
    rewrite session_pausedTime.
    destruct (RecordingManager.startTime (session trace)) as [started|]; [|done].
    destruct (RecordingManager.isRecording (session trace)).
    + lia.
    + rewrite Z.sub_diag. reflexivity.
  - vm_compute. repeat split; reflexivity.
Qed.

(** ** Persistence *)

Lemma filter_none {A} (f : A -> bool) (l : list A) :
  (forall x, x ∈ l -> f x = false) -> List.filter f l = [].
Proof.
  induction l as [|x l IH]; intros H; simpl; [done|].
  rewrite (H x) by left. apply IH. intros y Hy. apply H. by right.
Qed.

Lemma needsSync_empty : needsSync ∅ = false.
Proof. reflexivity. Qed.

(** The objects of [pendingRecordings] of [background.js] are the pending
    records of the local collection, in order. *)
Lemma pending_refs_objects (l : list Obj) :
  (fun i => default ∅ (l !! i)) <$> BackgroundJs.pending_refs l = List.filter needsSync l.
Proof.
  unfold BackgroundJs.pending_refs.
  induction l as [|x l IH] using rev_ind; [done|].
  rewrite length_app. change (length [x]) with 1%nat.
  rewrite Nat.add_1_r, seq_S, !List.filter_app, fmap_app.
  cbn [List.filter Nat.add].
  rewrite lookup_app_r, Nat.sub_diag by done.
  cbn [lookup list_lookup default].
  f_equal.
  - rewrite <- IH. 
    rewrite (List.filter_ext_in
               (fun i => needsSync (default ∅ ((l ++ [x]) !! i)))
               (fun i => needsSync (default ∅ (l !! i)))).
    + apply list_fmap_ext. intros j i Hi.
      apply list_elem_of_lookup_2, list_elem_of_In, List.filter_In in Hi as [Hi _].
      apply in_seq in Hi. by rewrite lookup_app_l by lia.
    + intros i Hi. apply in_seq in Hi. by rewrite lookup_app_l by lia.
  - unfold id. destruct (needsSync x); simpl; [|done].
    by rewrite lookup_app_r, Nat.sub_diag.
Qed.

Lemma pending_refs_NoDup (l : list Obj) : NoDup (BackgroundJs.pending_refs l).
Proof.
  unfold BackgroundJs.pending_refs.
  apply NoDup_ListNoDup, List.NoDup_filter, List.seq_NoDup.
Qed.

(** C10. When no record of the local collection has a truthy
    [needsSync], the reconciliation of either controller returns
    [{success: true, synced: 0}] after reading the local collection:
    nothing is fetched, uploaded or written, and both collections are as
    they were. *)
Theorem sync_without_pending_only_reads (net : Network) (w : World) :
  Forall (fun r => needsSync r = false) (local_collection w) ->
  StorageManager.syncPendingRecordings net w =
    (mkWorld (storage w) (io w ++ [StorageGet "localRecordings"]), mkSyncResult true 0)
  /\ BackgroundJs.syncPendingRecordings net w =
    (mkWorld (storage w) (io w ++ [StorageGet "localRecordings"]), mkSyncResult true 0).
Proof.
  intros Hnone. rewrite Forall_forall in Hnone.
  unfold local_collection in Hnone.
  split.
  - unfold StorageManager.syncPendingRecordings. simpl.
    by rewrite (filter_none needsSync _ Hnone).
  - unfold BackgroundJs.syncPendingRecordings. simpl.
    assert (Hrefs : BackgroundJs.pending_refs (default [] (localRecordings (storage w))) = []).
    { apply fmap_nil_inv with (f := fun i => default ∅ (default [] (localRecordings (storage w)) !! i)).
      rewrite pending_refs_objects. by apply filter_none. }
    by rewrite Hrefs.
Qed.

Lemma sync_without_pending_only_reads_witness :
  Forall (fun r => needsSync r = false) (local_collection one_synced) /\
  StorageManager.syncPendingRecordings offline one_synced =
    (mkWorld (storage one_synced) [StorageGet "localRecordings"], mkSyncResult true 0) /\
  BackgroundJs.syncPendingRecordings offline one_synced =
    (mkWorld (storage one_synced) [StorageGet "localRecordings"], mkSyncResult true 0).
Proof.
  assert (H : Forall (fun r => needsSync r = false) (local_collection one_synced))
    by (repeat constructor).
  split; [exact H|].
  exact (sync_without_pending_only_reads offline one_synced H).
Defined.




(** ** Reconciliation *)

Lemma findIndex_middle (id : JsVal) (l1 l2 : list Obj) (x : Obj) :
  prop x "id" = id ->
  (forall y, y ∈ l1 -> prop y "id" ≠ id) ->
  StorageManager.findIndex id (l1 ++ x :: l2) = Some (length l1).
Proof.
  intros Hx Hl1. unfold StorageManager.findIndex.
  rewrite list_find_app_r.
  - simpl. rewrite decide_True by done. simpl. f_equal; lia.
  - apply list_find_None, Forall_forall. intros y Hy. by apply Hl1.
Qed.

Lemma mark_synced_id (r : Obj) : prop (StorageManager.mark_synced r) "id" = prop r "id".
Proof.
  unfold prop, StorageManager.mark_synced.
  by rewrite lookup_delete_ne, !lookup_insert_ne.
Qed.

Lemma mark_synced_flags (r : Obj) :
  StorageManager.mark_synced r !! "needsSync" = Some (JBool false) /\
  StorageManager.mark_synced r !! "isLocal" = Some (JBool false) /\
  StorageManager.mark_synced r !! "blob" = None.
Proof.
  unfold StorageManager.mark_synced. repeat split.
  all: by simplify_map_eq.
Qed.

(** One iteration of the loop of [services/storage-manager.js], by the
    outcome of the upload. *)
Lemma sync_recording_failed net st r :
  sync_outcome net r = None ->
  let st' := StorageManager.sync_recording net st r in
  StorageManager.updatedLocalRecordings st' = StorageManager.updatedLocalRecordings st /\
  StorageManager.syncedCount st' = StorageManager.syncedCount st /\
  storage (StorageManager.world st') = storage (StorageManager.world st).
Proof.
  unfold sync_outcome, StorageManager.sync_recording. intros H.
  destruct (fetch_blob net (prop r "blob")) as [blob|]; [|done].
  by rewrite H.
Qed.

Lemma sync_recording_uploaded net st r uploaded :
  sync_outcome net r = Some uploaded ->
  let st' := StorageManager.sync_recording net st r in
  StorageManager.updatedLocalRecordings st' =
    match StorageManager.findIndex (prop r "id") (StorageManager.updatedLocalRecordings st) with
    | Some i => <[i := StorageManager.mark_synced uploaded]> (StorageManager.updatedLocalRecordings st)
    | None => StorageManager.updatedLocalRecordings st
    end /\
  StorageManager.syncedCount st' = S (StorageManager.syncedCount st) /\
  synced_collection (StorageManager.world st') =
    push_synced (synced_collection (StorageManager.world st)) uploaded /\
  localRecordings (storage (StorageManager.world st')) =
    localRecordings (storage (StorageManager.world st)).
Proof.
  unfold sync_outcome, StorageManager.sync_recording. intros H.
  destruct (fetch_blob net (prop r "blob")) as [blob|]; [|done].
  by rewrite H.
Qed.

Lemma reconciled_uploaded net r uploaded :
  needsSync r = true -> sync_outcome net r = Some uploaded ->
  reconciled net r = StorageManager.mark_synced uploaded.
Proof. intros Hr Hout. unfold reconciled. by rewrite Hr, Hout. Qed.

Lemma reconciled_failed net r :
  sync_outcome net r = None -> reconciled net r = r.
Proof. intros Hout. unfold reconciled. rewrite Hout. by destruct (needsSync r). Qed.

Lemma reconciled_skipped net r :
  needsSync r = false -> reconciled net r = r.
Proof. intros Hr. unfold reconciled. by rewrite Hr. Qed.

(** The loop, from a split of the local collection into the records
    already visited and those still to visit. *)
Lemma services_loop net (suf : list Obj) : forall (pre : list Obj) st,
  (forall i j x y, (pre ++ suf) !! i = Some x -> (pre ++ suf) !! j = Some y ->
                   (i < j)%nat -> prop (reconciled net x) "id" ≠ prop y "id") ->
  StorageManager.updatedLocalRecordings st = (reconciled net <$> pre) ++ suf ->
  let uploaded := omap (sync_outcome net) (List.filter needsSync suf) in
  let st' := foldl (StorageManager.sync_recording net) st (List.filter needsSync suf) in
  StorageManager.updatedLocalRecordings st' = reconciled net <$> (pre ++ suf) /\
  StorageManager.syncedCount st' = (StorageManager.syncedCount st + length uploaded)%nat /\
  synced_collection (StorageManager.world st') =
    foldl push_synced (synced_collection (StorageManager.world st)) uploaded /\
  localRecordings (storage (StorageManager.world st')) =
    localRecordings (storage (StorageManager.world st)).
Proof.
  induction suf as [|r suf IH]; intros pre st Hsep Hst; simpl.
  - rewrite app_nil_r in *. repeat split; [done|lia].
  - assert (Hnext : forall st1,
      StorageManager.updatedLocalRecordings st1 = (reconciled net <$> (pre ++ [r])) ++ suf ->
      let uploaded := omap (sync_outcome net) (List.filter needsSync suf) in
      let st' := foldl (StorageManager.sync_recording net) st1 (List.filter needsSync suf) in
      StorageManager.updatedLocalRecordings st' = reconciled net <$> (pre ++ r :: suf) /\
      StorageManager.syncedCount st' = (StorageManager.syncedCount st1 + length uploaded)%nat /\
      synced_collection (StorageManager.world st') =
        foldl push_synced (synced_collection (StorageManager.world st1)) uploaded /\
      localRecordings (storage (StorageManager.world st')) =
        localRecordings (storage (StorageManager.world st1))).
    { intros st1 Hst1. rewrite (cons_middle r pre suf), app_assoc.
      apply IH; [|done]. by rewrite <- app_assoc. }
    destruct (needsSync r) eqn:Hr; simpl.
    + destruct (sync_outcome net r) as [uploaded|] eqn:Hout; simpl.
      * destruct (sync_recording_uploaded net st r uploaded Hout) as (Hu & Hc & Hw & Hl).
        rewrite Hst, (findIndex_middle (prop r "id")) in Hu; [|done|].
        2:{ intros y Hy. apply list_elem_of_fmap in Hy as (x & -> & Hx).
            apply list_elem_of_lookup in Hx as [i Hi].
            apply (Hsep i (length pre)); [by apply lookup_app_l_Some| |by eapply lookup_lt_Some].
            by rewrite lookup_app_r, Nat.sub_diag. }
        destruct (Hnext (StorageManager.sync_recording net st r)) as (Hu' & Hc' & Hw' & Hl').
        { rewrite Hu, fmap_app. simpl. rewrite (reconciled_uploaded net r uploaded Hr Hout).
          rewrite insert_app_r_alt, Nat.sub_diag by done. simpl.
          by rewrite <- app_assoc. }
        unfold omap in *.
        repeat split; [done|lia|by rewrite Hw', Hw|by rewrite Hl', Hl].
      * destruct (sync_recording_failed net st r Hout) as (Hu & Hc & Hw).
        destruct (Hnext (StorageManager.sync_recording net st r)) as (Hu' & Hc' & Hw' & Hl').
        { rewrite Hu, Hst, fmap_app. simpl. rewrite (reconciled_failed net r Hout).
          by rewrite <- app_assoc. }
        unfold synced_collection, omap in *. rewrite Hw in *.
        repeat split; [done|lia|done|done].
    + destruct (Hnext st) as (Hu' & Hc' & Hw' & Hl').
      { rewrite Hst, fmap_app. simpl. rewrite (reconciled_skipped net r Hr).
        by rewrite <- app_assoc. }
      done.
Qed.

(** One iteration of the loop of [background.js]: only the object at
    [ref] may change. *)
Lemma bg_sync_recording_spec net st ref :
  let recording := default ∅ (BackgroundJs.localObjects st !! ref) in
  let st' := BackgroundJs.sync_recording net st ref in
  (forall i, BackgroundJs.localObjects st' !! i =
             if decide (i = ref)
             then (fun r => match bg_sync_outcome net r with
                            | Some data => BackgroundJs.mark_synced r data
                            | None => r
                            end) <$> BackgroundJs.localObjects st !! i
             else BackgroundJs.localObjects st !! i) /\
  BackgroundJs.syncedCount st' =
    (BackgroundJs.syncedCount st + length (option_list (bg_sync_outcome net recording)))%nat /\
  storage (BackgroundJs.world st') = storage (BackgroundJs.world st).
Proof.
  unfold BackgroundJs.sync_recording, bg_sync_outcome. simpl.
  set (l := BackgroundJs.localObjects st).
  assert (Hkeep : forall (f : Obj -> Obj) i,
             (forall r, l !! ref = Some r -> f r = r) ->
             l !! i = if decide (i = ref) then f <$> l !! i else l !! i).
  { intros f i Hf. case_decide as Hi; [|done]. subst i.
    destruct (l !! ref) as [r|] eqn:Hr; [|done]. simpl. by rewrite Hf. }
  destruct (fetch_blob net (prop (default ∅ (l !! ref)) "data")) as [blob|] eqn:Hfetch; simpl.
  - destruct (upload net blob (BackgroundJs.sync_metadata (default ∅ (l !! ref))))
      as [data|] eqn:Hup; simpl.
    + split; [|split; [lia|done]].
      intros i. case_decide as Hi.
      * subst i. destruct (l !! ref) as [r|] eqn:Hr; simpl in *.
        -- rewrite list_lookup_insert_eq by (by eapply lookup_lt_Some).
           by rewrite Hfetch, Hup.
        -- rewrite list_insert_ge by (by apply lookup_ge_None).
           by rewrite Hr.
      * by rewrite list_lookup_insert_ne.
    + split; [|split; [lia|done]]. intros i. apply Hkeep.
      intros r Hr. rewrite Hr in *. simpl in *. by rewrite Hfetch, Hup.
  - split; [|split; [lia|done]]. intros i. apply Hkeep.
    intros r Hr. rewrite Hr in *. simpl in *. by rewrite Hfetch.
Qed.

Lemma bg_loop net (refs : list nat) : forall st,
  NoDup refs ->
  let st' := foldl (BackgroundJs.sync_recording net) st refs in
  (forall i, BackgroundJs.localObjects st' !! i =
             if decide (i ∈ refs)
             then (fun r => match bg_sync_outcome net r with
                            | Some data => BackgroundJs.mark_synced r data
                            | None => r
                            end) <$> BackgroundJs.localObjects st !! i
             else BackgroundJs.localObjects st !! i) /\
  BackgroundJs.syncedCount st' =
    (BackgroundJs.syncedCount st +
     length (omap (fun i => bg_sync_outcome net (default ∅ (BackgroundJs.localObjects st !! i)))
                  refs))%nat /\
  storage (BackgroundJs.world st') = storage (BackgroundJs.world st).
Proof.
  induction refs as [|ref refs IH]; intros st Hnd; cbn [foldl].
  - split; [|split; [simpl; lia|done]]. intros i. by rewrite decide_False by apply not_elem_of_nil.
  - apply NoDup_cons in Hnd as [Hfresh Hnd].
    destruct (bg_sync_recording_spec net st ref) as (Hobj & Hcount & Hstore).
    destruct (IH (BackgroundJs.sync_recording net st ref) Hnd) as (Hobj' & Hcount' & Hstore').
    repeat split.
    + intros i. rewrite Hobj', Hobj.
      destruct (decide (i = ref)) as [->|Hne].
      * rewrite decide_False by done. by rewrite decide_True by (by left).
      * destruct (decide (i ∈ refs)).
        -- by rewrite decide_True by (by right).
        -- by rewrite decide_False by (by apply not_elem_of_cons).
    + rewrite Hcount', Hcount.
      rewrite (list_omap_ext _ (fun i => bg_sync_outcome net
                             (default ∅ (BackgroundJs.localObjects st !! i))) refs refs).
      * cbn [omap list_omap].
        destruct (bg_sync_outcome net (default ∅ (BackgroundJs.localObjects st !! ref)));
          unfold omap; simpl; lia.
      * apply Forall2_same_length_lookup. split; [done|].
        intros j x y Hx Hy. assert (x = y) as <- by congruence.
        rewrite Hobj. rewrite decide_False; [done|].
        intros ->. apply Hfresh. by eapply list_elem_of_lookup_2.
    + by rewrite Hstore', Hstore.
Qed.

Lemma filter_nil_inv {A} (f : A -> bool) (l : list A) :
  List.filter f l = [] -> forall x, x ∈ l -> f x = false.
Proof.
  induction l as [|y l IH]; simpl; intros Hnil x Hx.
  - by apply elem_of_nil in Hx.
  - destruct (f y) eqn:Hy; [done|].
    apply elem_of_cons in Hx as [->|Hx]; auto.
Qed.

Lemma omap_fmap_index {A B C} (f : B -> option C) (g : A -> B) (l : list A) :
  omap (fun i => f (g i)) l = omap f (g <$> l).
Proof.
  induction l as [|x l IH]; [done|]. csimpl. rewrite IH. done.
Qed.

Lemma fmap_unchanged {A} (f : A -> A) (l : list A) :
  (forall x, x ∈ l -> f x = x) -> f <$> l = l.
Proof.
  induction l as [|x l IH]; intros H; [done|]. csimpl.
  rewrite (H x) by left. f_equal. apply IH. intros y Hy. apply H. by right.
Qed.

(** The ids of the records of the local collection stay apart during a
    reconciliation when they are pairwise distinct and the server never
    hands out the id of a local record. *)
Lemma ids_stay_apart net (l : list Obj) :
  NoDup (ids l) ->
  (forall r uploaded, r ∈ List.filter needsSync l -> sync_outcome net r = Some uploaded ->
                      prop uploaded "id" ∉ ids l) ->
  forall i j x y, l !! i = Some x -> l !! j = Some y -> (i < j)%nat ->
                  prop (reconciled net x) "id" ≠ prop y "id".
Proof.
  intros Hnd Hfresh i j x y Hi Hj Hlt.
  assert (Hy : prop y "id" ∈ ids l).
  { apply list_elem_of_fmap. exists y. split; [done|]. by eapply list_elem_of_lookup_2. }
  unfold reconciled.
  destruct (needsSync x) eqn:Hx; [destruct (sync_outcome net x) as [u|] eqn:Hout|].
  - rewrite mark_synced_id. intros Heq. rewrite <- Heq in Hy.
    eapply Hfresh; [|exact Hout|exact Hy].
    apply list_elem_of_In, List.filter_In. split; [|done].
    apply list_elem_of_In. by eapply list_elem_of_lookup_2.
  - intros Heq. assert (i = j); [|lia].
    eapply (NoDup_lookup (ids l) i j (prop x "id")); [done|..]; unfold ids;
      rewrite list_lookup_fmap; [by rewrite Hi|by rewrite Hj, Heq].
  - intros Heq. assert (i = j); [|lia].
    eapply (NoDup_lookup (ids l) i j (prop x "id")); [done|..]; unfold ids;
      rewrite list_lookup_fmap; [by rewrite Hi|by rewrite Hj, Heq].
Qed.

(** The reconciliation of [services/storage-manager.js] as a whole. *)
Lemma services_sync_spec net w :
  let local := local_collection w in
  let uploaded := omap (sync_outcome net) (List.filter needsSync local) in
  (forall i j x y, local !! i = Some x -> local !! j = Some y -> (i < j)%nat ->
                   prop (reconciled net x) "id" ≠ prop y "id") ->
  let result := StorageManager.syncPendingRecordings net w in
  result.2 = mkSyncResult true (length uploaded) /\
  local_collection result.1 = reconciled net <$> local /\
  synced_collection result.1 = foldl push_synced (synced_collection w) uploaded.
Proof.
  intros local uploaded Hsep. subst local uploaded.
  unfold StorageManager.syncPendingRecordings, local_collection in *. simpl.
  set (local := default [] (localRecordings (storage w))) in *.
  destruct (length (List.filter needsSync local) =? 0)%nat eqn:Hlen; simpl.
  - apply Nat.eqb_eq, nil_length_inv in Hlen. rewrite Hlen. simpl.
    repeat split. symmetry. apply fmap_unchanged. intros r Hr.
    apply reconciled_skipped. by eapply filter_nil_inv.
  - destruct (services_loop net local [] (StorageManager.mkSyncLoop local 0
                 (record_io (StorageGet "localRecordings") w)))
      as (Hu & Hc & Hw & _); [done|done|].
    simpl in *. rewrite Hu, Hc. repeat split. exact Hw.
Qed.

(** The reconciliation of [background.js] as a whole. *)
Lemma bg_sync_spec net w :
  let local := local_collection w in
  let uploaded := omap (bg_sync_outcome net) (List.filter needsSync local) in
  let result := BackgroundJs.syncPendingRecordings net w in
  result.2 = mkSyncResult true (length uploaded) /\
  local_collection result.1 = bg_reconciled net <$> local /\
  recordings (storage result.1) = recordings (storage w).
Proof.
  intros local uploaded. subst local uploaded.
  unfold BackgroundJs.syncPendingRecordings, local_collection in *. simpl.
  set (local := default [] (localRecordings (storage w))) in *.
  pose proof (pending_refs_objects local) as Hobjs.
  destruct (length (BackgroundJs.pending_refs local) =? 0)%nat eqn:Hlen; simpl.
  - apply Nat.eqb_eq, nil_length_inv in Hlen. rewrite Hlen in Hobjs. simpl in Hobjs.
    rewrite <- Hobjs. simpl. repeat split.
    symmetry. apply fmap_unchanged. intros r Hr.
    unfold bg_reconciled. by rewrite (filter_nil_inv needsSync local (eq_sym Hobjs) r Hr).
  - destruct (bg_loop net (BackgroundJs.pending_refs local)
                (BackgroundJs.mkSyncLoop local 0 (record_io (StorageGet "localRecordings") w))
                (pending_refs_NoDup local))
      as (Hobj & Hc & Hw).
    simpl in *. rewrite Hc, Hw, omap_fmap_index, Hobjs. repeat split.
    apply list_eq. intros i. rewrite Hobj, list_lookup_fmap.
    destruct (local !! i) as [r|] eqn:Hr; simpl; [|by case_decide].
    unfold bg_reconciled.
    assert (Hin : i ∈ BackgroundJs.pending_refs local <-> needsSync r = true).
    { unfold BackgroundJs.pending_refs. rewrite list_elem_of_In, List.filter_In, in_seq, Hr.
      simpl. apply lookup_lt_Some in Hr. intuition lia. }
    case_decide as Hi.
    + apply Hin in Hi. by rewrite Hi.
    + destruct (needsSync r); [|done]. exfalso. by apply Hi, Hin.
Qed.

Lemma length_omap_le {A B} (f : A -> option B) (l : list A) :
  (length (omap f l) <= length l)%nat.
Proof.
  induction l as [|x l IH]; [done|]. csimpl. destruct (f x); simpl; lia.
Qed.

Lemma mark_synced_not_pending (r : Obj) : needsSync (StorageManager.mark_synced r) = false.
Proof.
  unfold needsSync, prop. by rewrite (proj1 (mark_synced_flags r)).
Qed.

Lemma still_pending_count net (l : list Obj) :
  length (List.filter needsSync (reconciled net <$> l)) =
  (length (List.filter needsSync l) - length (omap (sync_outcome net) (List.filter needsSync l)))%nat.
Proof.
  induction l as [|r l IH]; [done|]. csimpl.
  destruct (needsSync r) eqn:Hr.
  - csimpl. destruct (sync_outcome net r) as [u|] eqn:Hout.
    + rewrite (reconciled_uploaded net r u Hr Hout), mark_synced_not_pending. simpl. lia.
    + rewrite (reconciled_failed net r Hout), Hr. simpl. rewrite IH.
      pose proof (length_omap_le (sync_outcome net) (List.filter needsSync l)). lia.
  - by rewrite (reconciled_skipped net r Hr), Hr.
Qed.

Lemma bg_mark_synced_not_pending (r data : Obj) :
  truthy (prop data "needsSync") = false ->
  needsSync (BackgroundJs.mark_synced r data) = false.
Proof.
  unfold needsSync, BackgroundJs.mark_synced, assign, prop. intros Hdata.
  rewrite lookup_union. destruct (data !! "needsSync") as [v|] eqn:Hv; simpl in *.
  - rewrite lookup_insert_ne, lookup_insert_ne, lookup_insert_eq by done. done.
  - by rewrite lookup_insert_ne, lookup_insert_ne, lookup_insert_eq.
Qed.

Lemma bg_still_pending_count net (l : list Obj) :
  (forall r data, r ∈ List.filter needsSync l -> bg_sync_outcome net r = Some data ->
                  truthy (prop data "needsSync") = false) ->
  length (List.filter needsSync (bg_reconciled net <$> l)) =
  (length (List.filter needsSync l)
   - length (omap (bg_sync_outcome net) (List.filter needsSync l)))%nat.
Proof.
  induction l as [|r l IH]; intros Hanswer; [done|]. csimpl.
  assert (Htail : forall r0 data, r0 ∈ List.filter needsSync l ->
                    bg_sync_outcome net r0 = Some data ->
                    truthy (prop data "needsSync") = false).
  { intros r0 data Hr0. apply Hanswer. simpl. destruct (needsSync r); [by right|done]. }
  unfold bg_reconciled at 1. destruct (needsSync r) eqn:Hr.
  - csimpl. destruct (bg_sync_outcome net r) as [data|] eqn:Hout.
    + rewrite bg_mark_synced_not_pending; [simpl; rewrite IH by done; lia|].
      apply (Hanswer r data); [|done]. simpl. rewrite Hr. by left.
    + rewrite Hr. simpl. rewrite IH by done.
      pose proof (length_omap_le (bg_sync_outcome net) (List.filter needsSync l)). lia.
  - rewrite Hr. by apply IH.
Qed.

(** C3, as stated, fails. [services/storage-manager.js] finds the slot of
    an uploaded record by its id: when two pending records have the same
    id and only the upload of the second succeeds, [{synced: 1}] is
    returned, but it is the first record, whose upload failed, that is
    overwritten, and the second still needs a sync. [background.js]
    merges the answer of the server into the record last: when the
    answer carries [needsSync: true], both records are counted and both
    still need a sync. *)
Lemma reconciliation_marks_the_wrong_record :
  let result := StorageManager.syncPendingRecordings flaky same_id_twice in
  let bg_result := BackgroundJs.syncPendingRecordings echoing two_pending in
  needsSync <$> local_collection same_id_twice = [true; true] /\
  sync_outcome flaky <$> local_collection same_id_twice = [None; Some server_record] /\
  result.2 = mkSyncResult true 1 /\
  needsSync <$> local_collection result.1 = [false; true] /\
  local_collection result.1 !! 1%nat = Some (pending_record "local-1" "AAA") /\
  bg_result.2 = mkSyncResult true 2 /\
  needsSync <$> local_collection bg_result.1 = [true; true].
Proof.
  cbv zeta. repeat (split; [vm_compute; reflexivity|]). vm_compute; reflexivity.
Qed.

(** C3, amended. Over a local collection whose ids are pairwise distinct,
    with a server that never hands out the id of a local record
    ([services/storage-manager.js]) and whose answers carry no truthy
    [needsSync] ([background.js]), one reconciliation over N pending
    records of which K uploads succeed returns [{success: true, synced: K}]
    whatever the other N-K uploads did (threw or failed); the slot of
    each of the K records now holds a record with [needsSync] false, the
    other N-K pending records and the records that were not pending are
    untouched, and N-K records still need a sync. This holds for both
    controllers, [background.js] marking the K records in place. *)
Theorem reconciliation_counts_successes (net : Network) (w : World) :
  let local := local_collection w in
  let pending := List.filter needsSync local in
  NoDup (ids local) ->
  (forall r uploaded, r ∈ pending -> sync_outcome net r = Some uploaded ->
                      prop uploaded "id" ∉ ids local) ->
  (forall r data, r ∈ pending -> bg_sync_outcome net r = Some data ->
                  truthy (prop data "needsSync") = false) ->
  let result := StorageManager.syncPendingRecordings net w in
  let K := length (omap (sync_outcome net) pending) in
  let bg_result := BackgroundJs.syncPendingRecordings net w in
  let bg_K := length (omap (bg_sync_outcome net) pending) in
  result.2 = mkSyncResult true K /\
  (forall i r, local !! i = Some r -> needsSync r = true ->
     match sync_outcome net r with
     | Some uploaded =>
         exists marked,
           local_collection result.1 !! i = Some marked /\
           marked = StorageManager.mark_synced uploaded /\
           marked !! "needsSync" = Some (JBool false) /\
           needsSync marked = false
     | None => local_collection result.1 !! i = Some r
     end) /\
  (forall i r, local !! i = Some r -> needsSync r = false ->
     local_collection result.1 !! i = Some r) /\
  length (local_collection result.1) = length local /\
  length (List.filter needsSync (local_collection result.1)) = (length pending - K)%nat /\
  bg_result.2 = mkSyncResult true bg_K /\
  (forall i r, local !! i = Some r -> needsSync r = true ->
     match bg_sync_outcome net r with
     | Some data =>
         exists marked,
           local_collection bg_result.1 !! i = Some marked /\
           marked = BackgroundJs.mark_synced r data /\
           needsSync marked = false
     | None => local_collection bg_result.1 !! i = Some r
     end) /\
  (forall i r, local !! i = Some r -> needsSync r = false ->
     local_collection bg_result.1 !! i = Some r) /\
  length (local_collection bg_result.1) = length local /\
  length (List.filter needsSync (local_collection bg_result.1)) = (length pending - bg_K)%nat.
Proof.
  intros local pending Hnd Hfresh Hanswer result K bg_result bg_K.
  destruct (services_sync_spec net w (ids_stay_apart net local Hnd Hfresh))
    as (Hres & Hlocal & _).
  destruct (bg_sync_spec net w) as (Hbres & Hblocal & _).
  fold local in Hlocal, Hblocal. fold result in Hres, Hlocal. fold bg_result in Hbres, Hblocal.
  split; [exact Hres|].
  split.
  { intros i r Hi Hr.
    destruct (sync_outcome net r) as [u|] eqn:Hout.
    - exists (StorageManager.mark_synced u).
      split; [|split; [done|split; [apply mark_synced_flags|apply mark_synced_not_pending]]].
      rewrite Hlocal, list_lookup_fmap, Hi. simpl.
      by rewrite (reconciled_uploaded net r u Hr Hout).
    - rewrite Hlocal, list_lookup_fmap, Hi. simpl.
      by rewrite (reconciled_failed net r Hout). }
  split.
  { intros i r Hi Hr. rewrite Hlocal, list_lookup_fmap, Hi. simpl.
    by rewrite (reconciled_skipped net r Hr). }
  split; [by rewrite Hlocal, length_fmap|].
  split; [rewrite Hlocal; apply still_pending_count|].
  split; [exact Hbres|].
  split.
  { intros i r Hi Hr.
    assert (Hin : r ∈ pending).
    { apply list_elem_of_In, List.filter_In. split; [|done].
      apply list_elem_of_In. by eapply list_elem_of_lookup_2. }
    destruct (bg_sync_outcome net r) as [data|] eqn:Hout.
    - exists (BackgroundJs.mark_synced r data).
      split; [|split; [done|]].
      + rewrite Hblocal, list_lookup_fmap, Hi. simpl.
        unfold bg_reconciled. by rewrite Hr, Hout.
      + apply bg_mark_synced_not_pending. by apply (Hanswer r data).
    - rewrite Hblocal, list_lookup_fmap, Hi. simpl.
      unfold bg_reconciled. by rewrite Hr, Hout. }
  split.
  { intros i r Hi Hr. rewrite Hblocal, list_lookup_fmap, Hi. simpl.
    unfold bg_reconciled. by rewrite Hr. }
  split; [by rewrite Hblocal, length_fmap|].
  rewrite Hblocal. by apply bg_still_pending_count.
Qed.

Lemma flaky_uploads r uploaded :
  sync_outcome flaky r = Some uploaded -> uploaded = server_record.
Proof.
  unfold sync_outcome. destruct (fetch_blob flaky (prop r "blob")) as [blob|]; [|done].
  simpl. destruct (String.eqb blob "AAA"); [|done]. by intros [= <-].
Qed.

Lemma flaky_bg_uploads r data :
  bg_sync_outcome flaky r = Some data -> data = server_record.
Proof.
  unfold bg_sync_outcome. destruct (fetch_blob flaky (prop r "data")) as [blob|]; [|done].
  simpl. destruct (String.eqb blob "AAA"); [|done]. by intros [= <-].
Qed.

Lemma reconciliation_counts_successes_witness :
  NoDup (ids (local_collection two_pending)) /\
  (forall r uploaded,
      r ∈ List.filter needsSync (local_collection two_pending) ->
      sync_outcome flaky r = Some uploaded ->
      prop uploaded "id" ∉ ids (local_collection two_pending)) /\
  (forall r data,
      r ∈ List.filter needsSync (local_collection two_pending) ->
      bg_sync_outcome flaky r = Some data ->
      truthy (prop data "needsSync") = false) /\
  (StorageManager.syncPendingRecordings flaky two_pending).2 = mkSyncResult true 1 /\
  length (List.filter needsSync
            (local_collection (StorageManager.syncPendingRecordings flaky two_pending).1)) = 1%nat /\
  length (List.filter needsSync
            (local_collection (BackgroundJs.syncPendingRecordings flaky two_pending).1)) = 1%nat.
Proof.
  assert (H1 : NoDup (ids (local_collection two_pending))).
  { apply (bool_decide_unpack _). vm_compute. exact I. }
  assert (H2 : forall r uploaded,
             r ∈ List.filter needsSync (local_collection two_pending) ->
             sync_outcome flaky r = Some uploaded ->
             prop uploaded "id" ∉ ids (local_collection two_pending)).
  { intros r uploaded _ Hout. rewrite (flaky_uploads r uploaded Hout).
    apply (bool_decide_unpack _). vm_compute. exact I. }
  assert (H3 : forall r data,
             r ∈ List.filter needsSync (local_collection two_pending) ->
             bg_sync_outcome flaky r = Some data ->
             truthy (prop data "needsSync") = false).
  { intros r data _ Hout. by rewrite (flaky_bg_uploads r data Hout). }
  split; [exact H1|]. split; [exact H2|]. split; [exact H3|].
  destruct (reconciliation_counts_successes flaky two_pending H1 H2 H3)
    as (Hres & _ & _ & _ & Hleft & _ & _ & _ & _ & Hbleft).
  split; [exact Hres|]. split; [exact Hleft|exact Hbleft].
Defined.

(** ** The two collections *)

Lemma take_app_take {A} (n : nat) (a b : list A) :
  take n (a ++ take n b) = take n (a ++ b).
Proof.
  rewrite !take_app, take_take. f_equal. f_equal. lia.
Qed.

Lemma foldl_push_synced (acc l : list Obj) :
  l ≠ [] -> foldl push_synced acc l = take 100 (rev l ++ acc).
Proof.
  induction l as [|x l IH] using rev_ind; [done|]. intros _.
  rewrite foldl_app, rev_unit. simpl. unfold push_synced at 1.
  destruct l as [|y l]; [done|].
  rewrite IH by done.
  change (x :: take 100 (rev (y :: l) ++ acc)) with ([x] ++ take 100 (rev (y :: l) ++ acc)).
  by rewrite take_app_take.
Qed.

Lemma uploaded_is_synced (acc l : list Obj) (u : Obj) :
  u ∈ l -> (length l <= 100)%nat -> u ∈ foldl push_synced acc l.
Proof.
  intros Hu Hlen. rewrite foldl_push_synced by (intros ->; by apply elem_of_nil in Hu).
  rewrite take_app_ge by (rewrite length_rev; lia).
  apply elem_of_app. left.
  apply list_elem_of_In. apply -> in_rev. by apply list_elem_of_In.
Qed.

(** C4, as stated, fails: after a successful upload the record sent back
    by the server, marked as synced, is in the local collection and the
    record itself is in the synced collection, so the id assigned by the
    server is in both. [background.js] marks the record in place and
    inserts nothing in the synced collection. *)
Lemma synced_record_is_in_both_collections :
  let w := (StorageManager.syncPendingRecordings flaky two_pending).1 in
  let bw := (BackgroundJs.syncPendingRecordings flaky two_pending).1 in
  local_collection w =
    [<["isLocal" := JBool false]> (<["needsSync" := JBool false]> server_record);
     pending_record "local-2" "BBB"] /\
  synced_collection w = [server_record] /\
  ids (local_collection w) = [JStr "srv-1"; JStr "local-2"] /\
  ids (synced_collection w) = [JStr "srv-1"] /\
  ~ (forall id, id ∈ ids (local_collection w) -> id ∉ ids (synced_collection w)) /\
  ids (local_collection bw) = [JStr "srv-1"; JStr "local-2"] /\
  synced_collection bw = [].
Proof.
  assert (Hl : ids (local_collection (StorageManager.syncPendingRecordings flaky two_pending).1)
               = [JStr "srv-1"; JStr "local-2"]) by (vm_compute; reflexivity).
  assert (Hs : ids (synced_collection (StorageManager.syncPendingRecordings flaky two_pending).1)
               = [JStr "srv-1"]) by (vm_compute; reflexivity).
  cbv zeta.
  split; [vm_compute; reflexivity|]. split; [vm_compute; reflexivity|].
  split; [exact Hl|]. split; [exact Hs|].
  split.
  { rewrite Hl, Hs. intros Hdisj. apply (Hdisj (JStr "srv-1")); by left. }
  split; vm_compute; reflexivity.
Qed.

(** The slot of an uploaded record and the synced collection after a
    reconciliation of [services/storage-manager.js]. *)
Lemma services_synced_slot (net : Network) (w : World) :
  let local := local_collection w in
  let pending := List.filter needsSync local in
  NoDup (ids local) ->
  (forall r uploaded, r ∈ pending -> sync_outcome net r = Some uploaded ->
                      prop uploaded "id" ∉ ids local) ->
  (length local <= 50)%nat ->
  let w' := (StorageManager.syncPendingRecordings net w).1 in
  forall i r uploaded,
    local !! i = Some r -> needsSync r = true -> sync_outcome net r = Some uploaded ->
    local_collection w' !! i = Some (StorageManager.mark_synced uploaded) /\
    (prop r "id" ∉ ids (local_collection w')) /\
    (uploaded ∈ synced_collection w') /\
    (prop uploaded "id" ∈ ids (local_collection w')) /\
    (prop uploaded "id" ∈ ids (synced_collection w')) /\
    synced_collection w' !! 0%nat = last (omap (sync_outcome net) pending).
Proof.
  intros local pending Hnd Hfresh Hcap w' i r uploaded Hi Hr Hout.
  destruct (services_sync_spec net w (ids_stay_apart net local Hnd Hfresh))
    as (_ & Hlocal & Hsynced).
  fold local in Hlocal, Hsynced. fold w' in Hlocal, Hsynced. fold pending in Hsynced.
  assert (Hslot : local_collection w' !! i = Some (StorageManager.mark_synced uploaded)).
  { rewrite Hlocal, list_lookup_fmap, Hi. simpl.
    by rewrite (reconciled_uploaded net r uploaded Hr Hout). }
  assert (Hpending : r ∈ pending).
  { apply list_elem_of_In, List.filter_In. split; [|done].
    apply list_elem_of_In. by eapply list_elem_of_lookup_2. }
  assert (Huploaded : uploaded ∈ omap (sync_outcome net) pending).
  { apply list_elem_of_omap. eauto. }
  assert (Hin : uploaded ∈ synced_collection w').
  { rewrite Hsynced. apply uploaded_is_synced; [done|].
    etrans; [apply length_omap_le|]. subst pending.
    etrans; [apply List.filter_length_le|]. lia. }
  split; [exact Hslot|]. split; [|split; [exact Hin|split; [|split]]].
  - rewrite Hlocal. unfold ids. rewrite <- list_fmap_compose.
    intros Hmem. apply list_elem_of_fmap in Hmem as (x & Heq & Hx).
    apply list_elem_of_lookup in Hx as [j Hj]. simpl in Heq.
    destruct (decide (i = j)) as [->|Hne].
    + assert (x = r) as -> by congruence.
      rewrite (reconciled_uploaded net r uploaded Hr Hout), mark_synced_id in Heq.
      apply (Hfresh r uploaded Hpending Hout). rewrite <- Heq.
      apply list_elem_of_fmap. exists r. split; [done|]. by eapply list_elem_of_lookup_2.
    + destruct (Nat.lt_total i j) as [Hlt|[->|Hlt]]; [| done |].
      * (* x comes later: its slot holds x or a record of the server *)
        unfold reconciled in Heq.
        destruct (needsSync x) eqn:Hx; [destruct (sync_outcome net x) as [u|] eqn:Hxo|].
        -- rewrite mark_synced_id in Heq.
           assert (Hxp : x ∈ pending).
           { apply list_elem_of_In, List.filter_In. split; [|done].
             apply list_elem_of_In. by eapply list_elem_of_lookup_2. }
           apply (Hfresh x u Hxp Hxo). rewrite <- Heq.
           apply list_elem_of_fmap. exists r. split; [done|]. by eapply list_elem_of_lookup_2.
        -- apply Hne. eapply (NoDup_lookup (ids local) i j (prop r "id")); [done|..];
             unfold ids; rewrite list_lookup_fmap; [by rewrite Hi|by rewrite Hj, Heq].
        -- apply Hne. eapply (NoDup_lookup (ids local) i j (prop r "id")); [done|..];
             unfold ids; rewrite list_lookup_fmap; [by rewrite Hi|by rewrite Hj, Heq].
      * by apply (ids_stay_apart net local Hnd Hfresh j i x r Hj Hi Hlt).
  - apply list_elem_of_fmap. exists (StorageManager.mark_synced uploaded).
    split; [by rewrite mark_synced_id|]. by eapply list_elem_of_lookup_2.
  - apply list_elem_of_fmap. exists uploaded. by split.
  - rewrite Hsynced.
    destruct (omap (sync_outcome net) pending) as [|u l] eqn:Hl using rev_ind.
    + by apply elem_of_nil in Huploaded.
    + rewrite foldl_app, last_snoc. by simpl.
Qed.


(** C4, amended. The synced and the local collection are not disjoint by
    id after a reconciliation of [services/storage-manager.js]. Over a
    local collection of at most 50 records whose ids are pairwise
    distinct, and with a server that never hands out the id of a local
    record: for every record whose upload succeeds, the record sent back
    by the server, with [needsSync: false], [isLocal: false] and no
    [blob], takes its slot in the local collection, so that the id it had
    is no longer in the local collection, and the record sent back by the
    server is inserted in the synced collection as well; the id assigned
    by the server is then in both collections, and the last record
    uploaded is at the head of the synced collection. [background.js]
    marks the record in its slot instead ([needsSync: false],
    [isLocal: false], [data: null], then the members of the answer of the
    server, which win), so the record keeps its id unless the answer
    carries one, and nothing is inserted in the synced collection. *)
Theorem synced_record_replaces_local_slot (net : Network) (w : World) :
  let local := local_collection w in
  let pending := List.filter needsSync local in
  NoDup (ids local) ->
  (forall r uploaded, r ∈ pending -> sync_outcome net r = Some uploaded ->
                      prop uploaded "id" ∉ ids local) ->
  (length local <= 50)%nat ->
  let w' := (StorageManager.syncPendingRecordings net w).1 in
  let bw' := (BackgroundJs.syncPendingRecordings net w).1 in
  (forall i r uploaded,
      local !! i = Some r -> needsSync r = true -> sync_outcome net r = Some uploaded ->
      exists marked,
        local_collection w' !! i = Some marked /\
        marked !! "needsSync" = Some (JBool false) /\
        marked !! "isLocal" = Some (JBool false) /\
        marked !! "blob" = None /\
        (forall key, key ≠ "needsSync" -> key ≠ "isLocal" -> key ≠ "blob" ->
                     marked !! key = uploaded !! key) /\
        (prop r "id" ∉ ids (local_collection w')) /\
        (uploaded ∈ synced_collection w') /\
        (prop uploaded "id" ∈ ids (local_collection w')) /\
        (prop uploaded "id" ∈ ids (synced_collection w')) /\
        synced_collection w' !! 0%nat = last (omap (sync_outcome net) pending)) /\
  (forall i r data,
      local !! i = Some r -> needsSync r = true -> bg_sync_outcome net r = Some data ->
      exists marked,
        local_collection bw' !! i = Some marked /\
        (forall key v, data !! key = Some v -> marked !! key = Some v) /\
        (data !! "needsSync" = None -> marked !! "needsSync" = Some (JBool false)) /\
        (data !! "isLocal" = None -> marked !! "isLocal" = Some (JBool false)) /\
        (data !! "data" = None -> marked !! "data" = Some JNull) /\
        (forall key, data !! key = None ->
                     key ≠ "needsSync" -> key ≠ "isLocal" -> key ≠ "data" ->
                     marked !! key = r !! key) /\
        (data !! "id" = None -> prop r "id" ∈ ids (local_collection bw'))) /\
  recordings (storage bw') = recordings (storage w).
Proof.
  intros local pending Hnd Hfresh Hcap w' bw'.
  destruct (bg_sync_spec net w) as (_ & Hblocal & Hbsynced).
  fold local in Hblocal. fold bw' in Hblocal, Hbsynced.
  split; [|split; [|exact Hbsynced]].
  - intros i r uploaded Hi Hr Hout.
    destruct (services_synced_slot net w Hnd Hfresh Hcap i r uploaded Hi Hr Hout)
      as (Hslot & Hgone & Hin & Hl & Hs & Hhead).
    exists (StorageManager.mark_synced uploaded).
    split; [exact Hslot|].
    destruct (mark_synced_flags uploaded) as (Hf1 & Hf2 & Hf3).
    split; [exact Hf1|]. split; [exact Hf2|]. split; [exact Hf3|].
    split.
    { intros key H1 H2 H3. unfold StorageManager.mark_synced.
      by rewrite lookup_delete_ne, !lookup_insert_ne. }
    done.
  - intros i r data Hi Hr Hout.
    assert (Hslot : local_collection bw' !! i = Some (BackgroundJs.mark_synced r data)).
    { rewrite Hblocal, list_lookup_fmap, Hi. simpl.
      unfold bg_reconciled. by rewrite Hr, Hout. }
    exists (BackgroundJs.mark_synced r data).
    split; [exact Hslot|].
    unfold BackgroundJs.mark_synced, assign.
    split.
    { intros key v Hkey. rewrite lookup_union, Hkey.
      match goal with |- Some _ ∪ ?o = _ => by destruct o end. }
    split.
    { intros Hkey. rewrite lookup_union, Hkey, (left_id_L None _).
      by rewrite lookup_insert_ne, lookup_insert_ne, lookup_insert_eq. }
    split.
    { intros Hkey. rewrite lookup_union, Hkey, (left_id_L None _).
      by rewrite lookup_insert_ne, lookup_insert_eq. }
    split.
    { intros Hkey. rewrite lookup_union, Hkey, (left_id_L None _).
      by rewrite lookup_insert_eq. }
    split.
    { intros key Hkey H1 H2 H3. rewrite lookup_union, Hkey, (left_id_L None _).
      by rewrite !lookup_insert_ne. }
    intros Hkey. apply list_elem_of_fmap. exists (BackgroundJs.mark_synced r data).
    split; [|by eapply list_elem_of_lookup_2].
    unfold prop, BackgroundJs.mark_synced, assign.
    rewrite lookup_union, Hkey, (left_id_L None _). by rewrite !lookup_insert_ne.
Qed.

Lemma synced_record_replaces_local_slot_witness :
  NoDup (ids (local_collection two_pending)) /\
  (length (local_collection two_pending) <= 50)%nat /\
  local_collection two_pending !! 0%nat = Some (pending_record "local-1" "AAA") /\
  sync_outcome flaky (pending_record "local-1" "AAA") = Some server_record /\
  exists marked,
    local_collection (StorageManager.syncPendingRecordings flaky two_pending).1 !! 0%nat
      = Some marked /\
    marked !! "needsSync" = Some (JBool false) /\
    (prop server_record "id"
       ∈ ids (synced_collection (StorageManager.syncPendingRecordings flaky two_pending).1)).
Proof.
  assert (H1 : NoDup (ids (local_collection two_pending))).
  { apply (bool_decide_unpack _). vm_compute. exact I. }
  assert (H2 : forall r uploaded,
             r ∈ List.filter needsSync (local_collection two_pending) ->
             sync_outcome flaky r = Some uploaded ->
             prop uploaded "id" ∉ ids (local_collection two_pending)).
  { intros r uploaded _ Hout. rewrite (flaky_uploads r uploaded Hout).
    apply (bool_decide_unpack _). vm_compute. exact I. }
  assert (H3 : (length (local_collection two_pending) <= 50)%nat) by (simpl; lia).
  assert (H4 : local_collection two_pending !! 0%nat = Some (pending_record "local-1" "AAA"))
    by reflexivity.
  assert (H5 : needsSync (pending_record "local-1" "AAA") = true) by reflexivity.
  assert (H6 : sync_outcome flaky (pending_record "local-1" "AAA") = Some server_record)
    by reflexivity.
  split; [exact H1|]. split; [exact H3|]. split; [exact H4|]. split; [exact H6|].
  destruct (proj1 (synced_record_replaces_local_slot flaky two_pending H1 H2 H3) 0%nat
              (pending_record "local-1" "AAA") server_record H4 H5 H6)
    as (marked & Hslot & Hflag & _ & _ & _ & _ & _ & _ & Hs & _).
  exists marked. by repeat split.
Defined.

(** ** Payloads *)

Lemma mark_synced_payload_dropped (uploaded : Obj) :
  payload_dropped "blob" (StorageManager.mark_synced uploaded).
Proof.
  intros _. unfold prop. by rewrite (proj2 (proj2 (mark_synced_flags uploaded))).
Qed.

Lemma bg_mark_synced_payload (r answer : Obj) :
  truthy (prop answer "data") = false ->
  truthy (prop (BackgroundJs.mark_synced r answer) "data") = false.
Proof.
  unfold BackgroundJs.mark_synced, assign, prop. intros Hanswer.
  rewrite lookup_union. destruct (answer !! "data") as [v|] eqn:Hv; simpl in *.
  - by rewrite lookup_insert_eq.
  - by rewrite lookup_insert_eq.
Qed.

Lemma services_loop_payloads net (l : list Obj) : forall st,
  (forall blob metadata answer, upload net blob metadata = Some answer ->
                                payload_dropped "blob" answer) ->
  Forall (payload_dropped "blob") (StorageManager.updatedLocalRecordings st) ->
  Forall (payload_dropped "blob") (synced_collection (StorageManager.world st)) ->
  let st' := foldl (StorageManager.sync_recording net) st l in
  Forall (payload_dropped "blob") (StorageManager.updatedLocalRecordings st') /\
  Forall (payload_dropped "blob") (synced_collection (StorageManager.world st')).
Proof.
  induction l as [|r l IH]; intros st Hserver Hlocal Hsynced; simpl; [done|].
  apply IH; [done|..]; destruct (sync_outcome net r) as [u|] eqn:Hout.
  - destruct (sync_recording_uploaded net st r u Hout) as (-> & _).
    destruct (StorageManager.findIndex _ _); [|done].
    apply Forall_insert; [done|]. apply mark_synced_payload_dropped.
  - by destruct (sync_recording_failed net st r Hout) as (-> & _).
  - destruct (sync_recording_uploaded net st r u Hout) as (_ & _ & -> & _).
    unfold push_synced. apply Forall_take, Forall_cons. split; [|done].
    unfold sync_outcome in Hout.
    destruct (fetch_blob net (prop r "blob")); [|done]. by eapply Hserver.
  - destruct (sync_recording_failed net st r Hout) as (_ & _ & Hw).
    unfold synced_collection. by rewrite Hw.
Qed.

Lemma record_io_collections e w :
  local_collection (record_io e w) = local_collection w /\
  synced_collection (record_io e w) = synced_collection w.
Proof. done. Qed.

Lemma addRecording_collections r w :
  local_collection (StorageManager.addRecording r w) = local_collection w /\
  synced_collection (StorageManager.addRecording r w) = push_synced (synced_collection w) r.
Proof. done. Qed.

Lemma addLocalRecording_collections r w :
  local_collection (StorageManager.addLocalRecording r w) = take 50 (r :: local_collection w) /\
  synced_collection (StorageManager.addLocalRecording r w) = synced_collection w.
Proof. done. Qed.

Lemma storeRecordingMetadata_collections r w :
  local_collection (BackgroundJs.storeRecordingMetadata r w) = local_collection w /\
  synced_collection (BackgroundJs.storeRecordingMetadata r w) = push_synced (synced_collection w) r.
Proof. done. Qed.

Lemma storeRecordingLocally_collections saved_at blob metadata w :
  exists localRecording,
    localRecording !! "needsSync" = Some (JBool true) /\
    local_collection (BackgroundJs.storeRecordingLocally saved_at blob metadata w) =
      take 10 (localRecording :: local_collection w) /\
    synced_collection (BackgroundJs.storeRecordingLocally saved_at blob metadata w) =
      synced_collection w.
Proof. eexists. split; [|split; reflexivity]. by rewrite lookup_insert_eq. Qed.

Lemma push_synced_payloads key acc r :
  payload_dropped key r -> Forall (payload_dropped key) acc ->
  Forall (payload_dropped key) (push_synced acc r).
Proof. intros Hr Hacc. apply Forall_take, Forall_cons. by split. Qed.

(** C5, as stated, fails: [background.js] clears [data] before it merges
    the answer of the server into the record, so a [data] member of the
    answer stays. Starting from a store that satisfies the invariant,
    with a server whose answers carry one, the records end with
    [needsSync: false] and a payload. *)
Lemma synced_record_keeps_a_payload :
  let bw := (BackgroundJs.syncPendingRecordings keeping_data two_pending).1 in
  Forall (payload_dropped "data")
         (local_collection two_pending ++ synced_collection two_pending) /\
  (fun r : Obj => (r !! "needsSync", r !! "data")) <$> local_collection bw =
    [(Some (JBool false), Some (JStr "kept")); (Some (JBool false), Some (JStr "kept"))] /\
  ~ Forall (payload_dropped "data") (local_collection bw ++ synced_collection bw).
Proof.
  assert (H : (fun r : Obj => (r !! "needsSync", r !! "data")) <$>
                local_collection (BackgroundJs.syncPendingRecordings keeping_data two_pending).1 =
              [(Some (JBool false), Some (JStr "kept"));
               (Some (JBool false), Some (JStr "kept"))]) by (vm_compute; reflexivity).
  cbv zeta. split; [|split; [exact H|]].
  - repeat constructor; intros Hflag; vm_compute in Hflag; discriminate.
  - intros Hall. apply Forall_app in Hall as [Hall _].
    destruct (local_collection (BackgroundJs.syncPendingRecordings keeping_data two_pending).1)
      as [|r l]; [discriminate H|].
    apply Forall_cons in Hall as [Hr _]. csimpl in H. injection H as Hflag Hdata _.
    specialize (Hr Hflag).
    unfold prop in Hr. rewrite Hdata in Hr. discriminate Hr.
Qed.

(** C5, amended. On a store in which no record both says
    [needsSync: false] and carries a payload, and with a server whose
    answers carry no payload, neither reconciliation nor completion
    handling produces such a record, in either collection and for either
    controller (the payload is kept under [blob] by
    [services/storage-manager.js] and under [data] by [background.js]).
    When the upload of a pending record succeeds during a
    reconciliation, the slot of the record holds, in the store the
    reconciliation leaves, a record without payload: for
    [services/storage-manager.js], over ids that are pairwise distinct
    and not handed out by the server, the record of the server with
    [needsSync: false] and no [blob]; for [background.js] the record
    itself with its [data] cleared, and with [needsSync: false] unless
    the answer carries that member. *)
Theorem payload_dropped_once_synced (trim : string -> string) (net : Network)
    now saved_at (tabs : Settled (list Tab))
    (data : RecordingManager.Artifact) (s : RecordingManager.Manager)
    (bdata : BackgroundJs.Artifact) (b : BackgroundJs.Manager) (w bw : World) :
  (forall blob metadata answer, upload net blob metadata = Some answer ->
     truthy (prop answer "blob") = false /\ truthy (prop answer "data") = false) ->
  Forall (payload_dropped "blob") (local_collection w ++ synced_collection w) ->
  Forall (payload_dropped "data") (local_collection bw ++ synced_collection bw) ->
  let after_sync := (StorageManager.syncPendingRecordings net w).1 in
  let after_completion :=
    (RecordingManager.handleRecordingData trim net now saved_at tabs data s w).2 in
  let bg_after_sync := (BackgroundJs.syncPendingRecordings net bw).1 in
  let bg_after_completion :=
    BackgroundJs.handleRecordingComplete net now saved_at tabs bdata b bw in
  Forall (payload_dropped "blob")
         (local_collection after_sync ++ synced_collection after_sync) /\
  Forall (payload_dropped "blob")
         (local_collection after_completion ++ synced_collection after_completion) /\
  Forall (payload_dropped "data")
         (local_collection bg_after_sync ++ synced_collection bg_after_sync) /\
  Forall (payload_dropped "data")
         (local_collection bg_after_completion ++ synced_collection bg_after_completion) /\
  (NoDup (ids (local_collection w)) ->
   (forall r uploaded, r ∈ List.filter needsSync (local_collection w) ->
                       sync_outcome net r = Some uploaded ->
                       prop uploaded "id" ∉ ids (local_collection w)) ->
   forall i r uploaded,
     local_collection w !! i = Some r -> needsSync r = true ->
     sync_outcome net r = Some uploaded ->
     exists marked,
       local_collection after_sync !! i = Some marked /\
       marked !! "needsSync" = Some (JBool false) /\
       marked !! "blob" = None) /\
  (forall i r answer,
     local_collection bw !! i = Some r -> needsSync r = true ->
     bg_sync_outcome net r = Some answer ->
     exists marked,
       local_collection bg_after_sync !! i = Some marked /\
       truthy (prop marked "data") = false /\
       (answer !! "data" = None -> marked !! "data" = Some JNull) /\
       (answer !! "needsSync" = None -> marked !! "needsSync" = Some (JBool false))).
Proof.
  intros Hserver Hw Hbw after_sync after_completion bg_after_sync bg_after_completion.
  apply Forall_app in Hw as [Hlocal Hsynced].
  apply Forall_app in Hbw as [Hblocal Hbsynced].
  assert (Hblob : forall blob metadata answer, upload net blob metadata = Some answer ->
                                               payload_dropped "blob" answer).
  { intros blob metadata answer Hup _. by apply (Hserver blob metadata answer). }
  assert (Hdata : forall blob metadata answer, upload net blob metadata = Some answer ->
                                               payload_dropped "data" answer).
  { intros blob metadata answer Hup _. by apply (Hserver blob metadata answer). }
  split; [|split; [|split; [|split; [|split]]]].
  - (* reconciliation, services *)
    subst after_sync. unfold StorageManager.syncPendingRecordings.
    set (w1 := record_io (StorageGet "localRecordings") w).
    destruct (length _ =? 0)%nat; simpl; [by apply Forall_app|].
    destruct (services_loop_payloads net
                (List.filter needsSync (default [] (localRecordings (storage w1))))
                (StorageManager.mkSyncLoop (default [] (localRecordings (storage w1))) 0 w1)
                Hblob Hlocal Hsynced) as [Hl Hs].
    apply Forall_app. by split.
  - (* completion, services *)
    subst after_completion. unfold RecordingManager.handleRecordingData.
    destruct tabs as [found|e]; cbn [snd]; [|by apply Forall_app].
    destruct (RecordingManager.extractMeetingTitle trim (head found)) as [title|];
      cbn [snd]; [|by apply Forall_app].
    destruct (RecordingManager.startTime s) as [started|]; cbn [snd];
      [|by apply Forall_app].
    match goal with |- context [upload net ?blob ?m] =>
      destruct (upload net blob m) as [answer|] eqn:Hup end.
    + rewrite (proj1 (record_io_collections _ _)), (proj2 (record_io_collections _ _)).
      rewrite (proj1 (addRecording_collections _ _)), (proj2 (addRecording_collections _ _)).
      apply Forall_app. split; [done|].
      apply push_synced_payloads; [by eapply Hblob|done].
    + rewrite (proj1 (record_io_collections _ _)), (proj2 (record_io_collections _ _)).
      rewrite (proj1 (addLocalRecording_collections _ _)),
              (proj2 (addLocalRecording_collections _ _)).
      apply Forall_app. split; [|done].
      apply Forall_take, Forall_cons. split; [|done].
      intros Hflag. by rewrite lookup_insert_ne, lookup_insert_eq in Hflag.
  - (* reconciliation, background.js *)
    subst bg_after_sync.
    destruct (bg_sync_spec net bw) as (_ & Hl & Hs).
    apply Forall_app. split.
    + rewrite Hl. apply Forall_fmap. eapply Forall_impl; [exact Hblocal|].
      intros r Hr. simpl. unfold bg_reconciled.
      destruct (needsSync r); [|done].
      unfold bg_sync_outcome.
      destruct (fetch_blob net (prop r "data")) as [blob|]; [|done].
      destruct (upload net blob (BackgroundJs.sync_metadata r)) as [answer|] eqn:Hup; [|done].
      intros _. apply bg_mark_synced_payload. by apply (Hserver _ _ _ Hup).
    + unfold synced_collection. by rewrite Hs.
  - (* completion, background.js *)
    subst bg_after_completion. unfold BackgroundJs.handleRecordingComplete.
    destruct (fetch_blob net (BackgroundJs.art_blob bdata)) as [blob|];
      [|by apply Forall_app].
    destruct tabs as [found|e]; [|by apply Forall_app].
    destruct (BackgroundJs.startTime b) as [started|]; [|by apply Forall_app].
    match goal with |- context [upload net ?blob ?m] =>
      destruct (upload net blob m) as [answer|] eqn:Hup end.
    + rewrite (proj1 (record_io_collections _ _)), (proj2 (record_io_collections _ _)).
      rewrite (proj1 (storeRecordingMetadata_collections _ _)),
              (proj2 (storeRecordingMetadata_collections _ _)).
      apply Forall_app. split; [done|].
      apply push_synced_payloads; [by eapply Hdata|done].
    + rewrite (proj1 (record_io_collections _ _)), (proj2 (record_io_collections _ _)).
      match goal with |- context [BackgroundJs.storeRecordingLocally ?t ?bl ?m ?w0] =>
        destruct (storeRecordingLocally_collections t bl m w0) as (lr & Hflag & -> & ->) end.
      apply Forall_app. split; [|done].
      apply Forall_take, Forall_cons. split; [|done].
      intros Hfalse. by rewrite Hflag in Hfalse.
  - (* the slot of an uploaded record, services *)
    intros Hnd Hfresh i r uploaded Hi Hr Hout.
    destruct (services_sync_spec net w (ids_stay_apart net _ Hnd Hfresh)) as (_ & Hl & _).
    fold after_sync in Hl.
    exists (StorageManager.mark_synced uploaded).
    split.
    + rewrite Hl, list_lookup_fmap, Hi. simpl.
      by rewrite (reconciled_uploaded net r uploaded Hr Hout).
    + destruct (mark_synced_flags uploaded) as (H1 & _ & H3). by split.
  - (* the slot of an uploaded record, background.js *)
    intros i r answer Hi Hr Hout.
    destruct (bg_sync_spec net bw) as (_ & Hl & _). fold bg_after_sync in Hl.
    exists (BackgroundJs.mark_synced r answer).
    split.
    { rewrite Hl, list_lookup_fmap, Hi. simpl. unfold bg_reconciled. by rewrite Hr, Hout. }
    split.
    { apply bg_mark_synced_payload. unfold bg_sync_outcome in Hout.
      destruct (fetch_blob net (prop r "data")) as [blob|]; [|done].
      by apply (Hserver _ _ _ Hout). }
    unfold BackgroundJs.mark_synced, assign.
    split; intros Hkey; rewrite lookup_union, Hkey, (left_id_L None _).
    + by rewrite lookup_insert_eq.
    + by rewrite lookup_insert_ne, lookup_insert_ne, lookup_insert_eq.
Qed.

Lemma payload_dropped_once_synced_witness :
  (forall blob metadata answer, upload flaky blob metadata = Some answer ->
     truthy (prop answer "blob") = false /\ truthy (prop answer "data") = false) /\
  Forall (payload_dropped "blob")
         (local_collection two_pending ++ synced_collection two_pending) /\
  Forall (payload_dropped "data")
         (local_collection two_pending ++ synced_collection two_pending) /\
  Forall (payload_dropped "blob")
         (local_collection (StorageManager.syncPendingRecordings flaky two_pending).1 ++
          synced_collection (StorageManager.syncPendingRecordings flaky two_pending).1) /\
  Forall (payload_dropped "data")
         (local_collection (BackgroundJs.syncPendingRecordings flaky two_pending).1 ++
          synced_collection (BackgroundJs.syncPendingRecordings flaky two_pending).1) /\
  exists marked,
    local_collection (BackgroundJs.syncPendingRecordings flaky two_pending).1 !! 0%nat
      = Some marked /\
    truthy (prop marked "data") = false.
Proof.
  assert (H1 : forall blob metadata answer, upload flaky blob metadata = Some answer ->
             truthy (prop answer "blob") = false /\ truthy (prop answer "data") = false).
  { intros blob metadata answer. simpl.
    destruct (String.eqb blob "AAA"); [|done]. intros [= <-]. by split. }
  assert (H2 : Forall (payload_dropped "blob")
                 (local_collection two_pending ++ synced_collection two_pending)).
  { repeat constructor; intros Hflag; vm_compute in Hflag; discriminate. }
  assert (H3 : Forall (payload_dropped "data")
                 (local_collection two_pending ++ synced_collection two_pending)).
  { repeat constructor; intros Hflag; vm_compute in Hflag; discriminate. }
  split; [exact H1|]. split; [exact H2|]. split; [exact H3|].
  destruct (payload_dropped_once_synced no_trim flaky 30000 30001 standup
              artifact stopped bg_artifact bg_stopped two_pending two_pending H1 H2 H3)
    as (Hsync & _ & Hbsync & _ & _ & Hslot).
  split; [exact Hsync|]. split; [exact Hbsync|].
  destruct (Hslot 0%nat (pending_record "local-1" "AAA") server_record
              eq_refl eq_refl eq_refl) as (marked & Hm & Hpayload & _).
  exists marked. by split.
Defined.

(* ===================================================================== *)
(** * Further properties of the sources *)
(* ===================================================================== *)

#[local] Transparent RecordingManager.ensureOffscreenDocument
  BackgroundJs.ensureOffscreenDocument
  BackgroundJs.notifyTabsRecordingStatus
  BackgroundService.notifyAllTabs.

(** ** Broadcasts *)

Lemma services_notify_tabs_log now env tabs m (s : RecordingManager.Manager) log :
  run now env (BackgroundService.notify_tabs tabs m) s log =
    (s, log ++ deliveries tabs m, Fulfilled tt).
Proof.
  revert log; induction tabs as [|tab tabs IH]; intros log; simpl.
  - by rewrite app_nil_r.
  - destruct (env unit (TabsSendMessage tab m)) as [[]|e]; simpl;
      rewrite IH; by rewrite <- app_assoc.
Qed.

Lemma bg_notify_tabs_log now env tabs m (s : BackgroundJs.Manager) log :
  run now env (BackgroundJs.notify_tabs tabs m) s log =
    (s, log ++ deliveries tabs m, Fulfilled tt).
Proof.
  revert log; induction tabs as [|tab tabs IH]; intros log; simpl.
  - by rewrite app_nil_r.
  - destruct (env unit (TabsSendMessage tab m)) as [[]|e]; simpl;
      rewrite IH; by rewrite <- app_assoc.
Qed.

Lemma notifyAllTabs_log now env action startTime (s : RecordingManager.Manager) log :
  run now env (BackgroundService.notifyAllTabs action startTime) s log =
    (s, log ++ broadcast env (BackgroundService.tab_message action startTime), Fulfilled tt).
Proof.
  unfold BackgroundService.notifyAllTabs, broadcast.
  unfold mbind, Async_bind. simpl.
  destruct (env (list Z) TabsQuery) as [tabs|e]; simpl; [|done].
  rewrite run_try_catch, services_notify_tabs_log. by rewrite <- !app_assoc.
Qed.

Lemma notifyTabsRecordingStatus_log now env isRecording (b : BackgroundJs.Manager) log :
  run now env (BackgroundJs.notifyTabsRecordingStatus isRecording) b log =
    (b, log ++ broadcast env (BackgroundJs.status_message isRecording), Fulfilled tt).
Proof.
  unfold BackgroundJs.notifyTabsRecordingStatus, broadcast.
  unfold mbind, Async_bind. simpl.
  destruct (env (list Z) TabsQuery) as [tabs|e]; simpl; [|done].
  rewrite run_try_catch, bg_notify_tabs_log. by rewrite <- !app_assoc.
Qed.

(** The same with a clock that moves; a broadcast does not read it. *)
Section ClockLemmas.

Context {St : Type}.
Variable ticks : nat -> Z.
Variable env : forall X, Req X -> Settled X.

Lemma run_clock_bind {A B} (a : Async St A) (f : A -> Async St B) n s log :
  run_clock ticks n env (bind a f) s log =
  match run_clock ticks n env a s log with
  | (s', log', Fulfilled x, n') => run_clock ticks n' env (f x) s' log'
  | (s', log', Rejected e, n') => (s', log', Rejected e, n')
  end.
Proof.
  revert n s log; induction a; intros; simpl; auto.
Qed.

Lemma run_clock_try_catch {A} (a : Async St A) (h : string -> Async St A) n s log :
  run_clock ticks n env (try_catch a h) s log =
  match run_clock ticks n env a s log with
  | (s', log', Fulfilled x, n') => (s', log', Fulfilled x, n')
  | (s', log', Rejected e, n') => run_clock ticks n' env (h e) s' log'
  end.
Proof.
  revert n s log; induction a; intros; simpl; auto.
Qed.

End ClockLemmas.

Lemma services_notify_tabs_clock ticks n env tabs m (s : RecordingManager.Manager) log :
  run_clock ticks n env (BackgroundService.notify_tabs tabs m) s log =
    (s, log ++ deliveries tabs m, Fulfilled tt, n).
Proof.
  revert log; induction tabs as [|tab tabs IH]; intros log; simpl.
  - by rewrite app_nil_r.
  - destruct (env unit (TabsSendMessage tab m)) as [[]|e]; simpl;
      rewrite IH; by rewrite <- app_assoc.
Qed.

Lemma bg_notify_tabs_clock ticks n env tabs m (s : BackgroundJs.Manager) log :
  run_clock ticks n env (BackgroundJs.notify_tabs tabs m) s log =
    (s, log ++ deliveries tabs m, Fulfilled tt, n).
Proof.
  revert log; induction tabs as [|tab tabs IH]; intros log; simpl.
  - by rewrite app_nil_r.
  - destruct (env unit (TabsSendMessage tab m)) as [[]|e]; simpl;
      rewrite IH; by rewrite <- app_assoc.
Qed.

Lemma notifyAllTabs_clock ticks n env action startTime (s : RecordingManager.Manager) log :
  run_clock ticks n env (BackgroundService.notifyAllTabs action startTime) s log =
    (s, log ++ broadcast env (BackgroundService.tab_message action startTime),
     Fulfilled tt, n).
Proof.
  unfold BackgroundService.notifyAllTabs, broadcast.
  unfold mbind, Async_bind. simpl.
  destruct (env (list Z) TabsQuery) as [tabs|e]; simpl; [|done].
  rewrite run_clock_try_catch, services_notify_tabs_clock. by rewrite <- !app_assoc.
Qed.

Lemma notifyTabsRecordingStatus_clock ticks n env isRecording (b : BackgroundJs.Manager) log :
  run_clock ticks n env (BackgroundJs.notifyTabsRecordingStatus isRecording) b log =
    (b, log ++ broadcast env (BackgroundJs.status_message isRecording), Fulfilled tt, n).
Proof.
  unfold BackgroundJs.notifyTabsRecordingStatus, broadcast.
  unfold mbind, Async_bind. simpl.
  destruct (env (list Z) TabsQuery) as [tabs|e]; simpl; [|done].
  rewrite run_clock_try_catch, bg_notify_tabs_clock. by rewrite <- !app_assoc.
Qed.

(** Ensuring an available offscreen document: the calls made. *)
Lemma services_ensure_calls now env (s : RecordingManager.Manager) log :
  offscreen_available env "ui/offscreen.html" 1000 ->
  run now env RecordingManager.ensureOffscreenDocument s log =
    (s, log ++ ensure_calls env "ui/offscreen.html" 1000, Fulfilled tt).
Proof.
  intros Havail.
  unfold RecordingManager.ensureOffscreenDocument, ensure_calls. unfold_bind. simpl.
  destruct Havail as [[n Hn]|(H0 & Hc & Ht)].
  - by rewrite Hn.
  - rewrite H0. simpl. rewrite Hc. simpl. rewrite Ht. simpl. by rewrite <- !app_assoc.
Qed.

Lemma services_ensure_clock ticks n env (s : RecordingManager.Manager) log :
  offscreen_available env "ui/offscreen.html" 1000 ->
  run_clock ticks n env RecordingManager.ensureOffscreenDocument s log =
    (s, log ++ ensure_calls env "ui/offscreen.html" 1000, Fulfilled tt, n).
Proof.
  intros Havail.
  unfold RecordingManager.ensureOffscreenDocument, ensure_calls. unfold_bind. simpl.
  destruct Havail as [[k Hk]|(H0 & Hc & Ht)].
  - by rewrite Hk.
  - rewrite H0. simpl. rewrite Hc. simpl. rewrite Ht. simpl. by rewrite <- !app_assoc.
Qed.

Lemma bg_ensure_clock ticks n env (s : BackgroundJs.Manager) log :
  offscreen_available env "offscreen.html" 2000 ->
  run_clock ticks n env BackgroundJs.ensureOffscreenDocument s log =
    (BackgroundJs.mkManager (BackgroundJs.isRecording s) (BackgroundJs.startTime s) true,
     log ++ ensure_calls env "offscreen.html" 2000, Fulfilled tt, n).
Proof.
  intros Havail.
  unfold BackgroundJs.ensureOffscreenDocument, ensure_calls. unfold_bind. simpl.
  destruct Havail as [[k Hk]|(H0 & Hc & Ht)].
  - by rewrite Hk.
  - rewrite H0. simpl. rewrite Hc. simpl. rewrite Ht. simpl. by rewrite <- !app_assoc.
Qed.

#[local] Opaque BackgroundJs.notifyTabsRecordingStatus BackgroundService.notifyAllTabs.

(** X1. A broadcast ([notifyAllTabs] of the service worker,
    [notifyTabsRecordingStatus] of [background.js]) queries the tabs once
    and then attempts one delivery per tab, in the order of the tabs,
    whether the earlier deliveries succeeded or not; it never fails and
    never touches the coordinator. When the query itself fails, nothing
    is delivered. *)
Theorem broadcast_reaches_every_tab now env action startTime isRecording
    (s : RecordingManager.Manager) (b : BackgroundJs.Manager) log :
  run now env (BackgroundService.notifyAllTabs action startTime) s log =
    (s, log ++ broadcast env (BackgroundService.tab_message action startTime), Fulfilled tt)
  /\ run now env (BackgroundJs.notifyTabsRecordingStatus isRecording) b log =
    (b, log ++ broadcast env (BackgroundJs.status_message isRecording), Fulfilled tt).
Proof.
  split; [apply notifyAllTabs_log|apply notifyTabsRecordingStatus_log].
Qed.

(** ** Guards and failures of the coordinator *)

(** X2. A pause requested while Idle or already Paused, and a resume
    requested while Idle or not Paused, are refused with their own error
    message; the coordinator is unchanged, nothing is sent to the Capture
    Surface, and the service worker touches neither the badge nor the
    tabs. *)
Theorem pause_resume_refused_outside_their_state now env
    (s1 s2 : RecordingManager.Manager) log :
  RecordingManager.isRecording s1 = false \/ RecordingManager.isPaused s1 = true ->
  RecordingManager.isRecording s2 = false \/ RecordingManager.isPaused s2 = false ->
  run now env RecordingManager.pauseRecording s1 log =
    (s1, log, Fulfilled (failed "No active recording to pause")) /\
  run now env BackgroundService.pauseRecording s1 log =
    (s1, log, Fulfilled (failed "No active recording to pause")) /\
  run now env RecordingManager.resumeRecording s2 log =
    (s2, log, Fulfilled (failed "No paused recording to resume")) /\
  run now env BackgroundService.resumeRecording s2 log =
    (s2, log, Fulfilled (failed "No paused recording to resume")).
Proof.
  intros H1 H2.
  assert (G1 : negb (RecordingManager.isRecording s1) || RecordingManager.isPaused s1 = true).
  { destruct H1 as [-> | ->]; [done|]. apply orb_true_r. }
  assert (G2 : negb (RecordingManager.isRecording s2) || negb (RecordingManager.isPaused s2) = true).
  { destruct H2 as [-> | ->]; [done|]. apply orb_true_r. }
  unfold BackgroundService.pauseRecording, BackgroundService.resumeRecording,
    RecordingManager.pauseRecording, RecordingManager.resumeRecording.
  unfold_bind. simpl. rewrite G1, G2. by simpl.
Qed.

Lemma pause_resume_refused_outside_their_state_witness :
  (RecordingManager.isRecording RecordingManager.initial = false \/
   RecordingManager.isPaused RecordingManager.initial = true) /\
  (RecordingManager.isRecording (RecordingManager.mkManager true false (Some 0) 0) = false \/
   RecordingManager.isPaused (RecordingManager.mkManager true false (Some 0) 0) = false) /\
  run 1000 reliable RecordingManager.pauseRecording RecordingManager.initial [] =
    (RecordingManager.initial, [], Fulfilled (failed "No active recording to pause")) /\
  run 1000 reliable RecordingManager.resumeRecording
      (RecordingManager.mkManager true false (Some 0) 0) [] =
    (RecordingManager.mkManager true false (Some 0) 0, [],
     Fulfilled (failed "No paused recording to resume")).
Proof.
  assert (H1 : RecordingManager.isRecording RecordingManager.initial = false \/
               RecordingManager.isPaused RecordingManager.initial = true)
    by (left; reflexivity).
  assert (H2 : RecordingManager.isRecording (RecordingManager.mkManager true false (Some 0) 0)
               = false \/
               RecordingManager.isPaused (RecordingManager.mkManager true false (Some 0) 0)
               = false)
    by (right; reflexivity).
  split; [exact H1|]. split; [exact H2|].
  destruct (pause_resume_refused_outside_their_state 1000 reliable
              RecordingManager.initial (RecordingManager.mkManager true false (Some 0) 0)
              [] H1 H2) as (Hp & _ & Hr & _).
  by split.
Defined.

(** X3. When the offscreen document can be neither found nor created, a
    start request from Idle is rolled back: [services/recording-manager.js]
    answers 'Failed to initialize recording system' whatever the platform
    reported and ends in the state of [cleanup()]; [background.js] hands
    on the error of the platform, leaves [isRecording] cleared, clears
    the badge and broadcasts that nothing is recorded. Neither sends a
    command to the Capture Surface. *)
Theorem start_rolled_back_without_offscreen_document (options : Obj) now env e
    (s : RecordingManager.Manager) (b : BackgroundJs.Manager) log :
  RecordingManager.isRecording s = false ->
  offscreen_unavailable env "ui/offscreen.html" e ->
  BackgroundJs.isRecording b = false ->
  offscreen_unavailable env "offscreen.html" e ->
  (exists asked,
      run now env (BackgroundService.startRecording options) s log =
        (RecordingManager.mkManager false false None 0, log ++ asked,
         Fulfilled (failed "Failed to initialize recording system")) /\
      capture_commands asked = [] /\
      Forall (fun ev => match ev with Fired _ => False | Called _ => True end) asked) /\
  (exists asked,
      run now env (BackgroundJs.startRecording options) b log =
        (b, log ++ asked ++ Fired (SetBadgeText "")
               :: broadcast env (BackgroundJs.status_message false),
         Fulfilled (failed e)) /\
      capture_commands asked = []).
Proof.
  intros Hs Hsvc Hb Hbg. split.
  - unfold BackgroundService.startRecording, RecordingManager.startRecording,
      RecordingManager.ensureOffscreenDocument.
    unfold_bind. simpl. rewrite Hs. simpl.
    destruct Hsvc as [Hq|[Hq Hc]]; rewrite Hq; simpl.
    + exists [Called GetContexts]. split; [done|]. split; [done|by repeat constructor].
    + rewrite Hc. simpl.
      exists [Called GetContexts; Called (CreateDocument "ui/offscreen.html")].
      split; [by rewrite <- app_assoc|]. split; [done|by repeat constructor].
  - pose proof (notifyTabsRecordingStatus_log now env false
                  (BackgroundJs.mkManager false (BackgroundJs.startTime b)
                     (BackgroundJs.offscreenReady b))) as Hcast.
    assert (Heta : BackgroundJs.mkManager false (BackgroundJs.startTime b)
                     (BackgroundJs.offscreenReady b) = b).
    { destruct b; simpl in *; by subst. }
    unfold BackgroundJs.startRecording, BackgroundJs.ensureOffscreenDocument.
    unfold_bind. simpl. rewrite Hb. simpl.
    destruct Hbg as [Hq|[Hq Hc]]; rewrite Hq; simpl.
    + rewrite run_bind, Hcast. simpl. rewrite Heta.
      exists [Called GetContexts]. split; [|done]. by rewrite <- !app_assoc.
    + rewrite Hc. simpl. rewrite run_bind, Hcast. simpl. rewrite Heta.
      exists [Called GetContexts; Called (CreateDocument "offscreen.html")].
      split; [|done]. by rewrite <- !app_assoc.
Qed.

Lemma services_ensure_quiet now env (s : RecordingManager.Manager) log :
  offscreen_available env "ui/offscreen.html" 1000 ->
  exists asked,
    run now env RecordingManager.ensureOffscreenDocument s log =
      (s, log ++ asked, Fulfilled tt) /\ capture_commands asked = [] /\
    List.filter (fun ev => match ev with Fired _ => true | Called _ => false end) asked = [].
Proof.
  intros Havail.
  unfold RecordingManager.ensureOffscreenDocument. unfold_bind. simpl.
  destruct Havail as [[n Hn]|(H0 & Hc & Ht)].
  - rewrite Hn. simpl. by exists [Called GetContexts].
  - rewrite H0. simpl. rewrite Hc. simpl. rewrite Ht. simpl.
    exists [Called GetContexts; Called (CreateDocument "ui/offscreen.html");
            Called (Timeout 1000)].
    split; [by rewrite <- !app_assoc|done].
Qed.

#[local] Opaque RecordingManager.ensureOffscreenDocument BackgroundJs.ensureOffscreenDocument.

Lemma start_rolled_back_without_offscreen_document_witness :
  RecordingManager.isRecording RecordingManager.initial = false /\
  offscreen_unavailable offscreen_denied "ui/offscreen.html"
    "Only a single offscreen document may be created." /\
  BackgroundJs.isRecording BackgroundJs.initial = false /\
  offscreen_unavailable offscreen_denied "offscreen.html"
    "Only a single offscreen document may be created." /\
  exists asked,
    run 1000 offscreen_denied (BackgroundService.startRecording ∅)
        RecordingManager.initial [] =
      (RecordingManager.mkManager false false None 0, [] ++ asked,
       Fulfilled (failed "Failed to initialize recording system")) /\
    capture_commands asked = [].
Proof.
  assert (H1 : RecordingManager.isRecording RecordingManager.initial = false) by reflexivity.
  assert (H2 : offscreen_unavailable offscreen_denied "ui/offscreen.html"
                 "Only a single offscreen document may be created.")
    by (right; split; reflexivity).
  assert (H3 : BackgroundJs.isRecording BackgroundJs.initial = false) by reflexivity.
  assert (H4 : offscreen_unavailable offscreen_denied "offscreen.html"
                 "Only a single offscreen document may be created.")
    by (right; split; reflexivity).
  repeat (split; [assumption|]).
  destruct (start_rolled_back_without_offscreen_document ∅ 1000 offscreen_denied _
              RecordingManager.initial BackgroundJs.initial [] H1 H2 H3 H4)
    as [(asked & Hrun & Hcmd & _) _].
  exists asked. by split.
Defined.

(** X4. When the offscreen document is available but the Capture Surface
    does not acknowledge the start command (it answers nothing, answers
    without success, or cannot be reached), the start request is rolled
    back by [cleanup()]: the coordinator is Idle with no [startTime], the
    response carries the error of the Capture Surface or, without one,
    'Failed to start recording'. The platform has seen the calls that
    ensure the offscreen document and the start command, once, and
    nothing else: no badge, no broadcast, no notification. *)
Theorem start_rolled_back_when_capture_refuses (options : Obj) now env
    (s : RecordingManager.Manager) log :
  RecordingManager.isRecording s = false ->
  offscreen_available env "ui/offscreen.html" 1000 ->
  let start := SendMessage (mkOffscreenMsg "START_CAPTURE" (Some (capture_options options))) in
  match env _ start with
  | Fulfilled (Some reply) => reply_success reply = false
  | _ => True
  end ->
  run now env (BackgroundService.startRecording options) s log =
    (RecordingManager.mkManager false false None 0,
     log ++ ensure_calls env "ui/offscreen.html" 1000 ++ [Called start],
     Fulfilled (failed match env _ start with
                       | Fulfilled reply =>
                           RecordingManager.error_or reply "Failed to start recording"
                       | Rejected e => e
                       end)).
Proof.
  intros Hs Havail start Hrefused.
  unfold BackgroundService.startRecording, RecordingManager.startRecording.
  unfold_bind. simpl. rewrite Hs.
  simpl. rewrite run_try_catch, run_bind, run_try_catch, run_bind,
    (services_ensure_calls now env s log Havail). simpl.
  fold start. destruct (env _ start) as [[reply|]|e]; simpl.
  - rewrite Hrefused. simpl. by rewrite <- !app_assoc.
  - by rewrite <- !app_assoc.
  - by rewrite <- !app_assoc.
Qed.

Lemma start_rolled_back_when_capture_refuses_witness :
  RecordingManager.isRecording RecordingManager.initial = false /\
  offscreen_available capture_refuses "ui/offscreen.html" 1000 /\
  run 1000 capture_refuses (BackgroundService.startRecording ∅)
      RecordingManager.initial [] =
    (RecordingManager.mkManager false false None 0,
     [Called GetContexts;
      Called (SendMessage (mkOffscreenMsg "START_CAPTURE" (Some (capture_options ∅))))],
     Fulfilled (failed "Permission denied")).
Proof.
  assert (H1 : RecordingManager.isRecording RecordingManager.initial = false) by reflexivity.
  assert (H2 : offscreen_available capture_refuses "ui/offscreen.html" 1000)
    by (left; exists 0%nat; reflexivity).
  split; [exact H1|]. split; [exact H2|].
  apply (start_rolled_back_when_capture_refuses ∅ 1000 capture_refuses
           RecordingManager.initial [] H1 H2). reflexivity.
Defined.

(** X5. When the command of an accepted pause or resume does not reach
    the Capture Surface, the request fails with the error of the
    platform and the coordinator keeps the state it had: still Recording
    after a failed pause, still Paused after a failed resume, with its
    [startTime]; the service worker leaves the badge and the tabs alone. *)
Theorem failed_pause_resume_keep_the_session now (env : forall X, Req X -> Settled X) e
    (recording paused : RecordingManager.Manager) log :
  RecordingManager.isRecording recording = true ->
  RecordingManager.isPaused recording = false ->
  RecordingManager.isRecording paused = true ->
  RecordingManager.isPaused paused = true ->
  env _ (SendMessage (RecordingManager.command "PAUSE_CAPTURE")) = Rejected e ->
  env _ (SendMessage (RecordingManager.command "RESUME_CAPTURE")) = Rejected e ->
  run now env BackgroundService.pauseRecording recording log =
    (recording, log ++ [Called (SendMessage (RecordingManager.command "PAUSE_CAPTURE"))],
     Fulfilled (failed e)) /\
  run now env BackgroundService.resumeRecording paused log =
    (paused, log ++ [Called (SendMessage (RecordingManager.command "RESUME_CAPTURE"))],
     Fulfilled (failed e)).
Proof.
  intros Hr Hnp Hp Hpp Hpause Hresume.
  unfold BackgroundService.pauseRecording, BackgroundService.resumeRecording,
    RecordingManager.pauseRecording, RecordingManager.resumeRecording.
  unfold_bind. simpl. rewrite Hr, Hnp, Hp, Hpp. simpl. by rewrite Hpause, Hresume.
Qed.

Lemma failed_pause_resume_keep_the_session_witness :
  RecordingManager.isRecording (recording_since 0) = true /\
  RecordingManager.isPaused (recording_since 0) = false /\
  RecordingManager.isRecording (paused_since 0) = true /\
  RecordingManager.isPaused (paused_since 0) = true /\
  run 5000 capture_unreachable BackgroundService.pauseRecording (recording_since 0) [] =
    (recording_since 0, [] ++ [Called (SendMessage (RecordingManager.command "PAUSE_CAPTURE"))],
     Fulfilled (failed "Receiving end does not exist.")).
Proof.
  repeat (split; [reflexivity|]).
  apply (failed_pause_resume_keep_the_session 5000 capture_unreachable
           "Receiving end does not exist." (recording_since 0) (paused_since 0) []);
    reflexivity.
Defined.

(** X6. A stop is refused while Idle, and fails when its command does
    not reach the Capture Surface; in both cases the [catch] block runs
    [cleanup()]: the coordinator ends Idle and its [startTime] is erased,
    also when a recording was still in progress or its artifact still
    awaited. The service worker leaves the badge and the tabs alone. *)
Theorem refused_or_failed_stop_resets_the_session now (env : forall X, Req X -> Settled X) e
    (idle recording : RecordingManager.Manager) log :
  RecordingManager.isRecording idle = false ->
  RecordingManager.isRecording recording = true ->
  env _ (SendMessage (RecordingManager.command "STOP_CAPTURE")) = Rejected e ->
  run now env BackgroundService.stopRecording idle log =
    (RecordingManager.mkManager false false None 0, log,
     Fulfilled (failed "No recording in progress")) /\
  run now env BackgroundService.stopRecording recording log =
    (RecordingManager.mkManager false false None 0,
     log ++ [Called (SendMessage (RecordingManager.command "STOP_CAPTURE"))],
     Fulfilled (failed e)).
Proof.
  intros Hi Hr Hstop.
  unfold BackgroundService.stopRecording, RecordingManager.stopRecording.
  unfold_bind. simpl. rewrite Hi, Hr. simpl. by rewrite Hstop.
Qed.

Lemma refused_or_failed_stop_resets_the_session_witness :
  RecordingManager.isRecording stopped = false /\
  RecordingManager.isRecording (recording_since 0) = true /\
  run 5000 capture_unreachable BackgroundService.stopRecording stopped [] =
    (RecordingManager.mkManager false false None 0, [],
     Fulfilled (failed "No recording in progress")).
Proof.
  repeat (split; [reflexivity|]).
  apply (refused_or_failed_stop_resets_the_session 5000 capture_unreachable
           "Receiving end does not exist." stopped (recording_since 0) []);
    reflexivity.
Defined.

(** ** Sessions *)

Lemma serve_keeps_flags_consistent s r :
  (RecordingManager.isPaused s = true -> RecordingManager.isRecording s = true) ->
  (RecordingManager.isRecording s = true -> is_Some (RecordingManager.startTime s)) ->
  (RecordingManager.isPaused (serve s r) = true ->
   RecordingManager.isRecording (serve s r) = true) /\
  (RecordingManager.isRecording (serve s r) = true ->
   is_Some (RecordingManager.startTime (serve s r))).
Proof.
  intros Hp Hr. destruct s as [rec pau started pt]. simpl in *.
  destruct r as [now env [options| | |]]; unfold serve; simpl.
  - unfold RecordingManager.startRecording. unfold_bind. simpl.
    destruct rec; simpl; [by split|].
    rewrite run_try_catch, run_bind.
    destruct (services_ensure_state now env
                (RecordingManager.mkManager false pau started pt) [])
      as (log' & r & Hrun).
    rewrite Hrun. destruct r as [[]|e]; simpl; [|by split].
    match goal with |- context [env _ ?q] => destruct (env _ q) as [[reply|]|e] end;
      simpl; try by split.
    destruct (reply_success reply); simpl; by split.
  - unfold RecordingManager.pauseRecording. unfold_bind.
    destruct rec, pau; simpl;
      try match goal with |- context [env _ ?q] => destruct (env _ q) as [reply|e] end;
      simpl; intuition congruence.
  - unfold RecordingManager.resumeRecording. unfold_bind.
    destruct rec, pau; simpl;
      try match goal with |- context [env _ ?q] => destruct (env _ q) as [reply|e] end;
      simpl; intuition congruence.
  - unfold RecordingManager.stopRecording. unfold_bind.
    destruct rec; simpl;
      try match goal with |- context [env _ ?q] => destruct (env _ q) as [reply|e] end;
      simpl; by split.
Qed.

(** X7. As long as the requests are served one at a time, each to its
    end, the flags of the coordinator of [services/recording-manager.js]
    are consistent after every request, whatever the platform answered:
    it is not Paused without Recording, and not Recording without a
    [startTime]. The guarantee ends where requests overlap: a pause that
    is suspended at its command while a stop is served resumes after the
    stop and leaves the coordinator Paused and not Recording, all three
    requests having been answered with success. *)
Theorem flags_are_consistent_between_requests :
  (forall trace : list Served,
      (RecordingManager.isPaused (session trace) = true ->
       RecordingManager.isRecording (session trace) = true) /\
      (RecordingManager.isRecording (session trace) = true ->
       is_Some (RecordingManager.startTime (session trace)))) /\
  (exists c,
      sched_steps (mkConfig RecordingManager.initial [] []) c /\
      cfg_tasks c = [Finished (Fulfilled (mkResponse true (Some 1001) None None));
                     Finished (Fulfilled succeeded);
                     Finished (Fulfilled succeeded)] /\
      om_action <$> capture_commands (cfg_log c) =
        ["START_CAPTURE"; "PAUSE_CAPTURE"; "STOP_CAPTURE"] /\
      RecordingManager.isPaused (cfg_state c) = true /\
      RecordingManager.isRecording (cfg_state c) = false).
Proof.
  split.
  - intros trace. unfold session.
    assert (H : (RecordingManager.isPaused RecordingManager.initial = true ->
                 RecordingManager.isRecording RecordingManager.initial = true) /\
                (RecordingManager.isRecording RecordingManager.initial = true ->
                 is_Some (RecordingManager.startTime RecordingManager.initial))) by done.
    revert H. generalize RecordingManager.initial.
    induction trace as [|r trace IH]; intros s Hs; simpl; [done|].
    apply IH. destruct Hs. by apply serve_keeps_flags_consistent.
  - eexists. split.
    + eapply sched_trans.
      { eapply (sched_call 1000 (RecordingManager.startRecording ∅)). reflexivity. }
      eapply sched_trans.
      { eapply (sched_settle 1001 0 _ _ (Fulfilled 1%nat)); reflexivity. }
      eapply sched_trans.
      { eapply (sched_settle 1002 0 _ _ (Fulfilled (Some (mkReply true None)))); reflexivity. }
      eapply sched_trans.
      { eapply (sched_call 5000 RecordingManager.pauseRecording). reflexivity. }
      eapply sched_trans.
      { eapply (sched_call 5001 RecordingManager.stopRecording). reflexivity. }
      eapply sched_trans.
      { eapply (sched_settle 5002 2 _ _ (Fulfilled None)); reflexivity. }
      eapply sched_trans.
      { eapply (sched_settle 5003 1 _ _ (Fulfilled None)); reflexivity. }
      apply sched_refl.
    + repeat split; reflexivity.
Qed.

(** ** Accepted transitions *)

(** X8. An accepted pause, resume or stop whose command is delivered
    sends exactly that one command to the Capture Surface and then, in
    this order, writes the flags of the coordinator, sets the badge ('||',
    'REC', none) and broadcasts the event to every tab; a stop also
    announces 'Recording Stopped' and keeps [startTime] for the handling
    of the artifact. What the Capture Surface answers to the command is
    not read: the transition is made whatever the answer. *)
Theorem accepted_transitions_update_indicators now (env : forall X, Req X -> Settled X)
    (recording paused : RecordingManager.Manager) reply log :
  RecordingManager.isRecording recording = true ->
  RecordingManager.isPaused recording = false ->
  RecordingManager.isRecording paused = true ->
  RecordingManager.isPaused paused = true ->
  (forall action, env _ (SendMessage (RecordingManager.command action)) = Fulfilled reply) ->
  run now env BackgroundService.pauseRecording recording log =
    (RecordingManager.mkManager true true (RecordingManager.startTime recording)
       (RecordingManager.pausedTime recording),
     log ++ [Called (SendMessage (RecordingManager.command "PAUSE_CAPTURE"));
             Fired (SetBadgeText "||")]
         ++ broadcast env (BackgroundService.tab_message "RECORDING_PAUSED" None),
     Fulfilled succeeded) /\
  run now env BackgroundService.resumeRecording paused log =
    (RecordingManager.mkManager true false (RecordingManager.startTime paused)
       (RecordingManager.pausedTime paused),
     log ++ [Called (SendMessage (RecordingManager.command "RESUME_CAPTURE"));
             Fired (SetBadgeText "REC")]
         ++ broadcast env (BackgroundService.tab_message "RECORDING_RESUMED" None),
     Fulfilled succeeded) /\
  (forall s, s = recording \/ s = paused ->
     run now env BackgroundService.stopRecording s log =
       (RecordingManager.mkManager false false (RecordingManager.startTime s)
          (RecordingManager.pausedTime s),
        log ++ [Called (SendMessage (RecordingManager.command "STOP_CAPTURE"));
                Fired (SetBadgeText "")]
            ++ broadcast env (BackgroundService.tab_message "RECORDING_STOPPED" None)
            ++ [Fired (Notification "Recording Stopped")],
        Fulfilled succeeded)).
Proof.
  intros Hr Hnp Hp Hpp Hsent.
  assert (Hstop : forall s, RecordingManager.isRecording s = true ->
     run now env BackgroundService.stopRecording s log =
       (RecordingManager.mkManager false false (RecordingManager.startTime s)
          (RecordingManager.pausedTime s),
        log ++ [Called (SendMessage (RecordingManager.command "STOP_CAPTURE"));
                Fired (SetBadgeText "")]
            ++ broadcast env (BackgroundService.tab_message "RECORDING_STOPPED" None)
            ++ [Fired (Notification "Recording Stopped")],
        Fulfilled succeeded)).
  { intros s Hs.
    unfold BackgroundService.stopRecording, RecordingManager.stopRecording.
    unfold_bind. simpl. rewrite Hs. simpl. rewrite !Hsent. simpl.
    repeat first [rewrite run_try_catch | rewrite run_bind | rewrite notifyAllTabs_log
                 | progress simpl].
    by rewrite <- !app_assoc. }
  split; [|split; [|intros s [-> | ->]; by apply Hstop]].
  - unfold BackgroundService.pauseRecording, RecordingManager.pauseRecording.
    unfold_bind. simpl. rewrite Hr, Hnp. simpl. rewrite !Hsent. simpl.
    repeat first [rewrite run_try_catch | rewrite run_bind | rewrite notifyAllTabs_log
                 | progress simpl].
    by rewrite Hr, <- !app_assoc.
  - unfold BackgroundService.resumeRecording, RecordingManager.resumeRecording.
    unfold_bind. simpl. rewrite Hp, Hpp. simpl. rewrite !Hsent. simpl.
    repeat first [rewrite run_try_catch | rewrite run_bind | rewrite notifyAllTabs_log
                 | progress simpl].
    by rewrite Hp, <- !app_assoc.
Qed.

Lemma accepted_transitions_update_indicators_witness :
  RecordingManager.isRecording (recording_since 0) = true /\
  RecordingManager.isPaused (recording_since 0) = false /\
  RecordingManager.isRecording (paused_since 0) = true /\
  RecordingManager.isPaused (paused_since 0) = true /\
  (forall action,
      reliable _ (SendMessage (RecordingManager.command action)) =
      Fulfilled (Some (mkReply true None))) /\
  run 9000 reliable BackgroundService.stopRecording (paused_since 0) [] =
    (RecordingManager.mkManager false false (Some 0) 0,
     [] ++ [Called (SendMessage (RecordingManager.command "STOP_CAPTURE"));
            Fired (SetBadgeText "")]
        ++ broadcast reliable (BackgroundService.tab_message "RECORDING_STOPPED" None)
        ++ [Fired (Notification "Recording Stopped")],
     Fulfilled succeeded).
Proof.
  assert (H1 : RecordingManager.isRecording (recording_since 0) = true) by reflexivity.
  assert (H2 : RecordingManager.isPaused (recording_since 0) = false) by reflexivity.
  assert (H3 : RecordingManager.isRecording (paused_since 0) = true) by reflexivity.
  assert (H4 : RecordingManager.isPaused (paused_since 0) = true) by reflexivity.
  assert (H5 : forall action,
             reliable _ (SendMessage (RecordingManager.command action)) =
             Fulfilled (Some (mkReply true None))) by reflexivity.
  do 5 (split; [assumption|]).
  apply (accepted_transitions_update_indicators 9000 reliable
           (recording_since 0) (paused_since 0)
           (Some (mkReply true None)) [] H1 H2 H3 H4 H5).
  by right.
Defined.

(** X9. An accepted start shows its indicators in a different order in
    the two controllers. The service worker ensures the offscreen
    document, reads the clock for [startTime], sends the start command,
    waits for the Capture Surface to acknowledge it, and only then sets
    the badge 'REC', reads the clock again for the time it broadcasts
    with [RECORDING_STARTED] to every tab, and announces 'Recording
    Started'; the response carries the first reading. [background.js]
    reads the clock once, sets the badge and broadcasts first, posts the
    start command last and answers with success without waiting for the
    Capture Surface. *)
Theorem accepted_start_shows_indicators (options : Obj) (ticks : nat -> Z) (n : nat)
    (env : forall X, Req X -> Settled X) reply
    (s : RecordingManager.Manager) (b : BackgroundJs.Manager) log :
  RecordingManager.isRecording s = false ->
  offscreen_available env "ui/offscreen.html" 1000 ->
  env _ (SendMessage (mkOffscreenMsg "START_CAPTURE" (Some (capture_options options))))
    = Fulfilled (Some reply) ->
  reply_success reply = true ->
  BackgroundJs.isRecording b = false ->
  offscreen_available env "offscreen.html" 2000 ->
  run_clock ticks n env (BackgroundService.startRecording options) s log =
    (RecordingManager.mkManager true false (Some (ticks n)) 0,
     log ++ ensure_calls env "ui/offscreen.html" 1000
         ++ [Called (SendMessage
                       (mkOffscreenMsg "START_CAPTURE" (Some (capture_options options))));
             Fired (SetBadgeText "REC");
             Fired (SetBadgeBackgroundColor "#EF4444")]
         ++ broadcast env
              (BackgroundService.tab_message "RECORDING_STARTED" (Some (ticks (S n))))
         ++ [Fired (Notification "Recording Started")],
     Fulfilled (mkResponse true (Some (ticks n)) None None),
     S (S n)) /\
  run_clock ticks n env (BackgroundJs.startRecording options) b log =
    (BackgroundJs.mkManager true (Some (ticks n)) true,
     log ++ ensure_calls env "offscreen.html" 2000
         ++ [Fired (SetBadgeText "REC"); Fired (SetBadgeBackgroundColor "#ff0000")]
         ++ broadcast env (BackgroundJs.status_message true)
         ++ [Fired (PostOffscreen
                      (mkOffscreenMsg "startCapture" (Some (capture_options options))))],
     Fulfilled (mkResponse true None (Some "Recording started") None),
     S n).
Proof.
  intros Hs Hsvc Hreply Hok Hb Hbg. split.
  - unfold BackgroundService.startRecording, RecordingManager.startRecording.
    unfold_bind. simpl. rewrite Hs. simpl.
    rewrite run_clock_try_catch, run_clock_bind, run_clock_try_catch, run_clock_bind,
      (services_ensure_clock ticks n env s log Hsvc). simpl.
    rewrite Hreply. simpl. rewrite Hok. simpl.
    repeat first [rewrite run_clock_try_catch | rewrite run_clock_bind
                 | rewrite notifyAllTabs_clock | progress simpl].
    by rewrite <- !app_assoc.
  - unfold BackgroundJs.startRecording. unfold_bind. simpl. rewrite Hb. simpl.
    rewrite run_clock_try_catch, run_clock_bind,
      (bg_ensure_clock ticks n env b log Hbg). simpl.
    repeat first [rewrite run_clock_try_catch | rewrite run_clock_bind
                 | rewrite notifyTabsRecordingStatus_clock | progress simpl].
    by rewrite <- !app_assoc.
Qed.

Lemma accepted_start_shows_indicators_witness :
  RecordingManager.isRecording RecordingManager.initial = false /\
  offscreen_available reliable "ui/offscreen.html" 1000 /\
  reply_success (mkReply true None) = true /\
  BackgroundJs.isRecording BackgroundJs.initial = false /\
  offscreen_available reliable "offscreen.html" 2000 /\
  run_clock (fun k => 1000 + Z.of_nat k) 0 reliable (BackgroundService.startRecording ∅)
      RecordingManager.initial [] =
    (RecordingManager.mkManager true false (Some 1000) 0,
     [] ++ ensure_calls reliable "ui/offscreen.html" 1000
        ++ [Called (SendMessage (mkOffscreenMsg "START_CAPTURE" (Some (capture_options ∅))));
            Fired (SetBadgeText "REC");
            Fired (SetBadgeBackgroundColor "#EF4444")]
        ++ broadcast reliable (BackgroundService.tab_message "RECORDING_STARTED" (Some 1001))
        ++ [Fired (Notification "Recording Started")],
     Fulfilled (mkResponse true (Some 1000) None None),
     2%nat).
Proof.
  assert (H1 : RecordingManager.isRecording RecordingManager.initial = false) by reflexivity.
  assert (H2 : offscreen_available reliable "ui/offscreen.html" 1000)
    by (left; exists 0%nat; reflexivity).
  assert (H3 : reliable _ (SendMessage (mkOffscreenMsg "START_CAPTURE"
                                          (Some (capture_options ∅))))
               = Fulfilled (Some (mkReply true None))) by reflexivity.
  assert (H4 : reply_success (mkReply true None) = true) by reflexivity.
  assert (H5 : BackgroundJs.isRecording BackgroundJs.initial = false) by reflexivity.
  assert (H6 : offscreen_available reliable "offscreen.html" 2000)
    by (left; exists 0%nat; reflexivity).
  split; [exact H1|]. split; [exact H2|]. split; [exact H4|].
  split; [exact H5|]. split; [exact H6|].
  exact (proj1 (accepted_start_shows_indicators ∅ (fun k => 1000 + Z.of_nat k) 0%nat
                  reliable (mkReply true None)
                  RecordingManager.initial BackgroundJs.initial [] H1 H2 H3 H4 H5 H6)).
Defined.

(** ** Completion *)

(** X10. A request that is refused between the stop of a recording and
    the arrival of its artifact destroys the recording: a stop refused
    while Idle, like a start refused while Recording, runs [cleanup()],
    which erases [startTime]; [handleRecordingData] then fails on it
    before anything is uploaded or stored and announces 'Recording
    Error'. *)
Theorem refused_request_loses_the_awaited_recording (trim : string -> string)
    (net : Network) (options : Obj)
    now env later saved_at (tabs : Settled (list Tab)) (data : RecordingManager.Artifact)
    (finished recording : RecordingManager.Manager) log (w : World) :
  RecordingManager.isRecording finished = false ->
  RecordingManager.isRecording recording = true ->
  let after_stop := (run now env BackgroundService.stopRecording finished log).1.1 in
  let after_start := (run now env (BackgroundService.startRecording options) recording log).1.1 in
  RecordingManager.handleRecordingData trim net later saved_at tabs data after_stop w =
    (RecordingManager.mkManager false false None 0,
     mkWorld (storage w) (io w ++ [Notify "Recording Error"])) /\
  RecordingManager.handleRecordingData trim net later saved_at tabs data after_start w =
    (RecordingManager.mkManager false false None 0,
     mkWorld (storage w) (io w ++ [Notify "Recording Error"])).
Proof.
  intros Hf Hr after_stop after_start.
  assert (Hstop : after_stop = RecordingManager.mkManager false false None 0).
  { subst after_stop.
    unfold BackgroundService.stopRecording, RecordingManager.stopRecording.
    unfold_bind. simpl. by rewrite Hf. }
  assert (Hstart : after_start = RecordingManager.mkManager false false None 0).
  { subst after_start.
    unfold BackgroundService.startRecording, RecordingManager.startRecording.
    unfold_bind. simpl. by rewrite Hr. }
  rewrite Hstop, Hstart. unfold RecordingManager.handleRecordingData.
  destruct tabs as [found|e]; [|done]. simpl.
  by destruct (RecordingManager.extractMeetingTitle trim (head found)).
Qed.

Lemma refused_request_loses_the_awaited_recording_witness :
  RecordingManager.isRecording stopped = false /\
  RecordingManager.isRecording (recording_since 0) = true /\
  RecordingManager.handleRecordingData no_trim offline 31000 31001 standup
      artifact (run 30500 reliable BackgroundService.stopRecording stopped []).1.1
      two_pending =
    (RecordingManager.mkManager false false None 0,
     mkWorld (storage two_pending) (io two_pending ++ [Notify "Recording Error"])).
Proof.
  assert (H1 : RecordingManager.isRecording stopped = false) by reflexivity.
  assert (H2 : RecordingManager.isRecording (recording_since 0) = true) by reflexivity.
  split; [exact H1|]. split; [exact H2|].
  exact (proj1 (refused_request_loses_the_awaited_recording no_trim offline ∅ 30500 reliable
                  31000 31001 standup artifact stopped
                  (recording_since 0) [] two_pending H1 H2)).
Defined.




(** ** Caps *)

Lemma foldl_capped {A} (n : nat) (acc l : list A) :
  l ≠ [] -> foldl (fun acc x => take n (x :: acc)) acc l = take n (rev l ++ acc).
Proof.
  induction l as [|x l IH] using rev_ind; [done|]. intros _.
  rewrite foldl_app, rev_unit. simpl.
  destruct l as [|y l]; [done|].
  rewrite IH by done.
  change (x :: take n (rev (y :: l) ++ acc)) with ([x] ++ take n (rev (y :: l) ++ acc)).
  by rewrite take_app_take.
Qed.

Lemma local_collection_after_saves (rs : list Obj) : forall w,
  local_collection (foldl (fun w r => StorageManager.addLocalRecording r w) w rs) =
  foldl (fun acc r => take 50 (r :: acc)) (local_collection w) rs.
Proof.
  induction rs as [|r rs IH]; intros w; [done|]. simpl. by rewrite IH.
Qed.

Lemma synced_collection_after_saves (rs : list Obj) : forall w,
  synced_collection (foldl (fun w r => StorageManager.addRecording r w) w rs) =
  foldl (fun acc r => take 100 (r :: acc)) (synced_collection w) rs.
Proof.
  induction rs as [|r rs IH]; intros w; [done|]. simpl. by rewrite IH.
Qed.

(** X13. Saving records one after the other keeps the most recent ones
    only: after the records [rs] have been added, the local collection
    holds the last 50 of them, most recent first, followed by as many of
    the records it held before as the cap of 50 leaves room for, oldest
    dropped first; once 50 records have been added none of the older
    ones is left, pending or not. The same holds for the synced
    collection with its cap of 100. *)
Theorem oldest_records_are_evicted (rs : list Obj) (w : World) :
  rs ≠ [] ->
  let saved := foldl (fun w r => StorageManager.addLocalRecording r w) w rs in
  let synced := foldl (fun w r => StorageManager.addRecording r w) w rs in
  local_collection saved = take 50 (rev rs ++ local_collection w) /\
  (length (local_collection saved) <= 50)%nat /\
  ((50 <= length rs)%nat -> local_collection saved = take 50 (rev rs)) /\
  synced_collection synced = take 100 (rev rs ++ synced_collection w) /\
  (length (synced_collection synced) <= 100)%nat /\
  ((100 <= length rs)%nat -> synced_collection synced = take 100 (rev rs)).
Proof.
  intros Hrs saved synced. subst saved synced.
  rewrite local_collection_after_saves, synced_collection_after_saves.
  rewrite !foldl_capped by done.
  repeat split.
  - rewrite length_take. lia.
  - intros Hlen. by rewrite take_app_le by (rewrite length_rev; lia).
  - rewrite length_take. lia.
  - intros Hlen. by rewrite take_app_le by (rewrite length_rev; lia).
Qed.

Lemma oldest_records_are_evicted_witness :
  [server_record] ≠ [] /\
  local_collection (foldl (fun w r => StorageManager.addLocalRecording r w)
                          two_pending [server_record]) =
    take 50 (rev [server_record] ++ local_collection two_pending).
Proof.
  assert (H : [server_record] ≠ []) by discriminate.
  split; [exact H|].
  exact (proj1 (oldest_records_are_evicted [server_record] two_pending H)).
Defined.

(** ** What a reconciliation reads, sends and writes *)

Lemma services_loop_io net (pending : list Obj) : forall st,
  let st' := foldl (StorageManager.sync_recording net) st pending in
  fetches (io (StorageManager.world st')) =
    fetches (io (StorageManager.world st)) ++ ((fun r => prop r "blob") <$> pending) /\
  uploads (io (StorageManager.world st')) =
    uploads (io (StorageManager.world st)) ++ omap (upload_attempt net) pending /\
  writes (io (StorageManager.world st')) =
    writes (io (StorageManager.world st))
      ++ replicate (length (omap (sync_outcome net) pending)) "recordings".
Proof.
  induction pending as [|r pending IH]; intros st; simpl.
  - by rewrite !app_nil_r.
  - destruct (IH (StorageManager.sync_recording net st r)) as (Hf & Hu & Hw).
    rewrite Hf, Hu, Hw. clear IH Hf Hu Hw.
    unfold StorageManager.sync_recording, upload_attempt, sync_outcome,
      fetches, uploads, writes.
    destruct (fetch_blob net (prop r "blob")) as [blob|]; simpl.
    + destruct (upload net blob (delete "blob" r)) as [answer|]; simpl;
        rewrite !omap_app; simpl; rewrite ?app_nil_r, <- ?app_assoc; by simpl.
    + rewrite !omap_app; simpl; rewrite ?app_nil_r, <- ?app_assoc; by simpl.
Qed.

(** X14. A reconciliation of [services/storage-manager.js] fetches the
    payload of each pending record once, in stored order, and of no other
    record; it attempts an upload for exactly the pending records whose
    payload could be fetched, sending the record without its [blob] as
    metadata; it writes the synced collection once per successful upload
    and the local collection once, at the end, unless nothing was
    pending, in which case it writes nothing. *)
Theorem reconciliation_traffic (net : Network) (w : World) :
  let pending := List.filter needsSync (local_collection w) in
  let w' := (StorageManager.syncPendingRecordings net w).1 in
  fetches (io w') = fetches (io w) ++ ((fun r => prop r "blob") <$> pending) /\
  uploads (io w') = uploads (io w) ++ omap (upload_attempt net) pending /\
  (forall blob metadata,
      (blob, metadata) ∈ omap (upload_attempt net) pending ->
      metadata !! "blob" = None /\
      exists r, r ∈ local_collection w /\ needsSync r = true /\
                metadata = delete "blob" r /\ fetch_blob net (prop r "blob") = Some blob) /\
  writes (io w') =
    writes (io w) ++
    match pending with
    | [] => []
    | _ => replicate (length (omap (sync_outcome net) pending)) "recordings"
             ++ ["localRecordings"]
    end.
Proof.
  intros pending w'. subst pending w'.
  unfold StorageManager.syncPendingRecordings, local_collection. simpl.
  set (local := default [] (localRecordings (storage w))).
  assert (Hmeta : forall blob metadata,
             (blob, metadata) ∈ omap (upload_attempt net) (List.filter needsSync local) ->
             metadata !! "blob" = None /\
             exists r, r ∈ local /\ needsSync r = true /\
                       metadata = delete "blob" r /\
                       fetch_blob net (prop r "blob") = Some blob).
  { intros blob metadata Hin.
    apply list_elem_of_omap in Hin as (r & Hr & Hatt).
    apply list_elem_of_In, List.filter_In in Hr as [Hr Hsync].
    unfold upload_attempt in Hatt.
    destruct (fetch_blob net (prop r "blob")) as [b|] eqn:Hfetch; [|done].
    simpl in Hatt. injection Hatt as <- <-.
    split; [apply lookup_delete_eq|].
    exists r. by rewrite list_elem_of_In. }
  destruct (List.filter needsSync local) as [|r pending] eqn:Hpending.
  - simpl. unfold fetches, uploads, writes. rewrite !omap_app. simpl.
    rewrite !app_nil_r. split; [done|]. split; [done|]. split; [exact Hmeta|done].
  - change (length (r :: pending) =? 0)%nat with false. cbv iota.
    destruct (services_loop_io net (r :: pending)
                (StorageManager.mkSyncLoop local 0
                   (record_io (StorageGet "localRecordings") w))) as (Hf & Hu & Hw).
    cbn [fst io set_localRecordings].
    unfold fetches, uploads, writes in *. rewrite !omap_app.
    cbn [StorageManager.world] in *.
    rewrite Hf, Hu, Hw. simpl. rewrite !omap_app. simpl.
    rewrite !app_nil_r, <- !app_assoc.
    split; [done|]. split; [done|]. split; [exact Hmeta|done].
Qed.

Lemma bg_sync_recording_io net st ref :
  let recording := default ∅ (BackgroundJs.localObjects st !! ref) in
  let st' := BackgroundJs.sync_recording net st ref in
  fetches (io (BackgroundJs.world st')) =
    fetches (io (BackgroundJs.world st)) ++ [prop recording "data"] /\
  uploads (io (BackgroundJs.world st')) =
    uploads (io (BackgroundJs.world st)) ++ option_list (bg_upload_attempt net recording) /\
  writes (io (BackgroundJs.world st')) = writes (io (BackgroundJs.world st)).
Proof.
  unfold BackgroundJs.sync_recording, bg_upload_attempt, fetches, uploads, writes. simpl.
  destruct (fetch_blob net _) as [blob|]; simpl.
  - destruct (upload net blob _) as [answer|]; simpl;
      rewrite !omap_app; simpl; rewrite ?app_nil_r, <- ?app_assoc; by simpl.
  - rewrite !omap_app; simpl; rewrite ?app_nil_r, <- ?app_assoc; by simpl.
Qed.

Lemma bg_loop_io net (refs : list nat) : forall st,
  NoDup refs ->
  let st' := foldl (BackgroundJs.sync_recording net) st refs in
  fetches (io (BackgroundJs.world st')) =
    fetches (io (BackgroundJs.world st))
      ++ ((fun i => prop (default ∅ (BackgroundJs.localObjects st !! i)) "data") <$> refs) /\
  uploads (io (BackgroundJs.world st')) =
    uploads (io (BackgroundJs.world st))
      ++ omap (fun i => bg_upload_attempt net (default ∅ (BackgroundJs.localObjects st !! i)))
              refs /\
  writes (io (BackgroundJs.world st')) = writes (io (BackgroundJs.world st)).
Proof.
  induction refs as [|ref refs IH]; intros st Hnd; cbn [foldl].
  - simpl. by rewrite !app_nil_r.
  - apply NoDup_cons in Hnd as [Hfresh Hnd].
    destruct (bg_sync_recording_io net st ref) as (Hf & Hu & Hw).
    destruct (bg_sync_recording_spec net st ref) as (Hobj & _).
    destruct (IH (BackgroundJs.sync_recording net st ref) Hnd) as (Hf' & Hu' & Hw').
    assert (Hsame : forall i, i ∈ refs ->
               BackgroundJs.localObjects (BackgroundJs.sync_recording net st ref) !! i =
               BackgroundJs.localObjects st !! i).
    { intros i Hi. rewrite Hobj. rewrite decide_False; [done|]. by intros ->. }
    rewrite Hf', Hu', Hw', Hf, Hu, Hw. clear Hf' Hu' Hw' Hf Hu Hw IH.
    split; [|split; [|done]].
    + rewrite <- app_assoc. f_equal. csimpl. f_equal.
      apply list_fmap_ext. intros j i Hi. rewrite Hsame; [done|].
      by eapply list_elem_of_lookup_2.
    + rewrite <- app_assoc. f_equal. csimpl.
      rewrite (list_omap_ext _
                 (fun i => bg_upload_attempt net
                             (default ∅ (BackgroundJs.localObjects st !! i))) refs refs).
      * by destruct (bg_upload_attempt net (default ∅ (BackgroundJs.localObjects st !! ref))).
      * apply Forall2_same_length_lookup. split; [done|].
        intros j x y Hx Hy. assert (x = y) as <- by congruence.
        rewrite Hsame; [done|]. by eapply list_elem_of_lookup_2.
Qed.

(** X15. A reconciliation of [background.js] fetches the payload of each
    pending record once, in stored order, and of no other record; the
    metadata it uploads is rebuilt from seven fields of the record and
    carries neither the id nor the payload; it never reads or writes the
    synced collection, and writes the local collection once, at the end,
    unless nothing was pending. *)
Theorem bg_reconciliation_traffic (net : Network) (w : World) :
  let pending := List.filter needsSync (local_collection w) in
  let w' := (BackgroundJs.syncPendingRecordings net w).1 in
  fetches (io w') = fetches (io w) ++ ((fun r => prop r "data") <$> pending) /\
  uploads (io w') = uploads (io w) ++ omap (bg_upload_attempt net) pending /\
  (forall blob metadata,
      (blob, metadata) ∈ omap (bg_upload_attempt net) pending ->
      metadata !! "id" = None /\ metadata !! "data" = None /\
      exists r, r ∈ local_collection w /\ needsSync r = true /\
                metadata !! "title" = Some (prop r "title")) /\
  writes (io w') = writes (io w) ++ match pending with [] => [] | _ => ["localRecordings"] end /\
  recordings (storage w') = recordings (storage w).
Proof.
  intros pending w'. subst pending w'.
  unfold BackgroundJs.syncPendingRecordings, local_collection. simpl.
  set (local := default [] (localRecordings (storage w))).
  pose proof (pending_refs_objects local) as Hobjs.
  assert (Hmeta : forall blob metadata,
             (blob, metadata) ∈ omap (bg_upload_attempt net) (List.filter needsSync local) ->
             metadata !! "id" = None /\ metadata !! "data" = None /\
             exists r, r ∈ local /\ needsSync r = true /\
                       metadata !! "title" = Some (prop r "title")).
  { intros blob metadata Hin.
    apply list_elem_of_omap in Hin as (r & Hr & Hatt).
    apply list_elem_of_In, List.filter_In in Hr as [Hr Hsync].
    unfold bg_upload_attempt in Hatt.
    destruct (fetch_blob net (prop r "data")) as [b|] eqn:Hfetch; [|done].
    simpl in Hatt. injection Hatt as <- <-.
    split; [done|]. split; [done|].
    exists r. rewrite list_elem_of_In. by repeat split. }
  destruct (BackgroundJs.pending_refs local) as [|ref refs] eqn:Hrefs.
  - simpl in Hobjs. rewrite <- Hobjs in *. simpl.
    unfold fetches, uploads, writes. rewrite !omap_app. simpl.
    rewrite !app_nil_r. split; [done|]. split; [done|]. split; [exact Hmeta|done].
  - change (length (ref :: refs) =? 0)%nat with false. cbv iota.
    assert (Hnd : NoDup (ref :: refs)) by (rewrite <- Hrefs; apply pending_refs_NoDup).
    destruct (bg_loop_io net (ref :: refs)
                (BackgroundJs.mkSyncLoop local 0
                   (record_io (StorageGet "localRecordings") w)) Hnd) as (Hf & Hu & Hw).
    destruct (bg_loop net (ref :: refs)
                (BackgroundJs.mkSyncLoop local 0
                   (record_io (StorageGet "localRecordings") w)) Hnd) as (_ & _ & Hstore).
    cbn [fst io storage recordings set_localRecordings BackgroundJs.world
         BackgroundJs.localObjects] in *.
    unfold fetches, uploads, writes in *. rewrite !omap_app.
    rewrite Hf, Hu, Hw, Hstore.
    rewrite omap_fmap_index, Hobjs.
    change (fun i : nat => prop (default ∅ (local !! i)) "data")
      with ((fun r : Obj => prop r "data") ∘ (fun i : nat => default ∅ (local !! i))).
    rewrite list_fmap_compose, Hobjs.
    destruct (List.filter needsSync local) as [|r pending] eqn:Hpending.
    { by apply fmap_nil_inv in Hobjs. }
    simpl. rewrite ?omap_app. simpl. rewrite ?app_nil_r, <- ?app_assoc.
    split; [done|]. split; [done|]. split; [exact Hmeta|done].
Qed.

Lemma still_pending net (l : list Obj) :
  List.filter needsSync (reconciled net <$> l) =
  List.filter (fun r => bool_decide (sync_outcome net r = None)) (List.filter needsSync l).
Proof.
  induction l as [|r l IH]; [done|]. csimpl.
  destruct (needsSync r) eqn:Hr.
  - cbn [List.filter]. destruct (sync_outcome net r) as [u|] eqn:Hout.
    + rewrite (reconciled_uploaded net r u Hr Hout), mark_synced_not_pending.
      rewrite bool_decide_eq_false_2 by done. exact IH.
    + rewrite (reconciled_failed net r Hout), Hr.
      rewrite bool_decide_eq_true_2 by done. by rewrite IH.
  - by rewrite (reconciled_skipped net r Hr), Hr.
Qed.

Lemma filter_all_inv {A} (f : A -> bool) (l : list A) :
  List.filter f l = l -> forall x, x ∈ l -> f x = true.
Proof.
  intros Heq x Hx. rewrite <- Heq in Hx.
  by apply list_elem_of_In, List.filter_In in Hx as [_ Hx].
Qed.

(** X16. Over a local collection whose ids are pairwise distinct, and with
    a server that never hands out the id of a local record, the records
    that still need a sync after a reconciliation of
    [services/storage-manager.js] are exactly the pending records whose
    upload failed, in stored order. So when every upload succeeded, the
    next reconciliation only reads the local collection, whatever the
    network is by then; and when every upload failed, both collections
    are as they were. *)
Theorem failed_uploads_stay_pending (net next : Network) (w : World) :
  let local := local_collection w in
  let pending := List.filter needsSync local in
  NoDup (ids local) ->
  (forall r uploaded, r ∈ pending -> sync_outcome net r = Some uploaded ->
                      prop uploaded "id" ∉ ids local) ->
  let result := StorageManager.syncPendingRecordings net w in
  let failed := List.filter (fun r => bool_decide (sync_outcome net r = None)) pending in
  List.filter needsSync (local_collection result.1) = failed /\
  (failed = [] ->
   StorageManager.syncPendingRecordings next result.1 =
     (record_io (StorageGet "localRecordings") result.1, mkSyncResult true 0)) /\
  (failed = pending ->
   result.2 = mkSyncResult true 0 /\
   local_collection result.1 = local /\
   synced_collection result.1 = synced_collection w).
Proof.
  intros local pending Hnd Hfresh result failed.
  destruct (services_sync_spec net w (ids_stay_apart net local Hnd Hfresh))
    as (Hres & Hlocal & Hsynced).
  fold local in Hlocal, Hres, Hsynced. fold result in Hres, Hlocal, Hsynced.
  assert (Hleft : List.filter needsSync (local_collection result.1) = failed).
  { rewrite Hlocal. apply still_pending. }
  split; [exact Hleft|]. split.
  - intros Hnone. rewrite Hnone in Hleft.
    unfold StorageManager.syncPendingRecordings at 1. simpl.
    unfold local_collection in Hleft. by rewrite Hleft.
  - intros Hall.
    assert (Hfail : forall r, r ∈ pending -> sync_outcome net r = None).
    { intros r Hr.
      pose proof (filter_all_inv _ _ Hall r Hr) as Hb.
      by apply bool_decide_eq_true in Hb. }
    assert (Homap : omap (sync_outcome net) pending = []).
    { clear -Hfail. induction pending as [|r l IH]; [done|]. csimpl.
      rewrite (Hfail r) by left. apply IH. intros y Hy. apply Hfail. by right. }
    fold pending in Hres, Hsynced. rewrite Homap in Hres, Hsynced.
    split; [exact Hres|]. split; [|exact Hsynced].
    rewrite Hlocal. apply fmap_unchanged. intros r Hr.
    destruct (needsSync r) eqn:Hsync.
    + apply reconciled_failed, Hfail.
      apply list_elem_of_In, List.filter_In. by rewrite <- list_elem_of_In.
    + by apply reconciled_skipped.
Qed.

Lemma failed_uploads_stay_pending_witness :
  NoDup (ids (local_collection two_pending)) /\
  (forall r uploaded,
      r ∈ List.filter needsSync (local_collection two_pending) ->
      sync_outcome flaky r = Some uploaded ->
      prop uploaded "id" ∉ ids (local_collection two_pending)) /\
  List.filter needsSync
    (local_collection (StorageManager.syncPendingRecordings flaky two_pending).1) =
    List.filter (fun r => bool_decide (sync_outcome flaky r = None))
      (List.filter needsSync (local_collection two_pending)).
Proof.
  assert (H1 : NoDup (ids (local_collection two_pending))).
  { apply (bool_decide_unpack _). vm_compute. exact I. }
  assert (H2 : forall r uploaded,
             r ∈ List.filter needsSync (local_collection two_pending) ->
             sync_outcome flaky r = Some uploaded ->
             prop uploaded "id" ∉ ids (local_collection two_pending)).
  { intros r uploaded _ Hout. rewrite (flaky_uploads r uploaded Hout).
    apply (bool_decide_unpack _). vm_compute. exact I. }
  split; [exact H1|]. split; [exact H2|].
  exact (proj1 (failed_uploads_stay_pending flaky offline two_pending H1 H2)).
Defined.

(** ** Deleting and looking up stored recordings *)

Lemma filter_other_length (id : JsVal) (l : list Obj) :
  (length (List.filter (fun r : Obj => bool_decide (prop r "id" ≠ id)) l) <? length l)%nat =
  bool_decide (id ∈ ids l).
Proof.
  induction l as [|x l IH]; [done|].
  cbn [List.filter ids fmap list_fmap]. fold (ids l).
  destruct (decide (prop x "id" = id)) as [Heq|Hne].
  - rewrite bool_decide_eq_false_2 by (intros H; by apply H).
    rewrite (bool_decide_eq_true_2 (id ∈ prop x "id" :: ids l)) by (rewrite Heq; left).
    apply Nat.ltb_lt. cbn [length].
    pose proof (List.filter_length_le (fun r : Obj => bool_decide (prop r "id" ≠ id)) l). lia.
  - rewrite bool_decide_eq_true_2 by done. cbn [length].
    change (S ?a <? S ?b)%nat with (a <? b)%nat. rewrite IH.
    apply bool_decide_ext. rewrite elem_of_cons. split; [by right|]. by intros [Heq|Hin].
Qed.

Lemma filter_other_gone (id : JsVal) (l : list Obj) :
  id ∉ ids (List.filter (fun r : Obj => bool_decide (prop r "id" ≠ id)) l).
Proof.
  unfold ids. intros Hin. apply list_elem_of_fmap in Hin as (r & Hid & Hr).
  apply list_elem_of_In, List.filter_In in Hr as [_ Hr].
  apply bool_decide_eq_true in Hr. by apply Hr.
Qed.

Lemma filter_other_absent (id : JsVal) (l : list Obj) :
  id ∉ ids l -> List.filter (fun r : Obj => bool_decide (prop r "id" ≠ id)) l = l.
Proof.
  induction l as [|x l IH]; [done|]. cbn [List.filter ids fmap list_fmap]. fold (ids l).
  intros Hnot. apply not_elem_of_cons in Hnot as [Hne Hnot].
  rewrite bool_decide_eq_true_2 by done. by rewrite IH.
Qed.

Lemma filter_other_twice (id : JsVal) (l : list Obj) :
  List.filter (fun r : Obj => bool_decide (prop r "id" ≠ id))
    (List.filter (fun r : Obj => bool_decide (prop r "id" ≠ id)) l) =
  List.filter (fun r : Obj => bool_decide (prop r "id" ≠ id)) l.
Proof. apply filter_other_absent, filter_other_gone. Qed.

(** [deleteRecording] of the storage manager, on the two collections. *)
Lemma storage_delete_spec (id : JsVal) (w : World) :
  let result := StorageManager.deleteRecording id w in
  let other := fun r : Obj => bool_decide (prop r "id" ≠ id) in
  synced_collection result.1 = List.filter other (synced_collection w) /\
  local_collection result.1 =
    (if bool_decide (id ∈ ids (synced_collection w)) then local_collection w
     else List.filter other (local_collection w)) /\
  result.2 = bool_decide (id ∈ ids (synced_collection w) \/ id ∈ ids (local_collection w)) /\
  writes (io result.1) =
    writes (io w) ++
    (if bool_decide (id ∈ ids (synced_collection w)) then ["recordings"]
     else if bool_decide (id ∈ ids (local_collection w)) then ["localRecordings"]
     else []) /\
  (result.2 = false -> storage result.1 = storage w).
Proof.
  unfold StorageManager.deleteRecording, synced_collection, local_collection, writes.
  simpl. rewrite !filter_other_length.
  set (synced := default [] (recordings (storage w))).
  set (local := default [] (localRecordings (storage w))).
  destruct (decide (id ∈ ids synced)) as [Hs|Hs].
  - rewrite !(bool_decide_eq_true_2 (id ∈ ids synced)) by done.
    simpl. rewrite !omap_app. simpl. rewrite ?app_nil_r, <- ?app_assoc.
    split; [done|]. split; [done|].
    split; [by rewrite bool_decide_eq_true_2 by (by left)|]. split; [done|done].
  - rewrite !(bool_decide_eq_false_2 (id ∈ ids synced)) by done.
    destruct (decide (id ∈ ids local)) as [Hl|Hl].
    + rewrite !(bool_decide_eq_true_2 (id ∈ ids local)) by done.
      simpl. rewrite !omap_app. simpl. rewrite ?app_nil_r, <- ?app_assoc.
      split; [by rewrite filter_other_absent|]. split; [done|].
      split; [by rewrite bool_decide_eq_true_2 by (by right)|]. split; [done|done].
    + rewrite !(bool_decide_eq_false_2 (id ∈ ids local)) by done.
      simpl. rewrite !omap_app. simpl. rewrite ?app_nil_r, <- ?app_assoc.
      split; [by rewrite filter_other_absent|].
      split; [by rewrite filter_other_absent|].
      split; [by rewrite bool_decide_eq_false_2 by tauto|]. split; [done|done].
Qed.

(** X17. [deleteRecording] of the storage manager deletes from one
    collection per call, the synced collection first: every record with
    the id leaves the synced collection; the local collection is searched
    only when the synced one held none, so a copy is left behind exactly
    when both collections held the id. The records with other ids keep
    their places, the answer is [true] exactly when some record had the
    id, and without such a record nothing is written. *)
Theorem delete_takes_one_collection_per_call (id : JsVal) (w : World) :
  let result := StorageManager.deleteRecording id w in
  let other := fun r : Obj => bool_decide (prop r "id" ≠ id) in
  (id ∉ ids (synced_collection result.1)) /\
  (id ∈ ids (local_collection result.1) <->
   id ∈ ids (synced_collection w) /\ id ∈ ids (local_collection w)) /\
  (id ∈ ids (synced_collection w) -> local_collection result.1 = local_collection w) /\
  List.filter other (synced_collection result.1) = List.filter other (synced_collection w) /\
  List.filter other (local_collection result.1) = List.filter other (local_collection w) /\
  (result.2 = true <-> id ∈ ids (synced_collection w) \/ id ∈ ids (local_collection w)) /\
  (result.2 = false -> storage result.1 = storage w /\ writes (io result.1) = writes (io w)).
Proof.
  intros result other.
  destruct (storage_delete_spec id w) as (Hs & Hl & Hres & Hw & Hsame).
  fold result in Hs, Hl, Hres, Hw, Hsame. fold other in Hs, Hl.
  split; [rewrite Hs; apply filter_other_gone|].
  split.
  { rewrite Hl. case_bool_decide as Hin; [tauto|].
    split; [intros H; by apply filter_other_gone in H|tauto]. }
  split; [intros Hin; by rewrite Hl, bool_decide_eq_true_2|].
  split; [rewrite Hs; apply filter_other_twice|].
  split.
  { rewrite Hl. destruct (bool_decide (id ∈ ids (synced_collection w))); [done|].
    apply filter_other_twice. }
  split; [rewrite Hres; apply bool_decide_eq_true|].
  intros Hfalse. split; [by apply Hsame|].
  rewrite Hw. rewrite Hres in Hfalse. apply bool_decide_eq_false in Hfalse.
  rewrite !bool_decide_eq_false_2 by tauto. by rewrite app_nil_r.
Qed.

(** X18. Two calls of [deleteRecording] with the same id always remove
    every record with it from both collections, where one call need not;
    a third call finds nothing, answers [false] and leaves the store as
    it is. The records with other ids are kept, in their order. *)
Theorem two_deletions_remove_every_copy (id : JsVal) (w : World) :
  let once := StorageManager.deleteRecording id w in
  let twice := StorageManager.deleteRecording id once.1 in
  let thrice := StorageManager.deleteRecording id twice.1 in
  let other := fun r : Obj => bool_decide (prop r "id" ≠ id) in
  synced_collection twice.1 = List.filter other (synced_collection w) /\
  local_collection twice.1 = List.filter other (local_collection w) /\
  (twice.2 = true <-> id ∈ ids (synced_collection w) /\ id ∈ ids (local_collection w)) /\
  thrice.2 = false /\
  storage thrice.1 = storage twice.1.
Proof.
  intros once twice thrice other.
  destruct (storage_delete_spec id w) as (Hs1 & Hl1 & _).
  destruct (storage_delete_spec id once.1) as (Hs2 & Hl2 & Hres2 & _).
  destruct (storage_delete_spec id twice.1) as (_ & _ & Hres3 & _ & Hsame3).
  fold once in Hs1, Hl1. fold twice in Hs2, Hl2, Hres2, Hres3, Hsame3.
  fold thrice in Hres3, Hsame3. fold other in Hs1, Hl1, Hs2, Hl2.
  assert (Hgone1 : id ∉ ids (synced_collection once.1))
    by (rewrite Hs1; apply filter_other_gone).
  rewrite (bool_decide_eq_false_2 _ Hgone1) in Hl2.
  assert (Hs : synced_collection twice.1 = List.filter other (synced_collection w)).
  { rewrite Hs2, Hs1. apply filter_other_twice. }
  assert (Hl : local_collection twice.1 = List.filter other (local_collection w)).
  { rewrite Hl2, Hl1. destruct (bool_decide (id ∈ ids (synced_collection w))); [done|].
    apply filter_other_twice. }
  assert (Hnone : ~ (id ∈ ids (synced_collection twice.1) \/ id ∈ ids (local_collection twice.1))).
  { rewrite Hs, Hl. intros [H|H]; by apply filter_other_gone in H. }
  split; [exact Hs|]. split; [exact Hl|].
  split.
  { rewrite Hres2, bool_decide_eq_true. split.
    - intros [H|H]; [done|]. rewrite Hl1 in H.
      destruct (decide (id ∈ ids (synced_collection w))) as [Hin|Hin].
      + by rewrite bool_decide_eq_true_2 in H by done.
      + rewrite bool_decide_eq_false_2 in H by done. destruct (filter_other_gone _ _ H).
    - intros [Hin Hl']. right. by rewrite Hl1, bool_decide_eq_true_2 by done. }
  assert (Hfalse : thrice.2 = false) by (by rewrite Hres3, bool_decide_eq_false_2).
  split; [exact Hfalse|by apply Hsame3].
Qed.

Lemma insert_by_date_perm (r : Obj) (l : list Obj) : insert_by_date r l ≡ₚ r :: l.
Proof.
  induction l as [|x l IH]; [done|]. simpl.
  destruct (date_ms x <=? date_ms r); [done|].
  rewrite IH. apply Permutation_swap.
Qed.

Lemma newest_first_perm (l : list Obj) : newest_first l ≡ₚ l.
Proof.
  induction l as [|x l IH]; [done|]. unfold newest_first in *. simpl.
  by rewrite insert_by_date_perm, IH.
Qed.

Lemma getRecording_found (by_date : list Obj -> list Obj) (id : JsVal) (w : World) (r : Obj) :
  (forall l, by_date l ≡ₚ l) ->
  (StorageManager.getRecording by_date id w).2 = Some r ->
  prop r "id" = id /\ (r ∈ synced_collection w \/ r ∈ local_collection w).
Proof.
  intros Hperm Hfind. unfold StorageManager.getRecording in Hfind. simpl in Hfind.
  apply List.find_some in Hfind as [Hin Hid].
  apply bool_decide_eq_true in Hid. split; [done|].
  apply list_elem_of_In in Hin. rewrite Hperm in Hin.
  by apply elem_of_app in Hin.
Qed.

Lemma getRecording_missing (by_date : list Obj -> list Obj) (id : JsVal) (w : World) :
  (forall l, by_date l ≡ₚ l) ->
  (StorageManager.getRecording by_date id w).2 = None ->
  (id ∉ ids (synced_collection w)) /\ (id ∉ ids (local_collection w)).
Proof.
  intros Hperm Hfind. unfold StorageManager.getRecording in Hfind. simpl in Hfind.
  assert (Hnone : forall r, r ∈ synced_collection w ++ local_collection w -> prop r "id" ≠ id).
  { intros r Hr. rewrite <- (Hperm _) in Hr. apply list_elem_of_In in Hr.
    pose proof (List.find_none _ _ Hfind r Hr) as Hb. by apply bool_decide_eq_false in Hb. }
  split; intros Hin; apply list_elem_of_fmap in Hin as (r & Hid & Hr);
    (eapply Hnone; [|by symmetry]); apply elem_of_app; [by left|by right].
Qed.

Lemma getRecording_store (by_date : list Obj -> list Obj) (id : JsVal) (w : World) :
  storage (StorageManager.getRecording by_date id w).1 = storage w /\
  writes (io (StorageManager.getRecording by_date id w).1) = writes (io w).
Proof.
  unfold StorageManager.getRecording, writes. simpl. split; [done|].
  rewrite !omap_app. simpl. by rewrite !app_nil_r.
Qed.

(** [deleteRecording] of the service worker: what it asks of the server. *)
Lemma service_delete_spec (by_date : list Obj -> list Obj)
    (server : ApiService.Server) (id : JsVal) (b : BackgroundService.Backend) :
  (forall l, by_date l ≡ₚ l) ->
  let result := BackgroundService.deleteRecording by_date server id b in
  let client := BackgroundService.api b in
  let synced := synced_collection (BackgroundService.store b) in
  let local := local_collection (BackgroundService.store b) in
  let request :=
    ApiService.mkRequest ("/recordings/" +:+ to_string id) (Some "DELETE")
      (ApiService.deref client (ApiService.getAuthHeaders client)) ApiService.NoBody in
  let asked := ApiService.sent (BackgroundService.api result.1) in
  result.2 = succeeded /\
  storage (BackgroundService.store result.1) =
    storage (StorageManager.deleteRecording id (BackgroundService.store b)).1 /\
  (asked = ApiService.sent client \/ asked = ApiService.sent client ++ [request]) /\
  (asked ≠ ApiService.sent client -> id ∈ ids synced /\ id ∈ ids local) /\
  (NoDup (ids (synced ++ local)) -> asked = ApiService.sent client) /\
  (id ∈ ids synced -> id ∈ ids local ->
   (forall r, r ∈ local -> prop r "id" = id -> truthy (prop r "isLocal") = false) ->
   asked = ApiService.sent client ++ [request]).
Proof.
  intros Hperm result client synced local request asked.
  destruct (storage_delete_spec id (BackgroundService.store b)) as (Hs & Hl & _).
  fold synced in Hs, Hl. fold local in Hl.
  pose proof (getRecording_found by_date id
                (StorageManager.deleteRecording id (BackgroundService.store b)).1) as Hfound.
  pose proof (getRecording_missing by_date id
                (StorageManager.deleteRecording id (BackgroundService.store b)).1) as Hmissing.
  pose proof (getRecording_store by_date id
                (StorageManager.deleteRecording id (BackgroundService.store b)).1) as [Hstore _].
  subst result asked. unfold BackgroundService.deleteRecording.
  destruct (StorageManager.deleteRecording id (BackgroundService.store b)) as [w1 found].
  cbn [fst snd] in *.
  destruct (StorageManager.getRecording by_date id w1) as [w2 recording].
  cbn [fst snd] in *.
  assert (Hleft : forall r, recording = Some r ->
            prop r "id" = id /\ r ∈ local /\ id ∈ ids synced /\ id ∈ ids local).
  { intros r ->. destruct (Hfound r Hperm eq_refl) as [Hid [Hin|Hin]].
    - exfalso. rewrite Hs in Hin. eapply (filter_other_gone id synced).
      apply list_elem_of_fmap. by exists r.
    - rewrite Hl in Hin. destruct (decide (id ∈ ids synced)) as [Hsy|Hsy].
      + rewrite bool_decide_eq_true_2 in Hin by done.
        repeat split; try done. apply list_elem_of_fmap. by exists r.
      + rewrite bool_decide_eq_false_2 in Hin by done.
        exfalso. eapply (filter_other_gone id local). apply list_elem_of_fmap. by exists r. }
  assert (Hsent : forall c, (ApiService.deleteRecording server id client).1 = c ->
            ApiService.sent c = ApiService.sent client ++ [request]).
  { intros c <-. unfold ApiService.deleteRecording, ApiService.makeRequest. simpl.
    unfold assign. rewrite (left_id_L ∅ (∪)).
    by destruct (server _). }
  destruct recording as [r|].
  - destruct (Hleft r eq_refl) as (Hid & Hr & Hsy & Hlo).
    destruct (truthy (prop r "isLocal")) eqn:Hflag; cbn [negb].
    + cbn [fst snd BackgroundService.api BackgroundService.store].
      split; [done|]. split; [done|]. split; [by left|]. split; [done|].
      split.
      * done.
      * intros _ _ Hall. rewrite (Hall r Hr Hid) in Hflag. done.
    + fold client.
      destruct (ApiService.deleteRecording server id client) as [c answer] eqn:Hdel.
      cbn [fst snd BackgroundService.api BackgroundService.store].
      pose proof (Hsent c eq_refl) as Hc.
      split; [done|]. split; [done|]. split; [by right|]. split; [done|].
      split; [|done].
      intros Hnd. exfalso. unfold ids in Hnd. rewrite fmap_app in Hnd.
      apply NoDup_app in Hnd as (_ & Hdisj & _). by eapply Hdisj.
  - cbn [fst snd BackgroundService.api BackgroundService.store].
    split; [done|]. split; [done|]. split; [by left|]. split; [done|].
    split; [done|].
    intros Hsy Hlo _. exfalso.
    destruct (Hmissing Hperm eq_refl) as [_ Hnot]. apply Hnot.
    by rewrite Hl, bool_decide_eq_true_2.
Qed.

(** X19. [deleteRecording] of the service worker looks the recording up
    after it has deleted it from the store, so the server is asked to
    delete a recording only when a copy with the id is still stored,
    that is when both collections held the id: a recording stored once
    is never deleted on the server, synced or not. When both collections
    held the id and the local copies are not marked [isLocal], as after a
    reconciliation, one DELETE request is made. The answer is
    [{success: true}] in every case, also when no record had the id. *)
Theorem stored_once_is_never_deleted_remotely (by_date : list Obj -> list Obj)
    (server : ApiService.Server) (id : JsVal) (b : BackgroundService.Backend) :
  (forall l, by_date l ≡ₚ l) ->
  let result := BackgroundService.deleteRecording by_date server id b in
  let client := BackgroundService.api b in
  let synced := synced_collection (BackgroundService.store b) in
  let local := local_collection (BackgroundService.store b) in
  let request :=
    ApiService.mkRequest ("/recordings/" +:+ to_string id) (Some "DELETE")
      (ApiService.deref client (ApiService.getAuthHeaders client)) ApiService.NoBody in
  let asked := ApiService.sent (BackgroundService.api result.1) in
  result.2 = succeeded /\
  storage (BackgroundService.store result.1) =
    storage (StorageManager.deleteRecording id (BackgroundService.store b)).1 /\
  (asked = ApiService.sent client \/ asked = ApiService.sent client ++ [request]) /\
  (asked ≠ ApiService.sent client -> id ∈ ids synced /\ id ∈ ids local) /\
  (NoDup (ids (synced ++ local)) -> asked = ApiService.sent client) /\
  (id ∈ ids synced -> id ∈ ids local ->
   (forall r, r ∈ local -> prop r "id" = id -> truthy (prop r "isLocal") = false) ->
   asked = ApiService.sent client ++ [request]).
Proof.
  intros Hperm. exact (service_delete_spec by_date server id b Hperm).
Qed.

Lemma stored_once_is_never_deleted_remotely_witness :
  (forall l, newest_first l ≡ₚ l) /\
  (BackgroundService.deleteRecording newest_first (fun _ => Rejected "offline")
     (JStr "srv-1")
     (BackgroundService.mkBackend
        (mkWorld (mkStorage (Some [server_record]) None) [])
        (ApiService.constructor (StorageManager.mkPrefs None StorageManager.Absent)))).2
    = succeeded.
Proof.
  split; [exact newest_first_perm|].
  exact (proj1 (stored_once_is_never_deleted_remotely newest_first (fun _ => Rejected "offline")
                  (JStr "srv-1")
                  (BackgroundService.mkBackend
                     (mkWorld (mkStorage (Some [server_record]) None) [])
                     (ApiService.constructor (StorageManager.mkPrefs None StorageManager.Absent)))
                  newest_first_perm)).
Defined.

Lemma reconciled_copy_not_local net (l : list Obj) (r uploaded : Obj) :
  (forall r uploaded, r ∈ List.filter needsSync l -> sync_outcome net r = Some uploaded ->
                      prop uploaded "id" ∉ ids l) ->
  r ∈ List.filter needsSync l -> sync_outcome net r = Some uploaded ->
  forall x, x ∈ reconciled net <$> l -> prop x "id" = prop uploaded "id" ->
            truthy (prop x "isLocal") = false.
Proof.
  intros Hfresh Hr Hout x Hx Hid.
  apply list_elem_of_fmap in Hx as (y & -> & Hy).
  destruct (needsSync y) eqn:Hsync; [destruct (sync_outcome net y) as [u|] eqn:Hy_out|].
  - rewrite (reconciled_uploaded net y u Hsync Hy_out).
    unfold prop. by rewrite (proj1 (proj2 (mark_synced_flags u))).
  - rewrite (reconciled_failed net y Hy_out) in Hid. exfalso.
    apply (Hfresh r uploaded Hr Hout). rewrite <- Hid.
    apply list_elem_of_fmap. by exists y.
  - rewrite (reconciled_skipped net y Hsync) in Hid. exfalso.
    apply (Hfresh r uploaded Hr Hout). rewrite <- Hid.
    apply list_elem_of_fmap. by exists y.
Qed.

(** X20. A recording that a reconciliation of
    [services/storage-manager.js] has uploaded is stored twice, so the
    service worker needs two calls of [deleteRecording] to remove it: the
    first asks the server to delete it and removes it from the synced
    collection, but the copy in the local collection is still there and
    still found by [getRecording]; the second removes that copy and asks
    nothing of the server. *)
Theorem reconciled_recording_takes_two_deletions (by_date : list Obj -> list Obj)
    (server : ApiService.Server) (net : Network) (w : World) (c : ApiService.Client)
    (i : nat) (r uploaded : Obj) :
  let local := local_collection w in
  let pending := List.filter needsSync local in
  (forall l, by_date l ≡ₚ l) ->
  NoDup (ids local) ->
  (forall r uploaded, r ∈ pending -> sync_outcome net r = Some uploaded ->
                      prop uploaded "id" ∉ ids local) ->
  (length local <= 50)%nat ->
  local !! i = Some r -> needsSync r = true -> sync_outcome net r = Some uploaded ->
  let w' := (StorageManager.syncPendingRecordings net w).1 in
  let id := prop uploaded "id" in
  let request :=
    ApiService.mkRequest ("/recordings/" +:+ to_string id) (Some "DELETE")
      (ApiService.deref c (ApiService.getAuthHeaders c)) ApiService.NoBody in
  let once := BackgroundService.deleteRecording by_date server id
                (BackgroundService.mkBackend w' c) in
  let twice := BackgroundService.deleteRecording by_date server id once.1 in
  ApiService.sent (BackgroundService.api once.1) = ApiService.sent c ++ [request] /\
  (id ∉ ids (synced_collection (BackgroundService.store once.1))) /\
  (id ∈ ids (local_collection (BackgroundService.store once.1))) /\
  is_Some (StorageManager.getRecording by_date id (BackgroundService.store once.1)).2 /\
  ApiService.sent (BackgroundService.api twice.1) =
    ApiService.sent (BackgroundService.api once.1) /\
  (id ∉ ids (synced_collection (BackgroundService.store twice.1))) /\
  (id ∉ ids (local_collection (BackgroundService.store twice.1))).
Proof.
  intros local pending Hperm Hnd Hfresh Hcap Hi Hr Hout w' id request once twice.
  destruct (services_sync_spec net w (ids_stay_apart net local Hnd Hfresh))
    as (_ & Hlocal & Hsynced).
  fold local in Hlocal, Hsynced. fold w' in Hlocal, Hsynced. fold pending in Hsynced.
  assert (Hpending : r ∈ pending).
  { apply list_elem_of_In, List.filter_In. split; [|done].
    apply list_elem_of_In. by eapply list_elem_of_lookup_2. }
  assert (Hin_local : id ∈ ids (local_collection w')).
  { apply list_elem_of_fmap. exists (StorageManager.mark_synced uploaded).
    split; [by rewrite mark_synced_id|].
    rewrite Hlocal. apply list_elem_of_fmap. exists r.
    split; [by rewrite (reconciled_uploaded net r uploaded Hr Hout)|].
    by eapply list_elem_of_lookup_2. }
  assert (Hin_synced : id ∈ ids (synced_collection w')).
  { apply list_elem_of_fmap. exists uploaded. split; [done|].
    rewrite Hsynced. apply uploaded_is_synced; [apply list_elem_of_omap; eauto|].
    etrans; [apply length_omap_le|]. subst pending.
    etrans; [apply List.filter_length_le|]. lia. }
  assert (Hflags : forall x, x ∈ local_collection w' -> prop x "id" = id ->
                             truthy (prop x "isLocal") = false).
  { intros x Hx. rewrite Hlocal in Hx.
    by apply (reconciled_copy_not_local net local r uploaded Hfresh Hpending Hout). }
  (* the first call *)
  destruct (service_delete_spec by_date server id (BackgroundService.mkBackend w' c) Hperm)
    as (_ & Hstore1 & _ & _ & _ & Hasked1).
  cbn [BackgroundService.store BackgroundService.api] in Hstore1, Hasked1.
  fold once in Hstore1, Hasked1. fold request in Hasked1.
  specialize (Hasked1 Hin_synced Hin_local Hflags).
  destruct (storage_delete_spec id w') as (Hs1 & Hl1 & _).
  assert (Hsynced1 : synced_collection (BackgroundService.store once.1) =
                     List.filter (fun r : Obj => bool_decide (prop r "id" ≠ id))
                       (synced_collection w')).
  { unfold synced_collection in *. by rewrite Hstore1. }
  assert (Hlocal1 : local_collection (BackgroundService.store once.1) = local_collection w').
  { unfold local_collection in *. rewrite Hstore1, Hl1.
    unfold synced_collection in Hin_synced. by rewrite bool_decide_eq_true_2. }
  assert (Hgone1 : id ∉ ids (synced_collection (BackgroundService.store once.1))).
  { rewrite Hsynced1. apply filter_other_gone. }
  assert (Hkept1 : id ∈ ids (local_collection (BackgroundService.store once.1))).
  { by rewrite Hlocal1. }
  (* the second call *)
  destruct (service_delete_spec by_date server id once.1 Hperm)
    as (_ & Hstore2 & Hasked2 & Honly2 & _).
  fold twice in Hstore2, Hasked2, Honly2.
  destruct (storage_delete_spec id (BackgroundService.store once.1)) as (Hs2 & Hl2 & _).
  split; [exact Hasked1|]. split; [exact Hgone1|]. split; [exact Hkept1|].
  split.
  { destruct (StorageManager.getRecording by_date id (BackgroundService.store once.1)).2
      as [x|] eqn:Hfind; [by eexists|].
    destruct (getRecording_missing by_date id _ Hperm Hfind) as [_ Hnot]. done. }
  split.
  { destruct Hasked2 as [Heq|Heq]; [done|].
    destruct Honly2 as [Hcontra _]; [|done].
    rewrite Heq. intros Hsame. apply (f_equal length) in Hsame.
    rewrite length_app in Hsame. simpl in Hsame. lia. }
  split.
  - unfold synced_collection in *. rewrite Hstore2, Hs2. apply filter_other_gone.
  - unfold local_collection, synced_collection in *. rewrite Hstore2, Hl2.
    rewrite bool_decide_eq_false_2 by done. apply filter_other_gone.
Qed.

Lemma reconciled_recording_takes_two_deletions_witness :
  (forall l, newest_first l ≡ₚ l) /\
  NoDup (ids (local_collection two_pending)) /\
  (length (local_collection two_pending) <= 50)%nat /\
  local_collection two_pending !! 0%nat = Some (pending_record "local-1" "AAA") /\
  needsSync (pending_record "local-1" "AAA") = true /\
  sync_outcome flaky (pending_record "local-1" "AAA") = Some server_record /\
  (prop server_record "id"
     ∈ ids (local_collection
              (BackgroundService.store
                 (BackgroundService.deleteRecording newest_first (fun _ => Rejected "offline")
                    (prop server_record "id")
                    (BackgroundService.mkBackend
                       (StorageManager.syncPendingRecordings flaky two_pending).1
                       (ApiService.constructor
                          (StorageManager.mkPrefs None StorageManager.Absent)))).1))).
Proof.
  assert (H1 : NoDup (ids (local_collection two_pending))).
  { apply (bool_decide_unpack _). vm_compute. exact I. }
  assert (H2 : forall r uploaded,
             r ∈ List.filter needsSync (local_collection two_pending) ->
             sync_outcome flaky r = Some uploaded ->
             prop uploaded "id" ∉ ids (local_collection two_pending)).
  { intros r uploaded _ Hout. rewrite (flaky_uploads r uploaded Hout).
    apply (bool_decide_unpack _). vm_compute. exact I. }
  assert (H3 : (length (local_collection two_pending) <= 50)%nat) by (simpl; lia).
  assert (H4 : local_collection two_pending !! 0%nat = Some (pending_record "local-1" "AAA"))
    by reflexivity.
  assert (H5 : needsSync (pending_record "local-1" "AAA") = true) by reflexivity.
  assert (H6 : sync_outcome flaky (pending_record "local-1" "AAA") = Some server_record)
    by reflexivity.
  split; [exact newest_first_perm|]. split; [exact H1|]. split; [exact H3|].
  split; [exact H4|]. split; [exact H5|]. split; [exact H6|].
  exact (proj1 (proj2 (proj2
    (reconciled_recording_takes_two_deletions newest_first (fun _ => Rejected "offline")
       flaky two_pending
       (ApiService.constructor (StorageManager.mkPrefs None StorageManager.Absent))
       0%nat (pending_record "local-1" "AAA") server_record
       newest_first_perm H1 H2 H3 H4 H5 H6)))).
Defined.

(** ** The client of the remote API *)

Lemma makeRequest_spec (server : ApiService.Server) endpoint method body (c : ApiService.Client) :
  let request :=
    ApiService.mkRequest endpoint method
      (ApiService.deref c (ApiService.getAuthHeaders c)) body in
  ApiService.makeRequest server endpoint method body c =
    (ApiService.mkClient (ApiService.defaultHeaders c) (ApiService.prefs c)
       (ApiService.sent c ++ [request]),
     server request).
Proof.
  unfold ApiService.makeRequest, ApiService.send, assign. simpl.
  by rewrite (left_id_L ∅ (∪)).
Qed.

Lemma auth_headers_content_type (c : ApiService.Client) :
  ApiService.deref c (ApiService.getAuthHeaders c) !! "Content-Type" =
  ApiService.defaultHeaders c !! "Content-Type".
Proof.
  unfold ApiService.getAuthHeaders.
  destruct (StorageManager.getApiConfig (ApiService.prefs c)) as [| |cfg]; try done.
  destruct (truthy (prop cfg "apiKey")); [|done]. simpl.
  by rewrite lookup_insert_ne.
Qed.

Lemma login_settings (server : ApiService.Server) (credentials : Obj) (c : ApiService.Client) :
  StorageManager.settings (ApiService.prefs (ApiService.authenticateUser server credentials c).1) =
    StorageManager.settings (ApiService.prefs c) /\
  ApiService.defaultHeaders (ApiService.authenticateUser server credentials c).1 =
    ApiService.defaultHeaders c.
Proof.
  unfold ApiService.authenticateUser. rewrite makeRequest_spec.
  destruct (server _) as [data|error]; [|done]. cbv zeta.
  by destruct (truthy (prop (ApiService.json_fields data) "success")
               && truthy (prop (ApiService.json_fields data) "accessToken")).
Qed.

(** X21. [uploadRecording] deletes 'Content-Type' from the headers it got
    from [getAuthHeaders]. With an API key these are a new object and the
    headers of the instance are intact; without one they are
    [this.defaultHeaders] itself, so the deletion stays: from then on
    every request the instance makes, whatever the stored configuration
    has become, goes out without 'Content-Type', JSON bodies included.
    The upload itself carries no 'Content-Type' in either case. *)
Theorem upload_without_key_strips_shared_headers (server : ApiService.Server)
    (blob : string) (metadata : Obj) (c : ApiService.Client) :
  let c' := (ApiService.uploadRecording server blob metadata c).1 in
  ApiService.prefs c' = ApiService.prefs c /\
  (exists request,
      ApiService.sent c' = ApiService.sent c ++ [request] /\
      ApiService.endpoint request = "/recordings/upload" /\
      ApiService.body request = ApiService.FormBody blob metadata /\
      ApiService.headers request =
        delete "Content-Type" (ApiService.deref c (ApiService.getAuthHeaders c))) /\
  match ApiService.getAuthHeaders c with
  | ApiService.Own _ => ApiService.defaultHeaders c' = ApiService.defaultHeaders c
  | ApiService.Default =>
      ApiService.defaultHeaders c' = delete "Content-Type" (ApiService.defaultHeaders c) /\
      forall later server' endpoint method body,
        ApiService.defaultHeaders later = ApiService.defaultHeaders c' ->
        exists request,
          ApiService.sent (ApiService.makeRequest server' endpoint method body later).1 =
            ApiService.sent later ++ [request] /\
          ApiService.headers request !! "Content-Type" = None
  end.
Proof.
  intros c'. subst c'. unfold ApiService.uploadRecording.
  destruct (ApiService.getAuthHeaders c) as [o|] eqn:Hauth.
  - cbn [ApiService.deref].
    destruct (server _) as [result|e];
      [destruct (truthy (prop (ApiService.json_fields result) "success"))|];
      (split; [done|]; split; [by eexists|done]).
  - cbn [ApiService.deref ApiService.defaultHeaders].
    assert (Hlater : forall later server' endpoint method body,
               ApiService.defaultHeaders later = delete "Content-Type" (ApiService.defaultHeaders c) ->
               exists request,
                 ApiService.sent (ApiService.makeRequest server' endpoint method body later).1 =
                   ApiService.sent later ++ [request] /\
                 ApiService.headers request !! "Content-Type" = None).
    { intros later server' endpoint method body Hheaders.
      rewrite makeRequest_spec. eexists. split; [done|]. simpl.
      rewrite auth_headers_content_type, Hheaders. apply lookup_delete_eq. }
    destruct (server _) as [result|e];
      [destruct (truthy (prop (ApiService.json_fields result) "success"))|];
      (split; [done|]; split; [by eexists|]; split; [done|exact Hlater]).
Qed.

(** X22. [authenticateUser] posts the credentials once, with the headers
    of the configuration stored before. Only an answer with a truthy
    [success] and a truthy [accessToken] changes the stored
    configuration: the token becomes the API key, and the requests made
    afterwards carry 'Authorization: Bearer <token>'. Any other answer,
    and any failure of the request, leaves the configuration as it was.
    The settings are never touched. *)
Theorem login_stores_the_token_only_on_success (server : ApiService.Server)
    (credentials : Obj) (c : ApiService.Client) :
  let result := ApiService.authenticateUser server credentials c in
  let request :=
    ApiService.mkRequest "/auth/login" (Some "POST")
      (ApiService.deref c (ApiService.getAuthHeaders c)) (ApiService.JsonBody credentials) in
  ApiService.sent result.1 = ApiService.sent c ++ [request] /\
  ApiService.defaultHeaders result.1 = ApiService.defaultHeaders c /\
  StorageManager.settings (ApiService.prefs result.1) =
    StorageManager.settings (ApiService.prefs c) /\
  match server request with
  | Fulfilled data =>
      let token := prop (ApiService.json_fields data) "accessToken" in
      if truthy (prop (ApiService.json_fields data) "success") && truthy token then
        result.2 = ApiService.Authenticated (prop (ApiService.json_fields data) "user") /\
        ApiService.getAuthHeaders result.1 =
          ApiService.Own (<["Authorization" := JStr ("Bearer " +:+ to_string token)]>
                            (ApiService.defaultHeaders c))
      else
        (exists error, result.2 = ApiService.Refused error) /\
        ApiService.prefs result.1 = ApiService.prefs c
  | Rejected error =>
      result.2 = ApiService.Refused error /\
      ApiService.prefs result.1 = ApiService.prefs c
  end.
Proof.
  intros result request. subst result.
  unfold ApiService.authenticateUser. rewrite makeRequest_spec. fold request.
  destruct (server request) as [data|error]; [|done].
  cbv zeta.
  destruct (truthy (prop (ApiService.json_fields data) "success")
            && truthy (prop (ApiService.json_fields data) "accessToken")) eqn:Hok.
  - apply andb_true_iff in Hok as [_ Htoken].
    split; [done|]. split; [done|]. split; [done|]. split; [done|].
    unfold ApiService.getAuthHeaders. simpl.
    unfold prop at 1. rewrite lookup_insert_eq. simpl.
    rewrite Htoken. unfold prop at 1. by rewrite lookup_insert_eq.
  - split; [done|]. split; [done|]. split; [done|]. split; [by eexists|done].
Qed.

(** X23. [logoutUser] clears the stored configuration only after the
    server has answered its request: when the request fails, the answer
    is a failure with the message of the error and the configuration is
    as it was, so the requests made afterwards still carry the API key;
    when it succeeds, the configuration is [null] and the requests made
    afterwards carry the headers of the instance and no
    'Authorization'. *)
Theorem logout_needs_the_server (server : ApiService.Server) (c : ApiService.Client) :
  let result := ApiService.logoutUser server c in
  let request :=
    ApiService.mkRequest "/auth/logout" (Some "POST")
      (ApiService.deref c (ApiService.getAuthHeaders c)) ApiService.NoBody in
  ApiService.sent result.1 = ApiService.sent c ++ [request] /\
  ApiService.defaultHeaders result.1 = ApiService.defaultHeaders c /\
  match server request with
  | Fulfilled _ =>
      result.2 = succeeded /\
      StorageManager.apiConfig (ApiService.prefs result.1) = StorageManager.Null /\
      ApiService.getAuthHeaders result.1 = ApiService.Default
  | Rejected error =>
      result.2 = failed error /\
      ApiService.prefs result.1 = ApiService.prefs c /\
      ApiService.getAuthHeaders result.1 = ApiService.getAuthHeaders c
  end.
Proof.
  intros result request. subst result.
  unfold ApiService.logoutUser. rewrite makeRequest_spec. fold request.
  destruct (server request) as [data|error]; by repeat split.
Qed.

(** ** Settings and installation *)

Lemma initialize_spec (p : StorageManager.Prefs) (w : World) :
  let result := StorageManager.initialize p w in
  StorageManager.settings result.1 =
    Some (default StorageManager.defaultSettings (StorageManager.settings p)) /\
  StorageManager.apiConfig result.1 = StorageManager.apiConfig p /\
  recordings (storage result.2) = Some (synced_collection w) /\
  localRecordings (storage result.2) = Some (local_collection w) /\
  writes (io result.2) =
    writes (io w)
      ++ match recordings (storage w) with None => ["recordings"] | Some _ => [] end
      ++ match localRecordings (storage w) with None => ["localRecordings"] | Some _ => [] end.
Proof.
  unfold StorageManager.initialize, StorageManager.getSettings, synced_collection,
    local_collection, writes.
  destruct p as [[s|] cfg]; destruct w as [[[rs|] [ls|]] log]; simpl;
    rewrite ?omap_app; simpl; rewrite ?app_nil_r, <- ?app_assoc; done.
Qed.

Lemma initialize_again (p : StorageManager.Prefs) (w : World) :
  let result := StorageManager.initialize p w in
  let again := StorageManager.initialize result.1 result.2 in
  again.1 = result.1 /\ storage again.2 = storage result.2 /\
  writes (io again.2) = writes (io result.2).
Proof.
  unfold StorageManager.initialize, StorageManager.getSettings, writes.
  destruct p as [[s|] cfg]; destruct w as [[[rs|] [ls|]] log]; simpl;
    rewrite ?omap_app; simpl; rewrite ?app_nil_r, <- ?app_assoc; done.
Qed.

(** X24. [initialize] of the storage manager only fills what is missing:
    stored settings, stored collections and the API configuration are
    kept as they are, a key that was never written gets its default (the
    five default settings, an empty collection), and only those keys are
    written; run again, it writes nothing. The service worker runs it
    for the reason 'install' only. The [onInstalled] handler of
    [background.js], in contrast, empties both collections and replaces
    the settings whatever was stored. *)
Theorem initialize_only_fills_what_is_missing (p : StorageManager.Prefs) (w : World) :
  let result := StorageManager.initialize p w in
  let again := StorageManager.initialize result.1 result.2 in
  StorageManager.settings result.1 =
    Some (default StorageManager.defaultSettings (StorageManager.settings p)) /\
  StorageManager.apiConfig result.1 = StorageManager.apiConfig p /\
  recordings (storage result.2) = Some (synced_collection w) /\
  localRecordings (storage result.2) = Some (local_collection w) /\
  writes (io result.2) =
    writes (io w)
      ++ match recordings (storage w) with None => ["recordings"] | Some _ => [] end
      ++ match localRecordings (storage w) with None => ["localRecordings"] | Some _ => [] end /\
  (again.1 = result.1 /\ storage again.2 = storage result.2 /\
   writes (io again.2) = writes (io result.2)) /\
  (forall reason,
      BackgroundService.handleInstall reason p w =
        if bool_decide (reason = JStr "install")
        then (result.1, result.2, [SetBadgeText ""; SetBadgeBackgroundColor "#4F46E5"])
        else (p, w, [])) /\
  (synced_collection (BackgroundJs.onInstalled p w).2 = [] /\
   local_collection (BackgroundJs.onInstalled p w).2 = [] /\
   forall p', StorageManager.settings (BackgroundJs.onInstalled p w).1 =
              StorageManager.settings (BackgroundJs.onInstalled p' w).1).
Proof.
  intros result again.
  destruct (initialize_spec p w) as (Hs & Hc & Hr & Hl & Hw).
  fold result in Hs, Hc, Hr, Hl, Hw.
  split; [exact Hs|]. split; [exact Hc|]. split; [exact Hr|]. split; [exact Hl|].
  split; [exact Hw|].
  split; [exact (initialize_again p w)|].
  split.
  { intros reason. unfold BackgroundService.handleInstall.
    case_bool_decide; [|done]. subst result. by destruct (StorageManager.initialize p w). }
  split; [done|]. split; [done|]. done.
Qed.

(** X25. [updateSettings] merges: the members of the argument win, every
    other stored setting is kept, the API configuration is untouched and
    an update applied twice is the update applied once. On a store that
    holds no settings the result is the argument alone, and since
    settings are then stored, a later [initialize] adds none of the
    defaults. *)
Theorem settings_update_merges (newSettings : Obj) (p : StorageManager.Prefs) (w : World) :
  let result := StorageManager.updateSettings newSettings p in
  let current := default ∅ (StorageManager.settings p) in
  StorageManager.settings result.1 = Some result.2 /\
  StorageManager.apiConfig result.1 = StorageManager.apiConfig p /\
  (forall key, result.2 !! key =
               match newSettings !! key with
               | Some v => Some v
               | None => current !! key
               end) /\
  StorageManager.updateSettings newSettings result.1 = result /\
  (StorageManager.settings p = None ->
   result.2 = newSettings /\ (StorageManager.initialize result.1 w).1 = result.1).
Proof.
  intros result current. subst result current.
  unfold StorageManager.updateSettings, StorageManager.getSettings, assign. simpl.
  split; [done|]. split; [done|].
  split.
  { intros key. rewrite lookup_union.
    destruct (newSettings !! key) as [v|]; [|by rewrite (left_id_L None _)].
    by destruct (default ∅ (StorageManager.settings p) !! key). }
  split.
  { f_equal; [f_equal; f_equal|]; by rewrite (assoc_L (∪)), (idemp_L (∪)). }
  intros Hnone. rewrite Hnone. simpl.
  by rewrite (right_id_L ∅ (∪)).
Qed.

Lemma settings_update_merges_witness :
  StorageManager.settings (StorageManager.mkPrefs None StorageManager.Absent) = None /\
  (StorageManager.updateSettings (<["theme" := JStr "dark"]> ∅)
     (StorageManager.mkPrefs None StorageManager.Absent)).2 = <["theme" := JStr "dark"]> ∅.
Proof.
  split; [reflexivity|].
  exact (proj1 (proj2 (proj2 (proj2 (proj2
    (settings_update_merges (<["theme" := JStr "dark"]> ∅)
       (StorageManager.mkPrefs None StorageManager.Absent) fresh_store)))) eq_refl)).
Defined.

(** [getRecordings] of the service worker, by the stored settings. *)
Lemma service_listing_spec (by_date : list Obj -> list Obj) (server : ApiService.Server)
    (b : BackgroundService.Backend) :
  let result := BackgroundService.getRecordings by_date server b in
  let client := BackgroundService.api b in
  let stored :=
    by_date (synced_collection (BackgroundService.store b)
               ++ local_collection (BackgroundService.store b)) in
  let request :=
    ApiService.mkRequest "/recordings?limit=50&offset=0" None
      (ApiService.deref client (ApiService.getAuthHeaders client)) ApiService.NoBody in
  storage (BackgroundService.store result.1) = storage (BackgroundService.store b) /\
  writes (io (BackgroundService.store result.1)) = writes (io (BackgroundService.store b)) /\
  ApiService.prefs (BackgroundService.api result.1) = ApiService.prefs client /\
  match StorageManager.settings (ApiService.prefs client) with
  | None => result.2 = None /\ ApiService.sent (BackgroundService.api result.1) = ApiService.sent client
  | Some settings =>
      if truthy (prop settings "apiKey") then
        ApiService.sent (BackgroundService.api result.1) = ApiService.sent client ++ [request] /\
        result.2 = Some match server request with
                        | Fulfilled data =>
                            default [] (ApiService.json_recordings data)
                              ++ List.filter (fun r : Obj => truthy (prop r "isLocal")) stored
                        | Rejected _ => stored
                        end
      else
        result.2 = Some stored /\
        ApiService.sent (BackgroundService.api result.1) = ApiService.sent client
  end.
Proof.
  intros result client stored request. subst result.
  unfold BackgroundService.getRecordings, StorageManager.getRecordings,
    StorageManager.getSettings, writes.
  cbn [record_io storage io]. fold client.
  assert (Hw : omap (fun e => match e with StorageSet key _ => Some key | _ => None end)
                 ((io (BackgroundService.store b) ++ [StorageGet "recordings"])
                    ++ [StorageGet "localRecordings"]) =
               omap (fun e => match e with StorageSet key _ => Some key | _ => None end)
                 (io (BackgroundService.store b))).
  { rewrite !omap_app. simpl. by rewrite !app_nil_r. }
  destruct (StorageManager.settings (ApiService.prefs client)) as [settings|]; [|done].
  destruct (truthy (prop settings "apiKey")); [|done].
  unfold ApiService.getRecordings. rewrite makeRequest_spec. fold request.
  by destruct (server request).
Qed.

(** X26. Whether [getRecordings] of the service worker asks the server
    depends on the member [apiKey] of the stored settings, which neither
    [initialize] nor a login writes: on a store whose settings hold no
    API key, initialised and with a user logged in or not, it makes no
    request and answers with the stored recordings of both collections,
    in the order of the sort. On a store that holds no settings at all
    it fails, logged in or not, although both collections could be
    read. It never writes to the store. *)
Theorem listing_ignores_the_login (by_date : list Obj -> list Obj)
    (login server : ApiService.Server) (credentials : Obj)
    (p : StorageManager.Prefs) (w : World) (instance : ApiService.Client) :
  (forall settings, StorageManager.settings p = Some settings ->
                    truthy (prop settings "apiKey") = false) ->
  let ready := StorageManager.initialize p w in
  let logged_in (p : StorageManager.Prefs) :=
    (ApiService.authenticateUser login credentials
       (ApiService.mkClient (ApiService.defaultHeaders instance) p
          (ApiService.sent instance))).1 in
  let result := BackgroundService.getRecordings by_date server
                  (BackgroundService.mkBackend ready.2 (logged_in ready.1)) in
  let unready := BackgroundService.getRecordings by_date server
                   (BackgroundService.mkBackend w (logged_in p)) in
  result.2 = Some (by_date (synced_collection w ++ local_collection w)) /\
  ApiService.sent (BackgroundService.api result.1) = ApiService.sent (logged_in ready.1) /\
  writes (io (BackgroundService.store result.1)) = writes (io ready.2) /\
  (StorageManager.settings p = None ->
   unready.2 = None /\
   ApiService.sent (BackgroundService.api unready.1) = ApiService.sent (logged_in p) /\
   storage (BackgroundService.store unready.1) = storage w).
Proof.
  intros Hkey ready logged_in result unready.
  destruct (initialize_spec p w) as (Hs & _ & Hr & Hl & _). fold ready in Hs, Hr, Hl.
  assert (Hsettings : forall p0,
             StorageManager.settings (ApiService.prefs (logged_in p0)) =
             StorageManager.settings p0).
  { intros p0. subst logged_in. cbv beta.
    by destruct (login_settings login credentials
                   (ApiService.mkClient (ApiService.defaultHeaders instance) p0
                      (ApiService.sent instance))). }
  destruct (service_listing_spec by_date server
              (BackgroundService.mkBackend ready.2 (logged_in ready.1)))
    as (_ & Hw & _ & Hcase).
  destruct (service_listing_spec by_date server
              (BackgroundService.mkBackend w (logged_in p)))
    as (Hst' & _ & _ & Hcase').
  fold result in Hw, Hcase. fold unready in Hst', Hcase'.
  cbn [BackgroundService.store BackgroundService.api] in *.
  rewrite Hsettings in Hcase, Hcase'. rewrite Hs in Hcase.
  assert (Hno : truthy (prop (default StorageManager.defaultSettings
                                 (StorageManager.settings p)) "apiKey") = false).
  { destruct (StorageManager.settings p) as [s|] eqn:Hp; [by apply Hkey|done]. }
  rewrite Hno in Hcase. destruct Hcase as [Hres Hsent].
  unfold synced_collection, local_collection in Hres. rewrite Hr, Hl in Hres.
  split; [exact Hres|]. split; [exact Hsent|]. split; [exact Hw|].
  intros Hnone. rewrite Hnone in Hcase'. destruct Hcase' as [Hres' Hsent'].
  by repeat split.
Qed.

Lemma listing_ignores_the_login_witness :
  (forall settings,
      StorageManager.settings (StorageManager.mkPrefs None StorageManager.Absent) = Some settings ->
      truthy (prop settings "apiKey") = false) /\
  (BackgroundService.getRecordings newest_first (fun _ => Rejected "offline")
     (BackgroundService.mkBackend
        (StorageManager.initialize (StorageManager.mkPrefs None StorageManager.Absent)
           one_synced).2
        (ApiService.authenticateUser (fun _ => Rejected "offline") ∅
           (ApiService.mkClient
              (ApiService.defaultHeaders
                 (ApiService.constructor (StorageManager.mkPrefs None StorageManager.Absent)))
              (StorageManager.initialize (StorageManager.mkPrefs None StorageManager.Absent)
                 one_synced).1
              (ApiService.sent
                 (ApiService.constructor
                    (StorageManager.mkPrefs None StorageManager.Absent))))).1)).2 =
    Some (newest_first (synced_collection one_synced ++ local_collection one_synced)).
Proof.
  assert (H : forall settings,
             StorageManager.settings (StorageManager.mkPrefs None StorageManager.Absent)
               = Some settings ->
             truthy (prop settings "apiKey") = false) by (intros settings Hs; discriminate Hs).
  split; [exact H|].
  exact (proj1 (listing_ignores_the_login newest_first (fun _ => Rejected "offline")
                  (fun _ => Rejected "offline") ∅
                  (StorageManager.mkPrefs None StorageManager.Absent) one_synced
                  (ApiService.constructor (StorageManager.mkPrefs None StorageManager.Absent))
                  H)).
Defined.
(** ** The message listener of [background.js] *)

#[local] Transparent BackgroundJs.notifyTabsRecordingStatus
  BackgroundJs.ensureOffscreenDocument.

Lemma call_notify now (isRecording : bool) (s : BackgroundJs.Manager) log :
  BackgroundJs.call now (BackgroundJs.notifyTabsRecordingStatus isRecording) (s, log) =
    (s, log ++ [Called TabsQuery]).
Proof. reflexivity. Qed.

Lemma call_stop now (s : BackgroundJs.Manager) :
  BackgroundJs.call now BackgroundJs.stopRecording (s, []) =
    if BackgroundJs.isRecording s
    then (BackgroundJs.mkManager false (BackgroundJs.startTime s) (BackgroundJs.offscreenReady s),
          [Fired (PostOffscreen (mkOffscreenMsg "stopCapture" None));
           Fired (SetBadgeText "");
           Called TabsQuery])
    else (s, []).
Proof.
  unfold BackgroundJs.call, BackgroundJs.stopRecording, BackgroundJs.notifyTabsRecordingStatus,
    BackgroundJs.sendToOffscreen.
  unfold mbind, Async_bind. simpl.
  by destruct (BackgroundJs.isRecording s).
Qed.

Lemma call_start now (options : Obj) (s : BackgroundJs.Manager) :
  BackgroundJs.call now (BackgroundJs.startRecording options) (s, []) =
    if BackgroundJs.isRecording s
    then (BackgroundJs.mkManager false (BackgroundJs.startTime s) (BackgroundJs.offscreenReady s),
          [Fired (SetBadgeText ""); Called TabsQuery])
    else (s, [Called GetContexts]).
Proof.
  unfold BackgroundJs.call, BackgroundJs.startRecording, BackgroundJs.notifyTabsRecordingStatus,
    BackgroundJs.ensureOffscreenDocument.
  unfold mbind, Async_bind. simpl.
  by destruct (BackgroundJs.isRecording s).
Qed.

#[local] Opaque BackgroundJs.call.

(** X27. The listener of [background.js] routes by [request.target]
    alone, and what it has done when it returns is the following; the
    methods it calls without awaiting them have then run to their first
    [await].

    A message without a target is taken for an event of the offscreen
    document: it is answered, with [{success: true}], exactly when its
    action is one of the four events; it never starts or stops a
    recording through the coordinator's methods, reports the status or
    runs a reconciliation, and never touches [startTime]; with any other
    action, those of the popup included, nothing happens and nothing is
    answered. Of the four events only [captureError] changes the
    coordinator: it clears [isRecording], clears the badge, has asked for
    the tabs and has announced 'Recording Error'. [recordingError]
    announces 'Recording Error' too, and so does [recordingComplete] when
    the message carries no data; with data it shows nothing before the
    listener returns.

    A message for 'background' is always answered: later for start, stop
    and sync, at once for the others, with 'Unknown action' for an action
    that is none of the five. Status, sync and unknown requests leave the
    coordinator as it is and show nothing. A stop request, while a
    recording is in progress, has posted the stop command, cleared
    [isRecording] and the badge and asked for the tabs when the listener
    returns; with no recording in progress it has done nothing. A start
    request, with no recording in progress, has only asked for the
    offscreen contexts; while a recording is in progress it has cleared
    [isRecording] and the badge and asked for the tabs. A logout clears
    the badge and asks for the tabs, and leaves the coordinator as it is.

    A message with any other target is ignored. *)
Theorem listener_routes_by_target now (request : BackgroundJs.Message)
    (s : BackgroundJs.Manager) :
  let h := BackgroundJs.onMessage now request s in
  let action := BackgroundJs.msg_action request in
  let nothing := BackgroundJs.mkHandled s [] [] BackgroundJs.NoResponse in
  let cleared :=
    BackgroundJs.mkManager false (BackgroundJs.startTime s) (BackgroundJs.offscreenReady s) in
  (truthy (BackgroundJs.msg_target request) = false ->
   (BackgroundJs.answer h = BackgroundJs.Responds succeeded <-> action ∈ offscreen_events) /\
   (action ∉ offscreen_events -> h = nothing) /\
   (forall t, t ∈ BackgroundJs.started h ->
              t = BackgroundJs.NotifyTabs false \/ t = BackgroundJs.HandleRecordingComplete) /\
   BackgroundJs.startTime (BackgroundJs.manager h) = BackgroundJs.startTime s /\
   (action ≠ JStr "captureError" -> BackgroundJs.manager h = s) /\
   (action = JStr "captureError" ->
    h = BackgroundJs.mkHandled cleared
          [Fired (SetBadgeText ""); Called TabsQuery; Fired (Notification "Recording Error")]
          [BackgroundJs.NotifyTabs false] (BackgroundJs.Responds succeeded)) /\
   (action = JStr "recordingComplete" ->
    h = BackgroundJs.mkHandled s
          (match BackgroundJs.msg_data request with
           | Some _ => []
           | None => [Fired (Notification "Recording Error")]
           end)
          [BackgroundJs.HandleRecordingComplete] (BackgroundJs.Responds succeeded)) /\
   (action = JStr "recordingError" ->
    h = BackgroundJs.mkHandled s [Fired (Notification "Recording Error")] []
          (BackgroundJs.Responds succeeded))) /\
  (BackgroundJs.msg_target request = JStr "background" ->
   BackgroundJs.answer h ≠ BackgroundJs.NoResponse /\
   (BackgroundJs.answer h = BackgroundJs.RespondsLater <->
    action ∈ [JStr "startRecording"; JStr "stopRecording"; JStr "syncRecordings"]) /\
   (action = JStr "startRecording" ->
    h = BackgroundJs.mkHandled
          (if BackgroundJs.isRecording s then cleared else s)
          (if BackgroundJs.isRecording s
           then [Fired (SetBadgeText ""); Called TabsQuery]
           else [Called GetContexts])
          [BackgroundJs.StartRecording (BackgroundJs.msg_options request)]
          BackgroundJs.RespondsLater) /\
   (action = JStr "stopRecording" ->
    h = BackgroundJs.mkHandled
          (if BackgroundJs.isRecording s then cleared else s)
          (if BackgroundJs.isRecording s
           then [Fired (PostOffscreen (mkOffscreenMsg "stopCapture" None));
                 Fired (SetBadgeText "");
                 Called TabsQuery]
           else [])
          [BackgroundJs.StopRecording] BackgroundJs.RespondsLater) /\
   (action = JStr "getRecordingStatus" ->
    h = BackgroundJs.mkHandled s [] []
          (BackgroundJs.RespondsStatus (BackgroundJs.isRecording s) (BackgroundJs.startTime s))) /\
   (action = JStr "syncRecordings" ->
    h = BackgroundJs.mkHandled s [] [BackgroundJs.SyncPendingRecordings]
          BackgroundJs.RespondsLater) /\
   (action = JStr "logout" ->
    h = BackgroundJs.mkHandled s [Fired (SetBadgeText ""); Called TabsQuery]
          [BackgroundJs.NotifyTabs false] (BackgroundJs.Responds succeeded)) /\
   (action ∉ popup_requests ->
    h = BackgroundJs.mkHandled s [] [] (BackgroundJs.Responds (failed "Unknown action")))) /\
  (truthy (BackgroundJs.msg_target request) = true ->
   BackgroundJs.msg_target request ≠ JStr "background" ->
   h = nothing).
Proof.
  intros h action nothing cleared. subst h nothing cleared.
  unfold BackgroundJs.onMessage. fold action.
  rewrite call_start, call_stop, !call_notify.
  unfold offscreen_events, popup_requests.
  split; [|split].
  - intros ->. cbn [negb].
    repeat case_bool_decide; rewrite ?elem_of_cons, ?elem_of_nil; simpl;
      (split; [|split; [|split; [|split; [|split; [|split; [|split]]]]]]);
      try done; try tauto; try congruence;
      try (intros t Ht; rewrite ?elem_of_cons, ?elem_of_nil in Ht; tauto);
      try (split; [by intros|tauto]); try (intros Hnot; exfalso; apply Hnot; tauto).
  - intros ->. cbn [truthy negb String.eqb Ascii.eqb Bool.eqb andb orb].
    rewrite bool_decide_eq_true_2 by done. cbn [orb].
    repeat case_bool_decide; rewrite ?elem_of_cons, ?elem_of_nil;
      destruct (BackgroundJs.isRecording s); simpl;
      (split; [|split; [|split; [|split; [|split; [|split; [|split]]]]]]);
      try done; try tauto; try congruence;
      try (split; [by intros|tauto]); try (intros Hnot; exfalso; apply Hnot; tauto);
      try (split; [done|intros [?|[?|[?|[]]]]; congruence]).
  - intros -> Hother. cbn [negb andb]. rewrite bool_decide_eq_false_2 by done. done.
Qed.
